(** * datlex: spreadsheet import reconciliation and bulk persistence

    A shallow embedding of the import logic of
    [src/components/AssetManagement.tsx] and
    [src/components/HistoryTable.tsx] and of the persistence gateway
    [src/services/supabaseService.ts], followed by the properties that
    the specification states about them. *)

From Stdlib Require Import String Ascii List ZArith Lia Bool Arith.
From Stdlib Require Import DecimalString SpecFloat.
Import ListNotations.
Set Warnings "-register-all".
Open Scope string_scope.
Open Scope list_scope.

(* ===================================================================== *)
(** * The JavaScript layer *)
(* ===================================================================== *)

(** Strings are sequences of code units below 256 (Latin-1 text), one
    [ascii] per code unit.  Numbers are doubles.  Arrays are dense: a
    missing element reads as [undefined]. *)
Module JS.

Definition number := spec_float.

Inductive value :=
| VUndefined
| VNull
| VBool (b : bool)
| VNum (n : number)
| VStr (s : string)
| VArr (l : list value).

(** ** Characters *)

Definition code (c : ascii) : nat := nat_of_ascii c.

Definition in_range (lo hi : nat) (c : ascii) : bool :=
  (lo <=? code c)%nat && (code c <=? hi)%nat.

(** [A-Z] *)
Definition is_upper (c : ascii) : bool := in_range 65 90 c.
(** [a-z] *)
Definition is_lower (c : ascii) : bool := in_range 97 122 c.
(** [\d] *)
Definition is_digit (c : ascii) : bool := in_range 48 57 c.

(** [\s], which is also what [trim] strips: TAB, LF, VT, FF, CR, SPACE
    and NBSP. *)
Definition is_space (c : ascii) : bool :=
  in_range 9 13 c || (code c =? 32)%nat || (code c =? 160)%nat.

(** Lower-casing of one code unit: [A-Z], and the Latin-1 capitals
    U+00C0..U+00DE without the multiplication sign U+00D7. *)
Definition lower_char (c : ascii) : ascii :=
  if is_upper c || (in_range 192 222 c && negb (code c =? 215)%nat)
  then ascii_of_nat (code c + 32) else c.

(** Upper-casing of one code unit: [a-z], and the Latin-1 small letters
    U+00E0..U+00FE without the division sign U+00F7.  (The three Latin-1
    letters whose capital lies outside Latin-1 are left alone; the code
    only upper-cases groups matching [[-_][a-z]].) *)
Definition upper_char (c : ascii) : ascii :=
  if is_lower c || (in_range 224 254 c && negb (code c =? 247)%nat)
  then ascii_of_nat (code c - 32) else c.

(** ** Strings *)

Fixpoint map_chars (f : ascii -> ascii) (s : string) : string :=
  match s with
  | EmptyString => EmptyString
  | String c r => String (f c) (map_chars f r)
  end.

Fixpoint filter_chars (p : ascii -> bool) (s : string) : string :=
  match s with
  | EmptyString => EmptyString
  | String c r => if p c then String c (filter_chars p r) else filter_chars p r
  end.

Fixpoint forall_chars (p : ascii -> bool) (s : string) : bool :=
  match s with
  | EmptyString => true
  | String c r => p c && forall_chars p r
  end.

Definition toLowerCase (s : string) : string := map_chars lower_char s.
Definition toUpperCase (s : string) : string := map_chars upper_char s.

Fixpoint trimStart (s : string) : string :=
  match s with
  | EmptyString => EmptyString
  | String c r => if is_space c then trimStart r else s
  end.

(** The string without its trailing white space. *)
Fixpoint trimEnd (s : string) : string :=
  match s with
  | EmptyString => EmptyString
  | String c r =>
      match trimEnd r with
      | EmptyString => if is_space c then EmptyString else String c EmptyString
      | r' => String c r'
      end
  end.

Definition trim (s : string) : string := trimEnd (trimStart s).

(** [s.includes(key)] *)
Fixpoint includes (s key : string) : bool :=
  String.prefix key s ||
  match s with
  | EmptyString => false
  | String _ r => includes r key
  end.

(** [s.replace(c, '')] with a one-character string pattern: only the
    first occurrence goes. *)
Fixpoint remove_first (c : ascii) (s : string) : string :=
  match s with
  | EmptyString => EmptyString
  | String d r => if Ascii.eqb c d then r else String d (remove_first c r)
  end.

(** [s.split(sep)] for a one-character separator. *)
Fixpoint split (sep : ascii) (s : string) : list string :=
  match s with
  | EmptyString => [EmptyString]
  | String c r =>
      if Ascii.eqb c sep then EmptyString :: split sep r
      else match split sep r with
           | [] => [String c EmptyString]
           | w :: ws => String c w :: ws
           end
  end.

(** ** Numbers

    A number is an IEEE 754 binary64 value, in the representation of the
    standard library's [SpecFloat]: signed zeros, signed infinities, one
    [NaN], and the finite values [m * 2^e] with a mantissa of at most 53
    bits. *)

Definition prec : Z := 53.
Definition emax : Z := 1024.

Definition NaN : number := S754_nan.

(** The double nearest to an integer (ties to even); the integers up to
    2^53 in magnitude are exact. *)
Definition Int (z : Z) : number := binary_normalize prec emax z 0 false.

(** The double nearest to [m * 10^e], for [0 <= m]: the rounding of the
    mathematical value of a decimal literal.  For a negative [e] the
    quotient is taken with more than a thousand binary digits after the
    point and the position of the remainder, which is what rounding to
    nearest needs. *)
Definition round_decimal (neg : bool) (m e : Z) : number :=
  if (m =? 0)%Z then S754_zero neg
  else if (0 <=? e)%Z then binary_normalize prec emax (cond_Zopp neg (m * 10 ^ e)) 0 neg
  else
    let d := (10 ^ (- e))%Z in
    let k := (1100 + 4 * (- e))%Z in
    let q := ((m * 2 ^ k) / d)%Z in
    let r := ((m * 2 ^ k) mod d)%Z in
    let l := if (r =? 0)%Z then loc_Exact else loc_Inexact (Z.compare (2 * r) d) in
    binary_round_aux prec emax neg q (- k) l.

Definition Z_to_string (z : Z) : string := NilZero.string_of_int (Z.to_int z).

(** *** [Number::toString] *)

(** [x < 10^n] for the positive rational [x = num / den]. *)
Definition below_pow10 (num den n : Z) : bool :=
  if (0 <=? n)%Z then (num <? den * 10 ^ n)%Z else (num * 10 ^ (- n) <? den)%Z.

(** The least [n], from [n] on, with [x < 10^n]. *)
Fixpoint least_exponent (fuel : nat) (num den n : Z) : Z :=
  match fuel with
  | O => n
  | S fuel => if below_pow10 num den n then n else least_exponent fuel num den (n + 1)
  end.

(** The integer [s] of [k] digits for which [s * 10^(n-k)] is the
    double [x = num / den] again, if there is one: of the two integers
    around [x / 10^(n-k)] the one that reads back as [x], the closer one
    if both do, the even one if they are equally close. *)
Definition digits_of_length (x : number) (num den n k : Z) : option Z :=
  let '(p, q) := if (0 <=? k - n)%Z then (num * 10 ^ (k - n), den)%Z
                 else (num, den * 10 ^ (n - k))%Z in
  let lo := (p / q)%Z in
  let hi := (lo + 1)%Z in
  let back s := SFeqb (round_decimal false s (n - k)) x in
  match back lo && (0 <? lo)%Z, back hi with
  | true, true =>
      match (2 * p ?= (2 * lo + 1) * q)%Z with
      | Lt => Some lo
      | Gt => Some hi
      | Eq => Some (if Z.even lo then lo else hi)
      end
  | true, false => Some lo
  | false, true => Some hi
  | false, false => None
  end.

(** The shortest such integer, trying the lengths from [k] on. *)
Fixpoint shortest_digits (fuel : nat) (x : number) (num den n k : Z) : Z * Z :=
  match fuel with
  | O => (0%Z, k)
  | S fuel =>
      match digits_of_length x num den n k with
      | Some s => (s, k)
      | None => shortest_digits fuel x num den n (k + 1)
      end
  end.

Fixpoint zeros (n : nat) : string :=
  match n with
  | O => EmptyString
  | S n => String "0" (zeros n)
  end.

Fixpoint strip_trailing_zeros (s : string) : string :=
  match s with
  | EmptyString => EmptyString
  | String c r =>
      match strip_trailing_zeros r with
      | EmptyString => if Ascii.eqb c "0" then EmptyString else String c EmptyString
      | r' => String c r'
      end
  end.

(** The text of the positive finite double [x = m * 2^e]: its shortest
    digits [d1 ... dk] and the position [n] of the decimal point
    ([10^(n-1) <= x < 10^n]), laid out as the language prescribes: plain
    digits up to 21 places, [0.000ddd] down to seven places, and the
    exponent form beyond.  The search for [n] starts from a power of ten
    that is not above [x]: [2^b <= x], and [10^(b/4) <= 2^b] for a
    positive [b], [10^(b/3) <= 2^b] for a negative one. *)
Definition finite_to_string (m : positive) (e : Z) : string :=
  let x := S754_finite false m e in
  let '(num, den) := if (0 <=? e)%Z then (Zpos m * 2 ^ e, 1)%Z else (Zpos m, 2 ^ (- e))%Z in
  let b := (Z.log2 num - Z.log2 den - 1)%Z in
  let n0 := least_exponent 100 num den (if (0 <=? b)%Z then b / 4 else b / 3)%Z in
  let '(s, k0) := shortest_digits 17 x num den n0 1 in
  let all := Z_to_string s in
  let n := (n0 - k0 + Z.of_nat (String.length all))%Z in
  let digits := strip_trailing_zeros all in
  let k := Z.of_nat (String.length digits) in
  if (k <=? n)%Z && (n <=? 21)%Z then (digits ++ zeros (Z.to_nat (n - k)))%string
  else if (0 <? n)%Z && (n <=? 21)%Z
  then (substring 0 (Z.to_nat n) digits ++ "."
        ++ substring (Z.to_nat n) (Z.to_nat (k - n)) digits)%string
  else if (-6 <? n)%Z && (n <=? 0)%Z then ("0." ++ zeros (Z.to_nat (- n)) ++ digits)%string
  else
    let exponent :=
      ((if (0 <=? n - 1)%Z then "+" else "-") ++ Z_to_string (Z.abs (n - 1)))%string in
    match digits with
    | String d EmptyString => String d ("e" ++ exponent)%string
    | String d rest => String d ("." ++ rest ++ "e" ++ exponent)%string
    | EmptyString => EmptyString
    end.

Definition number_to_string (x : number) : string :=
  match x with
  | S754_nan => "NaN"
  | S754_zero _ => "0"
  | S754_infinity false => "Infinity"
  | S754_infinity true => "-Infinity"
  | S754_finite false m e => finite_to_string m e
  | S754_finite true m e => ("-" ++ finite_to_string m e)%string
  end.

(** *** [StringToNumber] *)

Definition is_hex_digit (c : ascii) : bool :=
  is_digit c || in_range 65 70 c || in_range 97 102 c.

Definition digit_value (c : ascii) : Z :=
  if is_digit c then Z.of_nat (code c - 48)
  else if in_range 65 70 c then Z.of_nat (code c - 55)
  else Z.of_nat (code c - 87).

Fixpoint digits_value (base acc : Z) (s : string) : Z :=
  match s with
  | EmptyString => acc
  | String c r => digits_value base (base * acc + digit_value c)%Z r
  end.

(** The longest prefix of decimal digits, and the rest. *)
Fixpoint span_digits (s : string) : string * string :=
  match s with
  | String c r =>
      if is_digit c then let '(d, rest) := span_digits r in (String c d, rest)
      else (EmptyString, s)
  | EmptyString => (EmptyString, EmptyString)
  end.

(** [DecimalDigits], [+ DecimalDigits] or [- DecimalDigits] *)
Definition SignedInteger (s : string) : option Z :=
  let '(neg, digits) := match s with
                        | String "+" r => (false, r)
                        | String "-" r => (true, r)
                        | _ => (false, s)
                        end in
  if negb (digits =? "") && forall_chars is_digit digits
  then Some (cond_Zopp neg (digits_value 10 0 digits))
  else None.

(** [StrUnsignedDecimalLiteral] without [Infinity]: digits with an
    optional fraction, or a fraction alone, and an optional exponent
    part.  The result is the mantissa and the decimal exponent. *)
Definition StrUnsignedDecimalLiteral (s : string) : option (Z * Z) :=
  let '(whole, rest) := span_digits s in
  let '(fraction, rest) := match rest with
                           | String "." r => span_digits r
                           | _ => (EmptyString, rest)
                           end in
  if (whole =? "") && (fraction =? "") then None
  else
    let mantissa := digits_value 10 0 (whole ++ fraction)%string in
    let scale := (- Z.of_nat (String.length fraction))%Z in
    match rest with
    | EmptyString => Some (mantissa, scale)
    | String c r =>
        if Ascii.eqb c "e" || Ascii.eqb c "E" then
          match SignedInteger r with
          | Some e => Some (mantissa, (scale + e)%Z)
          | None => None
          end
        else None
    end.

(** [NonDecimalIntegerLiteral]: [0x], [0o] or [0b], in either case,
    before at least one digit of that base. *)
Definition NonDecimalIntegerLiteral (s : string) : option Z :=
  match s with
  | String "0" (String p digits) =>
      let radix (base : Z) (ok : ascii -> bool) :=
        if negb (digits =? "") && forall_chars ok digits
        then Some (digits_value base 0 digits) else None in
      if Ascii.eqb p "x" || Ascii.eqb p "X" then radix 16%Z is_hex_digit
      else if Ascii.eqb p "o" || Ascii.eqb p "O" then radix 8%Z (in_range 48 55)
      else if Ascii.eqb p "b" || Ascii.eqb p "B" then radix 2%Z (in_range 48 49)
      else None
  | _ => None
  end.

(** [Number(s)] on a string: the white space around the text is dropped;
    the empty text is [+0]; a [StrNumericLiteral] is rounded to the
    nearest double; anything else is [NaN]. *)
Definition StringToNumber (s : string) : number :=
  let t := trim s in
  if t =? "" then S754_zero false
  else
    match NonDecimalIntegerLiteral t with
    | Some z => Int z
    | None =>
        let '(neg, u) := match t with
                         | String "+" r => (false, r)
                         | String "-" r => (true, r)
                         | _ => (false, t)
                         end in
        if u =? "Infinity" then S754_infinity neg
        else match StrUnsignedDecimalLiteral u with
             | Some (m, e) => round_decimal neg m e
             | None => NaN
             end
    end.

(** ** Conversions *)

Definition join_by (f : value -> string) (sep : string) : list value -> string :=
  fix go (l : list value) : string :=
    match l with
    | [] => EmptyString
    | x :: r =>
        let sx := match x with
                  | VUndefined | VNull => EmptyString
                  | _ => f x
                  end in
        match r with
        | [] => sx
        | _ :: _ => (sx ++ sep ++ go r)%string
        end
    end.

(** [String(v)] *)
Fixpoint ToString (v : value) : string :=
  match v with
  | VUndefined => "undefined"
  | VNull => "null"
  | VBool true => "true"
  | VBool false => "false"
  | VNum n => number_to_string n
  | VStr s => s
  | VArr l => join_by ToString "," l
  end.

(** [l.join(sep)] *)
Definition join (l : list value) (sep : string) : string :=
  join_by ToString sep l.

(** [Number(v)] *)
Definition ToNumber (v : value) : number :=
  match v with
  | VUndefined => NaN
  | VNull => Int 0
  | VBool true => Int 1
  | VBool false => Int 0
  | VNum n => n
  | VStr s => StringToNumber s
  | VArr _ => StringToNumber (ToString v)
  end.

(** Truthiness: [undefined], [null], [false], [NaN], [+0], [-0] and
    [''] are falsy. *)
Definition truthy (v : value) : bool :=
  match v with
  | VUndefined | VNull => false
  | VBool b => b
  | VNum (S754_nan | S754_zero _) => false
  | VNum _ => true
  | VStr s => negb (s =? "")
  | VArr _ => true
  end.

(** [a || b] *)
Definition or_else (a b : value) : value := if truthy a then a else b.

(** [a === b].  Numbers compare as doubles: [NaN] differs from itself
    and the two zeros are equal.  Arrays compare by reference; no array
    is compared in the modelled code, and two arrays are taken as
    distinct. *)
Definition strict_eq (a b : value) : bool :=
  match a, b with
  | VUndefined, VUndefined => true
  | VNull, VNull => true
  | VBool x, VBool y => Bool.eqb x y
  | VNum x, VNum y => SFeqb x y
  | VStr x, VStr y => (x =? y)
  | _, _ => false
  end.

Definition is_array (v : value) : bool :=
  match v with VArr _ => true | _ => false end.

Definition is_string (v : value) : bool :=
  match v with VStr _ => true | _ => false end.

(** ** Objects

    A plain object is its list of own properties in insertion order;
    this is the order in which [for (const key in o)] visits them (the
    keys of the modelled records are not integer-like). *)
Definition object := list (string * value).

Definition keys (o : object) : list string := map fst o.

(** [o[k]] *)
Fixpoint get (o : object) (k : string) : value :=
  match o with
  | [] => VUndefined
  | (k', v) :: r => if k' =? k then v else get r k
  end.

(** [o[k] = v]: an existing property keeps its place, a new one is
    appended. *)
Fixpoint set (o : object) (k : string) (v : value) : object :=
  match o with
  | [] => [(k, v)]
  | (k', v') :: r => if k' =? k then (k, v) :: r else (k', v') :: set r k v
  end.

(** [{...a, ...b}] *)
Definition spread (a b : object) : object :=
  fold_left (fun acc kv => set acc (fst kv) (snd kv)) b a.

(** [list.find(p)] *)
Definition find_obj (p : object -> bool) (l : list object) : option object :=
  List.find p l.

(** [names.includes(k)] on an array of strings *)
Definition mem_string (k : string) (names : list string) : bool :=
  existsb (String.eqb k) names.

End JS.

Import JS.

(* ===================================================================== *)
(** * src/services/supabaseService.ts *)
(* ===================================================================== *)

Module SupabaseService.

(** [tableMap]: front-end collection name to store table.  (A lookup is
    a lookup of an own property; names inherited from the object
    prototype are not collection names.) *)
Definition tableMap : list (string * string) :=
  [ ("items", "items"); ("machines", "machines"); ("locations", "locations");
    ("sectors", "sectors"); ("divisions", "divisions");
    ("plans", "maintenance_plans"); ("users", "users"); ("history", "issues");
    ("breakdowns", "breakdowns"); ("bomRecords", "bom");
    ("agriOrders", "agri_orders"); ("irrigationLogs", "irrigation_logs");
    ("forecastPeriods", "forecast_periods");
    ("forecastRecords", "forecast_records"); ("tasks", "maintenance_tasks");
    ("schedules", "maintenance_schedules");
    ("workOrders", "maintenance_work_orders");
    ("assetTransfers", "asset_transfers");
    ("transferHistory", "machine_transfer_history");
    ("warrantyRecords", "warranty_management");
    ("warrantyReceivings", "warranty_receiving_data");
    ("orgStructures", "org_structure"); ("failureTypes", "failure_types");
    ("issuePlanPeriods", "issue_plan_periods");
    ("issuePlanEntries", "issue_plan_entries") ].

Fixpoint lookup_table (m : list (string * string)) (k : string) : option string :=
  match m with
  | [] => None
  | (k', t) :: r => if k' =? k then Some t else lookup_table r k
  end.

(** [str.replace(/[A-Z]/g, letter => `_${letter.toLowerCase()}`)] *)
Fixpoint toSnakeCase (str : string) : string :=
  match str with
  | EmptyString => EmptyString
  | String c r =>
      if is_upper c
      then ("_" ++ toLowerCase (String c EmptyString) ++ toSnakeCase r)%string
      else String c (toSnakeCase r)
  end.

(** The replacement of one matched group:
    [group.toUpperCase().replace('-', '').replace('_', '')]. *)
Definition camel_group (group : string) : string :=
  remove_first "_" (remove_first "-" (toUpperCase group)).

Definition is_dash_or_underscore (c : ascii) : bool :=
  Ascii.eqb c "-" || Ascii.eqb c "_".

(** [str.replace(/([-_][a-z])/g, group => ...)]: matches are taken left
    to right and do not overlap. *)
Fixpoint toCamelCase (str : string) : string :=
  match str with
  | EmptyString => EmptyString
  | String c r =>
      match r with
      | String d r' =>
          if is_dash_or_underscore c && is_lower d
          then (camel_group (String c (String d EmptyString)) ++ toCamelCase r')%string
          else String c (toCamelCase r)
      | EmptyString => String c EmptyString
      end
  end.

(** The fields that cross the boundary as comma-joined strings. *)
Definition list_fields : list string :=
  ["allowedLocationIds"; "allowedSectorIds"; "allowedDivisionIds"; "allowedMenus"].

(** [val === null || val === undefined || val === ''] *)
Definition is_blank (val : value) : bool :=
  match val with
  | VNull | VUndefined => true
  | VStr s => s =? ""
  | _ => false
  end.

(** The column name and the value that the loop of
    [processRecordToSupabase] computes for one key. *)
Definition to_store_pair (kv : string * value) : string * value :=
  let key := fst kv in
  let val := snd kv in
  let colName := toSnakeCase key in
  let val :=
    if is_array val && mem_string key list_fields
    then match val with VArr l => VStr (join l ",") | _ => val end
    else val in
  let val :=
    if is_blank val then
      if colName =? "name" then VStr "Unnamed"
      else if colName =? "status" then VStr "Active"
      else if colName =? "category" then VStr "General"
      else val
    else val in
  (colName, val).

(** [processed[colName] = val] *)
Definition to_store_step (processed : object) (kv : string * value) : object :=
  set processed (fst (to_store_pair kv)) (snd (to_store_pair kv)).

Definition processRecordToSupabase (record : object) (tableName : string) : object :=
  let processed := fold_left to_store_step record [] in
  if (tableName =? "items") && negb (truthy (get processed "name"))
  then set processed "name" (VStr "Unnamed Item")
  else if (tableName =? "machines") && negb (truthy (get processed "status"))
  then set processed "status" (VStr "Working")
  else processed.

(** The key and the value that the loop of [processRecordFromSupabase]
    computes for one column. *)
Definition from_store_pair (kv : string * value) : string * value :=
  let camelKey := toCamelCase (fst kv) in
  let val := snd kv in
  if mem_string camelKey list_fields && is_string val
  then (camelKey,
        if truthy val
        then match val with
             | VStr s => VArr (map VStr (split "," s))
             | _ => val
             end
        else VArr [])
  else (camelKey, val).

(** [processed[camelKey] = ...] *)
Definition from_store_step (processed : object) (kv : string * value) : object :=
  set processed (fst (from_store_pair kv)) (snd (from_store_pair kv)).

Definition processRecordFromSupabase (record : object) : object :=
  fold_left from_store_step record [].

(** ** Bulk persistence *)

(** What the remote store answers to one upsert: an error (returned or
    thrown, both end in the [catch] with the error's message), the
    affected rows, or neither an error nor rows. *)
Inductive response :=
| Failed (message : string)
| Rows (data : list object)
| Silent.

(** The remote store: the answer to the [n]-th upsert of the run (from
    0), given the table, the rows sent and the conflict key. *)
Definition remote_store := nat -> string -> list object -> string -> response.

(** What a run does to the outside, in order. *)
Inductive event :=
| Upsert (table : string) (rows : list object) (onConflict : string)
| Progress (current total batchNum totalBatches : nat)
| Sleep (ms : nat).

(** The mutable state of one run: the two accumulators of the function,
    the events so far and the number of upserts issued. *)
Record run := mkRun {
  successCount : nat;
  failedBatches : list (nat * string);
  trace : list event;
  calls : nat
}.

Definition emit (e : event) (st : run) : run :=
  mkRun (successCount st) (failedBatches st) (trace st ++ [e]) (calls st).

(** [if (onProgress) onProgress(...)] *)
Definition report (onProgress : bool) (batchNum totalBatches total : nat) (st : run) : run :=
  if onProgress then emit (Progress (successCount st) total batchNum totalBatches) st else st.

Definition BATCH_SIZE : nat := 100.
Definition MAX_RETRIES : nat := 3.

Section Bulk.

Variable remote : remote_store.
Variable onProgress : bool.
Variable frontendTable supabaseTable : string.
Variable total : nat.

Definition pk : string := if frontendTable =? "users" then "username" else "id".

(** [while (retryCount < MAX_RETRIES && !batchSuccess)].  The function
    is entered with [batchSuccess] false and leaves when a batch has
    succeeded; [None] is a loop that has not ended within [fuel]
    iterations. *)
Fixpoint attempts (fuel : nat) (processedData : list object)
    (batchNum totalBatches retryCount : nat) (st : run) : option run :=
  if (retryCount <? MAX_RETRIES)%nat then
    match fuel with
    | O => None
    | S fuel' =>
        let st1 := emit (Upsert supabaseTable processedData pk) st in
        let st1 := mkRun (successCount st1) (failedBatches st1) (trace st1) (S (calls st1)) in
        match remote (calls st) supabaseTable processedData pk with
        | Rows data =>
            let st2 := mkRun (successCount st1 + length data) (failedBatches st1)
                             (trace st1) (calls st1) in
            Some (report onProgress batchNum totalBatches total st2)
        | Silent => attempts fuel' processedData batchNum totalBatches retryCount st1
        | Failed message =>
            let retryCount := S retryCount in
            if (retryCount <? MAX_RETRIES)%nat
            then attempts fuel' processedData batchNum totalBatches retryCount
                   (emit (Sleep (1000 * retryCount)) st1)
            else attempts fuel' processedData batchNum totalBatches retryCount
                   (mkRun (successCount st1) (failedBatches st1 ++ [(batchNum, message)])
                          (trace st1) (calls st1))
        end
    end
  else Some st.

(** [for (let i = 0; i < dataArray.length; i += BATCH_SIZE)] *)
Fixpoint batches (fuel : nat) (dataArray : list object)
    (totalBatches i : nat) (st : run) : option run :=
  if (i <? length dataArray)%nat then
    match fuel with
    | O => None
    | S fuel' =>
        let chunk := firstn BATCH_SIZE (skipn i dataArray) in
        let processedData := map (fun item => processRecordToSupabase item supabaseTable) chunk in
        let batchNum := i / BATCH_SIZE + 1 in
        let st := report onProgress batchNum totalBatches total st in
        match attempts fuel' processedData batchNum totalBatches 0 st with
        | None => None
        | Some st =>
            let st := if (i + BATCH_SIZE <? length dataArray)%nat
                      then emit (Sleep 200) st else st in
            batches fuel' dataArray totalBatches (i + BATCH_SIZE) st
        end
    end
  else Some st.

End Bulk.

Definition num (n : nat) : value := VNum (Int (Z.of_nat n)).
Definition show (n : nat) : string := Z_to_string (Z.of_nat n).

(** [bulkUpsertSupabaseRecords(frontendTable, dataArray, onProgress)].
    [dataArray] is [None] when the argument is [null] or [undefined];
    [onProgress] tells whether a callback was passed.  The result is the
    returned object together with the final state of the run, whose
    [failedBatches] is what the function writes to the console before
    it returns; [None] is a run that has not ended within [fuel] loop
    iterations.  Nothing inside the outer [try] throws in this model, so
    its [catch] is not reached. *)
Definition bulkUpsertSupabaseRecords (fuel : nat) (remote : remote_store)
    (frontendTable : string) (dataArray : option (list object)) (onProgress : bool)
    : option (object * run) :=
  let start := mkRun 0 [] [] 0 in
  match lookup_table tableMap frontendTable with
  | None => Some ([("status", VStr "error"); ("message", VStr "Unknown table")], start)
  | Some supabaseTable =>
      match dataArray with
      | None | Some [] => Some ([("status", VStr "success"); ("count", num 0)], start)
      | Some dataArray =>
          let total := length dataArray in
          let totalBatches := (total + (BATCH_SIZE - 1)) / BATCH_SIZE in
          match batches remote onProgress frontendTable supabaseTable total
                        fuel dataArray totalBatches 0 start with
          | None => None
          | Some st =>
              let st := report onProgress totalBatches totalBatches total st in
              if (0 <? length (failedBatches st))%nat then
                Some ([("status", VStr "partial");
                       ("count", num (successCount st));
                       ("message",
                        VStr (show (successCount st) ++ "/" ++ show total ++ " uploaded. "
                              ++ show (length (failedBatches st)) ++ " batches failed.")%string)],
                      st)
              else Some ([("status", VStr "success"); ("count", num (successCount st))], st)
          end
      end
  end.

End SupabaseService.

(* ===================================================================== *)
(** * What the import code reads from its surroundings *)
(* ===================================================================== *)

(** The master data a component receives as props. *)
Record collections := mkCollections {
  machines : list object;
  items : list object;
  bomRecords : list object;
  locations : list object;
  sectors : list object;
  divisions : list object;
  breakdowns : list object;
  history : list object
}.

(** The clock, the random source and the date library.  A data row reads
    the clock and the random source at most once each, so their readings
    are indexed by the row being processed. *)
Record ambient := mkAmbient {
  (** [Date.now()] *)
  Date_now : nat -> Z;
  (** [Math.floor(Math.random() * k)] *)
  random_below : nat -> Z -> Z;
  (** [Math.random().toString(36).substr(2, 5)] *)
  random_base36 : nat -> string;
  (** [new Date().toISOString()] *)
  now_iso : nat -> string;
  (** [new Date(val).toISOString()]; [None] is the [RangeError] of an
      invalid date. *)
  date_iso : value -> option string
}.

(** The two lists handed to [onBulkImport]. *)
Record ChangeSet := mkChangeSet {
  toAdd : list object;
  toUpdate : list object
}.

(** The text of [(v || '')] for a field [v] that the collections of the
    asset import declare as a string: the string it holds, [''] when
    the field is absent or empty. *)
Definition text (v : value) : string :=
  match v with
  | VStr s => s
  | _ => EmptyString
  end.

(** [v.toLowerCase()]: a method of strings; the call on any other
    value ([undefined], [null], a number, ...) is a [TypeError], which
    is [None]. *)
Definition toLowerCase_of (v : value) : option string :=
  match v with
  | VStr s => Some (toLowerCase s)
  | _ => None
  end.

(** [list.find(p)] for a callback that may throw: the elements are
    tested in order up to the first one that satisfies [p], and a throw
    on the way ends the search with that throw ([None]). *)
Fixpoint find_throwing (p : object -> option bool) (l : list object) : option (option object) :=
  match l with
  | [] => Some None
  | x :: rest =>
      match p x with
      | None => None
      | Some true => Some (Some x)
      | Some false => find_throwing p rest
      end
  end.

(** [h.replace(/[\s-_.]/g, '')] *)
Definition strip_separators (h : string) : string :=
  filter_chars (fun c => negb (is_space c || Ascii.eqb c "-" || Ascii.eqb c "_" || Ascii.eqb c ".")) h.

(** A row of the grid read at a column; a missing cell is [undefined]. *)
Definition cell (row : list value) (i : nat) : value := nth i row VUndefined.

(** [for (let r = 0; r < Math.min(rows.length, 10); r++) { ... break }]:
    the first row of the window with at least two hits. *)
Fixpoint scan (hits : list value -> nat) (window : list (list value)) (r : nat) : option nat :=
  match window with
  | [] => None
  | row :: rest => if (2 <=? hits row)%nat then Some r else scan hits rest (S r)
  end.

(** The cells of a row that contain one of the keywords, after
    [String(cell).toLowerCase().trim()]. *)
Definition keyword_hits (keywords : list string) (row : list value) : nat :=
  length
    (filter (fun c => existsb (fun key => includes c key) keywords)
            (map (fun c => trim (toLowerCase (ToString c))) row)).

Definition detect_header (keywords : list string) (rows : list (list value)) : nat :=
  match scan (keyword_hits keywords) (firstn (Nat.min (length rows) 10) rows) 0 with
  | Some r => r
  | None => 0
  end.

(* ===================================================================== *)
(** * src/components/AssetManagement.tsx: [processImport] *)
(* ===================================================================== *)

Module AssetManagement.

Definition header_keywords : list string :=
  ["id"; "name"; "qty"; "machine"; "item"; "part"; "serial"; "brand"; "model"].

Definition headerRowIndex (rows : list (list value)) : nat :=
  detect_header header_keywords rows.

(** [String(row[i]).trim()] *)
Definition trimmed_cell (row : list value) (i : nat) : string :=
  trim (ToString (cell row i)).

Definition resolveId (val : string) (list : list object) : value :=
  if negb (truthy (VStr val)) then VNull else
  let trimmed := trim val in
  if negb (truthy (VStr trimmed)) then VNull else
  match find_obj (fun i => strict_eq (get i "id") (VStr trimmed)) list with
  | Some byId => get byId "id"
  | None =>
      match find_obj (fun i => toLowerCase (text (or_else (get i "name") (VStr "")))
                               =? toLowerCase trimmed) list with
      | Some byName => get byName "id"
      | None => VNull
      end
  end.

(** The characters of the class in [val.replace(/[...]/g, '')] of
    [resolveItemId]: the apostrophe, the double quote (code 34) and the
    code units U+00AC, U+00B4 and U+00AA. *)
Definition is_quote (c : ascii) : bool :=
  Ascii.eqb c "'" || (code c =? 34)%nat
  || (code c =? 172)%nat || (code c =? 180)%nat || (code c =? 170)%nat.

(** [/^\d+$/.test(s)] *)
Definition all_digits (s : string) : bool :=
  negb (s =? "") && forall_chars is_digit s.

(** [s.replace(/\D/g, '')] *)
Definition digits_only (s : string) : string := filter_chars is_digit s.

Definition resolveItemId (items : list object) (val : string) : value :=
  if negb (truthy (VStr val)) then VNull else
  let trimmed := filter_chars (fun c => negb (is_quote c)) (toLowerCase (trim val)) in
  if negb (truthy (VStr trimmed)) then VNull else
  match find_obj (fun i => toLowerCase (ToString (get i "id")) =? trimmed) items with
  | Some byId => get byId "id"
  | None =>
  match find_obj (fun i => toLowerCase (ToString (or_else (get i "partNumber") (VStr ""))) =? trimmed) items with
  | Some byPart => get byPart "id"
  | None =>
  match find_obj (fun i =>
           (toLowerCase (ToString (or_else (get i "secondId") (VStr ""))) =? trimmed)
           || (toLowerCase (ToString (or_else (get i "thirdId") (VStr ""))) =? trimmed)) items with
  | Some byOtherId => get byOtherId "id"
  | None =>
  match find_obj (fun i =>
           let name := toLowerCase (ToString (or_else (get i "name") (VStr ""))) in
           let fullName := toLowerCase (ToString (or_else (get i "fullName") (VStr ""))) in
           (name =? trimmed) || (fullName =? trimmed)) items with
  | Some byName => get byName "id"
  | None =>
      if all_digits trimmed then
        match find_obj (fun i =>
                 let cleanId := digits_only (ToString (get i "id")) in
                 let cleanPart := digits_only (ToString (or_else (get i "partNumber") (VStr ""))) in
                 (cleanId =? trimmed) || (cleanPart =? trimmed)) items with
        | Some numericMatch => get numericMatch "id"
        | None => VNull
        end
      else VNull
  end end end end.

Section ProcessImport.

Variable env : ambient.
Variable data : collections.
Variable tab : string.

(** The first [if / else if] chain of the callback of
    [headers.forEach], for the column [i] whose header, with its
    separators stripped, is [header]. *)
Definition common_fields (header : string) (row : list value) (i : nat) (obj : object) : object :=
  let here := VStr (trimmed_cell row i) in
  if mem_string header ["id"; "machineid"; "assetid"; "entryid"] && negb (truthy (get obj "id"))
  then set obj "id" (or_else here VUndefined)
  else if includes header "name" || includes header "description" || includes header "category"
          || (header =? "equipment") || (header =? "machinename")
  then
    let obj := if tab =? "machines" then set obj "category" here else obj in
    if tab =? "breakdowns" then set obj "machineName" here else obj
  else if header =? "status" then set obj "status" here
  else if mem_string header ["brand"; "make"; "manufacturer"] then set obj "brand" here
  else if mem_string header ["model"; "modelno"; "modelnumber"; "type"] then set obj "modelNo" here
  else if mem_string header ["chase"; "chassis"; "chaseno"; "chassisno"; "serial"; "serialno"; "sn"]
  then set obj "chassisNo" here
  else if includes header "division"
  then set obj "divisionId" (or_else (resolveId (ToString (cell row i)) (divisions data)) VNull)
  else if includes header "sector"
  then set obj "sectorId" (or_else (resolveId (ToString (cell row i)) (sectors data)) VNull)
  else if includes header "location"
  then set obj "locationId" (or_else (resolveId (ToString (cell row i)) (locations data)) VNull)
  else if mem_string header ["maingroup"; "group"] then set obj "mainGroup" here
  else if header =? "subgroup" then set obj "subGroup" here
  else if mem_string header ["localno"; "machinelocalno"; "assetno"] then set obj "machineLocalNo" here
  else obj.

(** The block [if (tab === 'bom') { ... }] of the same callback; the
    second component is [failedItemMatches]. *)
Definition bom_fields (header : string) (row : list value) (i : nat)
    (st : object * list string) : object * list string :=
  let here := VStr (trimmed_cell row i) in
  let '(obj, failedItemMatches) := st in
  let '(obj, failedItemMatches) :=
    if mem_string header ["machinename"; "equipname"; "machine"]
    then (set obj "machineCategory" here, failedItemMatches)
    else if mem_string header ["brand"; "make"] then (set obj "brand" here, failedItemMatches)
    else if mem_string header ["modelno"; "modelnumber"; "model"]
    then (set obj "modelNo" here, failedItemMatches)
    else if mem_string header ["itemid"; "itemcode"; "partnumber"; "code"; "item"]
    then
      let val := trimmed_cell row i in
      let obj := set obj "itemId" (resolveItemId (items data) val) in
      if negb (truthy (get obj "itemId")) && truthy (VStr val)
      then (obj, if negb (mem_string val failedItemMatches)
                 then failedItemMatches ++ [val] else failedItemMatches)
      else (obj, failedItemMatches)
    else if mem_string header ["quantity"; "qty"; "count"]
    then (set obj "quantity" (or_else (VNum (ToNumber (cell row i))) (VNum (Int 0))),
          failedItemMatches)
    else (obj, failedItemMatches) in
  let obj := if includes header "machine" && negb (truthy (get obj "machineCategory"))
             then set obj "machineCategory" here else obj in
  let obj := if includes header "model" && negb (truthy (get obj "modelNo"))
             then set obj "modelNo" here else obj in
  (obj, failedItemMatches).

(** The callback of [headers.forEach((h, i) => ...)]. *)
Definition header_step (row : list value) (st : object * list string)
    (hi : string * nat) : object * list string :=
  let header := strip_separators (fst hi) in
  let i := snd hi in
  let st := (common_fields header row i (fst st), snd st) in
  if tab =? "bom" then bom_fields header row i st else st.

(** The row as an object of canonical fields: everything the callback
    of [dataRows.forEach] does up to the end of [headers.forEach]. *)
Definition normalize (headers : list string) (failedItemMatches : list string)
    (rowIndex : nat) (row : list value) : object * list string :=
  let obj : object := if tab =? "bom" then [("sortOrder", VNum (Int (Z.of_nat rowIndex)))] else [] in
  fold_left (header_step row) (combine headers (seq 0 (length headers)))
            (obj, failedItemMatches).

(** [`BOM-${Date.now()}-${Math.floor(Math.random() * 10000)}`] *)
Definition synthesize_bom_id (rowIndex : nat) : string :=
  ("BOM-" ++ Z_to_string (Date_now env rowIndex) ++ "-"
     ++ Z_to_string (random_below env rowIndex 10000))%string.

(** [`M-${Math.floor(Math.random() * 900000) + 100000}`] *)
Definition synthesize_machine_id (rowIndex : nat) : string :=
  ("M-" ++ Z_to_string (random_below env rowIndex 900000 + 100000))%string.

(** The natural-key test of the BOM lookup. *)
Definition same_bom_key (obj b : object) : bool :=
  strict_eq (get b "machineCategory") (get obj "machineCategory")
  && (strict_eq (get b "modelNo") (or_else (get obj "modelNo") (VStr ""))
      || strict_eq (get b "modelNo") (get obj "modelNo"))
  && strict_eq (get b "itemId") (get obj "itemId").

(** [if (tab === 'bom' && !obj.id) { ... }] *)
Definition assign_bom_id (rowIndex : nat) (obj : object) : object :=
  if (tab =? "bom") && negb (truthy (get obj "id")) then
    if truthy (get obj "machineCategory")
       && (truthy (get obj "itemId") || negb (strict_eq (get obj "quantity") VUndefined))
    then
      let obj :=
        if truthy (get obj "itemId") then
          match find_obj (same_bom_key obj) (bomRecords data) with
          | Some existingBOM => set obj "id" (get existingBOM "id")
          | None => set obj "id" (VStr (synthesize_bom_id rowIndex))
          end
        else obj in
      if strict_eq (get obj "modelNo") VUndefined then set obj "modelNo" (VStr "") else obj
    else obj
  else obj.

(** [if (tab === 'machines' && !obj.id) { ... }] *)
Definition assign_machine_id (rowIndex : nat) (obj : object) : object :=
  if (tab =? "machines") && negb (truthy (get obj "id")) then
    let obj :=
      if truthy (get obj "chassisNo") then
        match find_obj (fun m => strict_eq (get m "chassisNo") (get obj "chassisNo")) (machines data) with
        | Some existing => set obj "id" (get existing "id")
        | None => obj
        end
      else obj in
    if negb (truthy (get obj "id")) && truthy (get obj "category")
    then set obj "id" (VStr (synthesize_machine_id rowIndex))
    else obj
  else obj.

(** The row with its id settled, before classification. *)
Definition identify (rowIndex : nat) (obj : object) : object :=
  assign_machine_id rowIndex (assign_bom_id rowIndex obj).

(** The mandatory-field defaults of the branch [if (obj.id)]. *)
Definition apply_defaults (obj : object) : object :=
  if tab =? "machines" then
    let obj := set obj "category" (or_else (get obj "category") (VStr "Unknown Machine")) in
    let obj := set obj "status" (or_else (get obj "status") (VStr "Working")) in
    set obj "machineLocalNo" (or_else (get obj "machineLocalNo") (VStr ""))
  else if tab =? "breakdowns" then
    let obj := set obj "machineName" (or_else (get obj "machineName") (VStr "Unknown Machine")) in
    set obj "status" (or_else (get obj "status") (VStr "Open"))
  else if tab =? "bom" then
    let obj := set obj "machineCategory" (or_else (get obj "machineCategory") (VStr "Unknown")) in
    set obj "modelNo" (or_else (get obj "modelNo") (VStr ""))
  else obj.

Definition target_list : list object :=
  if tab =? "machines" then machines data
  else if tab =? "breakdowns" then breakdowns data
  else bomRecords data.

(** What becomes of one data row. *)
Inductive decision :=
| Add (obj : object)
| Update (obj : object)
| Dropped        (* the early [return] of a BOM row without item *)
| Skipped.       (* [skippedRows++] *)

(** The rest of the callback of [dataRows.forEach], from the id
    assignment on. *)
Definition classify (rowIndex : nat) (obj : object) : decision :=
  let obj := identify rowIndex obj in
  if truthy (get obj "id") then
    let obj := apply_defaults obj in
    if (tab =? "bom") && negb (truthy (get obj "itemId")) then Dropped
    else
      match find_obj (fun i => strict_eq (get i "id") (get obj "id")) target_list with
      | Some existing => Update (spread existing obj)
      | None => Add obj
      end
  else Skipped.

(** The state built up by [dataRows.forEach]. *)
Record import_state := mkState {
  changes : ChangeSet;
  skippedRows : nat;
  failedItemMatches : list string
}.

Definition import_row (headers : list string) (st : import_state)
    (ir : nat * list value) : import_state :=
  let '(rowIndex, row) := ir in
  let '(obj, failed) := normalize headers (failedItemMatches st) rowIndex row in
  let cs := changes st in
  match classify rowIndex obj with
  | Add o => mkState (mkChangeSet (toAdd cs ++ [o]) (toUpdate cs)) (skippedRows st) failed
  | Update o => mkState (mkChangeSet (toAdd cs) (toUpdate cs ++ [o])) (skippedRows st) failed
  | Dropped => mkState cs (skippedRows st) failed
  | Skipped => mkState cs (S (skippedRows st)) failed
  end.

(** [processImport(rows, tab)] up to the call of [onBulkImport]; [None]
    is the [TypeError] of reading the header row of an empty grid. *)
Definition processImport (rows : list (list value)) : option import_state :=
  let headerRowIndex := headerRowIndex rows in
  match nth_error rows headerRowIndex with
  | None => None
  | Some headerRow =>
      let headers := map (fun h => trim (toLowerCase (ToString h))) headerRow in
      let dataRows := skipn (headerRowIndex + 1) rows in
      Some (fold_left (import_row headers)
                      (combine (seq 0 (length dataRows)) dataRows)
                      (mkState (mkChangeSet [] []) 0 []))
  end.

End ProcessImport.

End AssetManagement.

(* ===================================================================== *)
(** * src/components/HistoryTable.tsx: [handleFileChange] *)
(* ===================================================================== *)

Module HistoryTable.

Inductive TabType := requests | tracking | stock.

Definition header_keywords : list string :=
  ["id"; "date"; "qty"; "item"; "machine"; "unit"; "status"].

Definition headerRowIndex (rawRows : list (list value)) : nat :=
  detect_header header_keywords rawRows.

(** [headerRaw.forEach((h, i) => { obj[String(h)] = r[i]; })]: a row
    after the header as an object keyed by the raw header texts.  The
    rows kept are those with at least one value that is not
    [undefined], [null] or ['']. *)
Definition row_object (headerRaw row : list value) : object :=
  fold_left (fun obj hi => set obj (ToString (fst hi)) (cell row (snd hi)))
            (combine headerRaw (seq 0 (length headerRaw))) [].

Definition has_value (obj : object) : bool :=
  existsb (fun kv => match snd kv with
                     | VUndefined | VNull => false
                     | VStr s => negb (s =? "")
                     | _ => true
                     end) obj.

Definition data_rows (rawRows : list (list value)) : list object :=
  let headerRowIndex := headerRowIndex rawRows in
  let rows := skipn (headerRowIndex + 1) rawRows in
  let headerRaw := nth headerRowIndex rawRows [] in
  filter has_value (map (row_object headerRaw) rows).

(** The three resolvers of the handler.  Each lower-cases a field of
    the entities it searches by name; [None] is the [TypeError] of that
    call on a value that is not a string.  [resolveId] reads [i.name]
    as it is; the other two read [(m.category || '')], [(i.name || '')]
    and [(i.fullName || '')]. *)
Definition resolveId (val : value) (list : list object) : option value :=
  if negb (truthy val) then Some (VStr "") else
  let trimmed := trim (ToString val) in
  match find_obj (fun i => strict_eq (get i "id") (VStr trimmed)) list with
  | Some byId => Some (get byId "id")
  | None =>
      match find_throwing
              (fun i => match toLowerCase_of (get i "name") with
                        | Some name => Some (name =? toLowerCase trimmed)
                        | None => None
                        end) list with
      | None => None
      | Some (Some byName) => Some (get byName "id")
      | Some None => Some (VStr trimmed)
      end
  end.

Definition resolveMachineId (machines : list object) (val : value) : option value :=
  if negb (truthy val) then Some (VStr "Unknown") else
  let trimmed := trim (ToString val) in
  match find_obj (fun m => strict_eq (get m "id") (VStr trimmed)) machines with
  | Some byId => Some (get byId "id")
  | None =>
      match find_throwing
              (fun m => match toLowerCase_of (or_else (get m "category") (VStr "")) with
                        | Some category => Some (category =? toLowerCase trimmed)
                        | None => None
                        end) machines with
      | None => None
      | Some (Some byName) => Some (get byName "id")
      | Some None => Some (VStr "Unknown")
      end
  end.

Definition resolveItemId (items : list object) (val : value) : option value :=
  if negb (truthy val) then Some (VStr "") else
  let trimmed := trim (ToString val) in
  match find_obj (fun i => strict_eq (get i "id") (VStr trimmed)) items with
  | Some byId => Some (get byId "id")
  | None =>
      match find_throwing
              (fun i => match toLowerCase_of (or_else (get i "name") (VStr "")) with
                        | None => None
                        | Some name =>
                            if name =? toLowerCase trimmed then Some true
                            else match toLowerCase_of (or_else (get i "fullName") (VStr "")) with
                                 | Some fullName => Some (fullName =? toLowerCase trimmed)
                                 | None => None
                                 end
                        end) items with
      | None => None
      | Some (Some byName) => Some (get byName "id")
      | Some None => Some (VStr "")
      end
  end.

Section Handler.

Variable env : ambient.
Variable data : collections.

(** ** Issue requests *)

(** The callback of [Object.keys(row).forEach] of the requests branch;
    [None] is the [RangeError] of an invalid date. *)
Definition request_field (obj : option object) (kv : string * value) : option object :=
  match obj with
  | None => None
  | Some obj =>
      let header := strip_separators (toLowerCase (fst kv)) in
      let val := snd kv in
      if mem_string header ["id"; "requestid"] then Some (set obj "id" (VStr (ToString val)))
      else if mem_string header ["date"; "timestamp"] then
        match date_iso env val with
        | Some iso => Some (set obj "timestamp" (VStr iso))
        | None => None
        end
      else if mem_string header ["location"; "locationid"; "warehouse"]
      then Some (set obj "locationId" (VStr (ToString val)))
      else if mem_string header ["itemid"; "itemnumber"; "itemcode"; "partnumber"]
      then Some (set obj "itemId" (VStr (ToString val)))
      else if mem_string header ["itemname"; "description"]
      then Some (set obj "itemName" (VStr (ToString val)))
      else if mem_string header ["qty"; "quantity"; "count"]
      then Some (set obj "quantity" (VNum (ToNumber val)))
      else if header =? "unit" then Some (set obj "unit" (VStr (ToString val)))
      else if mem_string header ["machine"; "machinename"; "equipment"]
      then Some (set obj "machineName" (VStr (ToString val)))
      else if mem_string header ["machineid"; "assetid"]
      then Some (set obj "machineId" (VStr (ToString val)))
      else if header =? "status" then Some (set obj "status" (VStr (ToString val)))
      else if mem_string header ["plan"; "maintplan"; "maintenanceplan"]
      then Some (set obj "maintenancePlan" (VStr (ToString val)))
      else Some obj
  end.

Definition normalize_request (row : object) : option object :=
  fold_left request_field row (Some []).

(** [`IMP-${Date.now()}-${Math.random().toString(36).substr(2, 5)}`] *)
Definition synthesize_request_id (rowIndex : nat) : string :=
  ("IMP-" ++ Z_to_string (Date_now env rowIndex) ++ "-" ++ random_base36 env rowIndex)%string.

(** The object literal [record] of the requests branch; [None] when
    one of the resolvers throws. *)
Definition request_record (rowIndex : nat) (obj : object) (id itemId qty : value)
    : option object :=
  match resolveId (or_else (get obj "locationId") (VStr "Unknown")) (locations data) with
  | None => None
  | Some locationId =>
  match resolveItemId (items data) itemId with
  | None => None
  | Some resolvedItemId =>
  match resolveMachineId (machines data)
          (or_else (or_else (get obj "machineId") (get obj "machineName")) (VStr "Unknown")) with
  | None => None
  | Some machineId =>
      Some
        [ ("id", id);
          ("timestamp", or_else (get obj "timestamp") (VStr (now_iso env rowIndex)));
          ("locationId", locationId);
          ("itemId", resolvedItemId);
          ("itemName",
           or_else (or_else (get obj "itemName")
                      (match find_obj (fun i => strict_eq (get i "id") itemId) (items data) with
                       | Some i => get i "name"
                       | None => VUndefined
                       end))
                   (VStr "Unknown Item"));
          ("quantity", qty);
          ("unit", or_else (get obj "unit") (VStr "pcs"));
          ("machineId", machineId);
          ("machineName", or_else (get obj "machineName") (VStr "Unknown"));
          ("status", or_else (get obj "status") (VStr "Completed"));
          ("maintenancePlan", or_else (get obj "maintenancePlan") (VStr "")) ]
  end end end.

(** What becomes of one data row. *)
Inductive decision :=
| Add (record : object)
| Update (record : object)
| Ignored          (* the guard [if (itemId && qty)] fails *)
| SkippedItem      (* "Skipping history row: Item ... not found." *)
| SkippedMachine.  (* "Skipping history row: Machine ID not found ..." *)

(** The callback of [data.forEach] of the requests branch, after the
    normalization of the row into [obj]; [None] when building the
    record throws. *)
Definition classify_request (rowIndex : nat) (obj : object) : option decision :=
  let id := or_else (get obj "id") (VStr (synthesize_request_id rowIndex)) in
  let itemId := or_else (get obj "itemId") (VStr "") in
  let qty := or_else (get obj "quantity") (VNum (Int 0)) in
  if truthy itemId && truthy qty then
    let existing := find_obj (fun h => strict_eq (get h "id") id) (history data) in
    match request_record rowIndex obj id itemId qty with
    | None => None
    | Some record =>
        if negb (truthy (get record "itemId")) || strict_eq (get record "itemId") (VStr "")
        then Some SkippedItem
        else if strict_eq (get record "machineId") (VStr "Unknown") then Some SkippedMachine
        else match existing with
             | Some _ => Some (Update record)
             | None => Some (Add record)
             end
    end
  else Some Ignored.

Definition push (cs : ChangeSet) (d : decision) : ChangeSet :=
  match d with
  | Add r => mkChangeSet (toAdd cs ++ [r]) (toUpdate cs)
  | Update r => mkChangeSet (toAdd cs) (toUpdate cs ++ [r])
  | _ => cs
  end.

Definition request_row (cs : option ChangeSet) (ir : nat * object) : option ChangeSet :=
  match cs with
  | None => None
  | Some cs =>
      match normalize_request (snd ir) with
      | None => None
      | Some obj =>
          match classify_request (fst ir) obj with
          | None => None
          | Some d => Some (push cs d)
          end
      end
  end.

(** ** Current stock *)

Definition stock_field (obj : object) (kv : string * value) : object :=
  let header := strip_separators (toLowerCase (fst kv)) in
  let val := snd kv in
  if mem_string header ["id"; "itemid"; "itemnumber"; "itemcode"; "partnumber"]
  then set obj "id" (VStr (ToString val))
  else if mem_string header ["name"; "description"] then set obj "name" (VStr (ToString val))
  else if mem_string header ["stockqty"; "qty"; "quantity"; "count"]
  then set obj "stockQuantity" (VNum (ToNumber val))
  else if header =? "unit" then set obj "unit" (VStr (ToString val))
  else if header =? "category" then set obj "category" (VStr (ToString val))
  else obj.

Definition normalize_stock (row : object) : object := fold_left stock_field row [].

Definition stock_row (cs : ChangeSet) (row : object) : ChangeSet :=
  let obj := normalize_stock row in
  if truthy (get obj "id") then
    match find_obj (fun i => strict_eq (get i "id") (get obj "id")) (items data) with
    | Some existing => mkChangeSet (toAdd cs) (toUpdate cs ++ [spread existing obj])
    | None =>
        mkChangeSet
          (toAdd cs ++
             [[ ("id", get obj "id");
                ("name", or_else (get obj "name") (VStr "New Item"));
                ("stockQuantity", or_else (get obj "stockQuantity") (VNum (Int 0)));
                ("unit", or_else (get obj "unit") (VStr "pcs"));
                ("category", or_else (get obj "category") (VStr "General")) ]])
          (toUpdate cs)
    end
  else cs.

(** ** The handler *)

Inductive outcome :=
| Imported (table : string) (cs : ChangeSet)   (* [onBulkImport(table, toAdd, toUpdate)] *)
| NoData                                       (* "No valid data rows found." *)
| Failure                                      (* the [catch]: "Failed to process file." *)
| Nothing.                                     (* neither branch applies *)

(** The body of [reader.onload], from the grid [rawRows] of the first
    sheet on. *)
Definition handleFileChange (activeTab : TabType) (rawRows : list (list value)) : outcome :=
  let data := data_rows rawRows in
  match data with
  | [] => NoData
  | _ =>
      match activeTab with
      | requests =>
          match fold_left request_row (combine (seq 0 (length data)) data)
                          (Some (mkChangeSet [] [])) with
          | Some cs => Imported "history" cs
          | None => Failure
          end
      | stock => Imported "items" (fold_left stock_row data (mkChangeSet [] []))
      | tracking => Nothing
      end
  end.

End Handler.

End HistoryTable.

(* ===================================================================== *)
(** * Predicates and scenarios used by the statements *)
(* ===================================================================== *)

(** A key made of ASCII letters only. *)
Definition letters_only (k : string) : bool :=
  forall_chars (fun c => is_upper c || is_lower c) k.

Definition comma_free (s : string) : bool :=
  forall_chars (fun c => negb (Ascii.eqb c ",")) s.

(** A non-empty array of non-empty comma-free strings. *)
Definition string_list (v : value) : Prop :=
  exists l, v = VArr (map VStr l) /\ l <> [] /\
            Forall (fun s => s <> EmptyString /\ comma_free s = true) l.

(** The records whose translation to the store and back is the
    identity: distinct letter-only keys; no [name], [status] or
    [category] that is [null], [undefined] or ['']; the field that the
    table requires ([name] for items, [status] for machines) present and
    non-empty; list-valued fields that are non-empty arrays of non-empty
    comma-free strings. *)
Record round_trip_ready (tableName : string) (record : object) : Prop := {
  rt_distinct : NoDup (keys record);
  rt_letters : Forall (fun k => letters_only k = true) (keys record);
  rt_non_empty : forall k v, In (k, v) record ->
      mem_string k ["name"; "status"; "category"] = true ->
      SupabaseService.is_blank v = false;
  rt_items : tableName = "items" -> truthy (get record "name") = true;
  rt_machines : tableName = "machines" -> truthy (get record "status") = true;
  rt_lists : forall k v, In (k, v) record ->
      mem_string k SupabaseService.list_fields = true -> string_list v
}.

(** ** Scenarios of the persistence gateway *)

(** A record with a list-valued field, as the users table holds them. *)
Definition sample_user : object :=
  [ ("username", VStr "amal"); ("name", VStr "Amal");
    ("allowedMenus", VArr [VStr "stock"; VStr "assets"]);
    ("allowedLocationIds", VArr [VStr "L-1"]) ].

(** 250 records to persist. *)
Definition sample_records : list object :=
  map (fun n => [("id", VStr ("IT-" ++ Z_to_string (Z.of_nat n))%string); ("name", VStr "Bolt")])
      (seq 0 250).

(** A store that refuses the second, third and fourth upsert of a run
    and acknowledges every row of the others. *)
Definition store_failing_batch_2 : SupabaseService.remote_store :=
  fun n _ rows _ =>
    match n with
    | 1 | 2 | 3 => SupabaseService.Failed "duplicate key value"
    | _ => SupabaseService.Rows rows
    end.

(** The events of a run that the caller's progress callback, when there
    is none, does not see. *)
Definition without_progress (onProgress : bool) (events : list SupabaseService.event)
    : list SupabaseService.event :=
  filter (fun e => match e with
                   | SupabaseService.Progress _ _ _ _ => onProgress
                   | _ => true
                   end) events.

(** ** The header detector of the specification *)

(** The keyword set that the specification gives for the detector. *)
Definition spec_keywords : list string :=
  ["id"; "date"; "qty"; "item"; "machine"; "unit"; "status"; "name"; "part";
   "serial"; "brand"; "model"].

(** A cell that, lower-cased and trimmed, contains one of the keywords. *)
Definition cell_matches (keywords : list string) (c : value) : bool :=
  existsb (fun key => includes (trim (toLowerCase (ToString c))) key) keywords.

(** The number of matching cells of the row at index [r] of a grid. *)
Definition hits_at (keywords : list string) (rows : list (list value)) (r : nat) : nat :=
  length (filter (cell_matches keywords) (nth r rows [])).

(** "The first row (scanning top-down) of the first ten with at least
    two keyword hits, row 0 if there is none". *)
Definition first_header_row (keywords : list string) (rows : list (list value)) (r : nat) : Prop :=
  (r < Nat.min (length rows) 10 /\ 2 <= hits_at keywords rows r /\
   forall j, j < r -> hits_at keywords rows j < 2)
  \/ (r = 0 /\ forall j, j < Nat.min (length rows) 10 -> hits_at keywords rows j < 2).

(** A sheet with a title line above its header line. *)
Definition titled_grid : list (list value) :=
  [ [VStr "Stock report"];
    [VStr "Name"; VStr "Date"];
    [VStr "Bolt"; VStr "2024-01-01"] ].

(** ** What a change-set must satisfy *)

(** Some entity of the collection has this id. *)
Definition known_id (existing : list object) (id : value) : Prop :=
  exists e, In e existing /\ strict_eq (get e "id") id = true.

(** "Every entity in [toUpdate] already exists by primary key in the
    target collection; every entity in [toAdd] does not." *)
Definition reconciled (existing : list object) (cs : ChangeSet) : Prop :=
  (forall a, In a (toAdd cs) -> ~ known_id existing (get a "id"))
  /\ (forall u, In u (toUpdate cs) -> known_id existing (get u "id")).

(** No id is both in [toAdd] and in [toUpdate]. *)
Definition disjoint_ids (cs : ChangeSet) : Prop :=
  forall a u, In a (toAdd cs) -> In u (toUpdate cs) -> get a "id" <> get u "id".

(** No id is twice in [toAdd]. *)
Definition distinct_additions (cs : ChangeSet) : Prop :=
  NoDup (map (fun a => get a "id") (toAdd cs)).

(** Modelled from the spec: the handler behind [onBulkImport], which
    merges a change-set into the collection, is not among the sources.
    The specification has the change-set persisted as "an idempotent
    upsert keyed by primary key" of "the combined record list". *)
Definition upsert_record (collection : list object) (r : object) : list object :=
  if existsb (fun e => strict_eq (get e "id") (get r "id")) collection
  then map (fun e => if strict_eq (get e "id") (get r "id") then r else e) collection
  else collection ++ [r].

Definition persist (collection : list object) (cs : ChangeSet) : list object :=
  fold_left upsert_record (toAdd cs ++ toUpdate cs) collection.

(** ** The natural key of a BOM line *)

(** A BOM row that names the machine [machine] and the model [model]
    (an absent model counts as ['']) and whose item resolved to
    [item]. *)
Definition line_with_key (o : object) (machine model item : string) : Prop :=
  get o "machineCategory" = VStr machine
  /\ or_else (get o "modelNo") (VStr "") = VStr model
  /\ get o "itemId" = VStr item.

(** A record of the collection that holds the triple. *)
Definition stored_with_key (b : object) (machine model item : string) : Prop :=
  get b "machineCategory" = VStr machine
  /\ get b "modelNo" = VStr model
  /\ get b "itemId" = VStr item.

(** ** Scenarios of the import *)

Definition no_data : collections := mkCollections [] [] [] [] [] [] [] [].

(** A clock that advances by one millisecond per row, and a random
    source.  The scenarios have no date column. *)
Definition sample_env : ambient :=
  {| Date_now := fun n => (1700000000000 + Z.of_nat n)%Z;
     random_below := fun n k => ((4711 + 17 * Z.of_nat n) mod k)%Z;
     random_base36 := fun n => match n with 0 => "k3x9q" | _ => "p0m2z" end;
     now_iso := fun _ => "2023-11-14T22:13:20.000Z";
     date_iso := fun _ => None |}.

Definition bolt : object :=
  [("id", VStr "IT-9"); ("partNumber", VStr "PN-55"); ("name", VStr "Bolt")].

Definition warehouse_a : object := [("id", VStr "L-1"); ("name", VStr "Warehouse A")].

Definition pump : object := [("id", VStr "M-1"); ("category", VStr "Pump")].

(** Master data with one item, one location and one machine, and
    nothing imported so far. *)
Definition master_data : collections :=
  {| machines := [pump]; items := [bolt]; bomRecords := []; locations := [warehouse_a];
     sectors := []; divisions := []; breakdowns := []; history := [] |}.

Definition with_bom (data : collections) (bom : list object) : collections :=
  {| machines := machines data; items := items data; bomRecords := bom;
     locations := locations data; sectors := sectors data; divisions := divisions data;
     breakdowns := breakdowns data; history := history data |}.

(** The grid of the specification's scenario: one data row under its
    header row. *)
Definition scenario_grid : list (list value) :=
  [ [VStr "Item Code"; VStr "Qty"; VStr "Location"];
    [VStr "PN-55"; VStr "12"; VStr "Warehouse A"] ].

(** The same row with a column that names the machine. *)
Definition scenario_grid_with_machine : list (list value) :=
  [ [VStr "Machine"; VStr "Item Code"; VStr "Qty"; VStr "Location"];
    [VStr "Pump"; VStr "PN-55"; VStr "12"; VStr "Warehouse A"] ].

(** Two machine rows with the same explicit id. *)
Definition repeated_id_grid : list (list value) :=
  [ [VStr "ID"; VStr "Name"];
    [VStr "M-7"; VStr "Crane"];
    [VStr "M-7"; VStr "Crane"] ].

(** A BOM sheet with an explicit id column. *)
Definition bom_grid (id : string) : list (list value) :=
  [ [VStr "ID"; VStr "Machine"; VStr "Model"; VStr "Item Code"];
    [VStr id; VStr "Pump"; VStr "X1"; VStr "PN-55"] ].

(** A BOM sheet without ids, and one with the same line twice. *)
Definition bom_grid_no_id : list (list value) :=
  [ [VStr "Machine"; VStr "Model"; VStr "Item Code"];
    [VStr "Pump"; VStr "X1"; VStr "PN-55"] ].

Definition bom_grid_twice : list (list value) :=
  [ [VStr "Machine"; VStr "Model"; VStr "Item Code"];
    [VStr "Pump"; VStr "X1"; VStr "PN-55"];
    [VStr "Pump"; VStr "X1"; VStr "PN-55"] ].

(** The change-set of an asset import, if it ends. *)
Definition asset_changes (env : ambient) (data : collections) (tab : string)
    (rows : list (list value)) : option ChangeSet :=
  option_map AssetManagement.changes (AssetManagement.processImport env data tab rows).

(** Issue requests whose machine, item or quantity may be wrong. *)
Definition request_grid (item qty machine : string) : list (list value) :=
  [ [VStr "Item ID"; VStr "Qty"; VStr "Machine"];
    [VStr item; VStr qty; VStr machine] ].

(** ** Unresolved references and lenient quantities *)

(** Some machine has the reference as its id or, ignoring case, as its
    category. *)
Definition machine_resolves (machines : list object) (reference : string) : bool :=
  existsb (fun m =>
             strict_eq (get m "id") (VStr reference)
             || (toLowerCase (text (or_else (get m "category") (VStr ""))) =? toLowerCase reference))
          machines.

(** Some item has the reference as its id or, ignoring case, as its
    name or full name (the keys that the issue-request import looks
    up). *)
Definition item_resolves (items : list object) (reference : string) : bool :=
  existsb (fun i =>
             strict_eq (get i "id") (VStr reference)
             || (toLowerCase (text (or_else (get i "name") (VStr ""))) =? toLowerCase reference)
             || (toLowerCase (text (or_else (get i "fullName") (VStr ""))) =? toLowerCase reference))
          items.

(** A field that holds a string or nothing that counts: what
    [(v || '')] makes a string of. *)
Definition string_or_falsy (v : value) : bool := is_string v || negb (truthy v).

(** Master data whose name fields hold strings, as the types of the
    collections declare them: every location has a name; the category of
    a machine and the name and full name of an item are strings where
    they are present. *)
Definition named_master_data (data : collections) : Prop :=
  Forall (fun l => is_string (get l "name") = true) (locations data)
  /\ Forall (fun m => string_or_falsy (get m "category") = true) (machines data)
  /\ Forall (fun i => string_or_falsy (get i "name") = true
                      /\ string_or_falsy (get i "fullName") = true) (items data).

(** A location as a store without the name column returns it. *)
Definition nameless_location : object := [("id", VStr "L-1")].

Definition with_locations (data : collections) (ls : list object) : collections :=
  {| machines := machines data; items := items data; bomRecords := bomRecords data;
     locations := ls; sectors := sectors data; divisions := divisions data;
     breakdowns := breakdowns data; history := history data |}.

(** An issue request that names its location. *)
Definition request_grid_at (item qty machine location : string) : list (list value) :=
  [ [VStr "Item ID"; VStr "Qty"; VStr "Machine"; VStr "Location"];
    [VStr item; VStr qty; VStr machine; VStr location] ].

(** The rows that reach [toAdd] or [toUpdate]. *)
Definition request_retained (d : HistoryTable.decision) : bool :=
  match d with
  | HistoryTable.Add _ | HistoryTable.Update _ => true
  | _ => false
  end.

Definition asset_retained (d : AssetManagement.decision) : bool :=
  match d with
  | AssetManagement.Add _ | AssetManagement.Update _ => true
  | _ => false
  end.

(** A header of a quantity column, lower-cased and with its separators
    stripped. *)
Definition quantity_header (header : string) : bool :=
  mem_string header ["quantity"; "qty"; "count"].

(** A row with the cell of column [i] replaced; a row that is too short
    is first filled up with missing cells. *)
Fixpoint put_cell (i : nat) (v : value) (row : list value) : list value :=
  match i, row with
  | O, [] => [v]
  | O, _ :: r => v :: r
  | S i, [] => VUndefined :: put_cell i v []
  | S i, x :: r => x :: put_cell i v r
  end.

(* ===================================================================== *)
(** * Predicates for further properties of the code *)
(* ===================================================================== *)

(** A column name as the store has them: no capital [A-Z] and no
    hyphen. *)
Definition column_name (c : string) : bool :=
  forall_chars (fun ch => negb (is_upper ch) && negb (Ascii.eqb ch "-")) c.

(** No capital [A-Z]. *)
Definition no_capitals (c : string) : bool :=
  forall_chars (fun ch => negb (is_upper ch)) c.

(** The rows of the store whose translation to an entity and back is
    the identity: distinct column names; no [name], [status] or
    [category] that is [null], [undefined] or ['']; the column that the
    table defaults present and non-empty; no array in a list-valued
    column (the store keeps those as comma-joined text). *)
Record store_row_ready (tableName : string) (row : object) : Prop := {
  sr_distinct : NoDup (keys row);
  sr_columns : Forall (fun c => column_name c = true) (keys row);
  sr_non_empty : forall c v, In (c, v) row ->
      mem_string c ["name"; "status"; "category"] = true ->
      SupabaseService.is_blank v = false;
  sr_items : tableName = "items" -> truthy (get row "name") = true;
  sr_machines : tableName = "machines" -> truthy (get row "status") = true;
  sr_lists : forall c v, In (c, v) row ->
      mem_string (SupabaseService.toCamelCase c) SupabaseService.list_fields = true ->
      is_array v = false
}.

(** The row lists of the upserts of a trace, in order. *)
Definition payloads (events : list SupabaseService.event) : list (list object) :=
  flat_map (fun e => match e with
                     | SupabaseService.Upsert _ rows _ => [rows]
                     | _ => []
                     end) events.

(** The waits of a trace, in order. *)
Definition sleeps (events : list SupabaseService.event) : list nat :=
  flat_map (fun e => match e with
                     | SupabaseService.Sleep ms => [ms]
                     | _ => []
                     end) events.

(** A store that refuses every upsert. *)
Definition store_refusing (error : string) : SupabaseService.remote_store :=
  fun _ _ _ _ => SupabaseService.Failed error.

(** A store that acknowledges every row it is sent. *)
Definition store_acknowledging : SupabaseService.remote_store :=
  fun _ _ rows _ => SupabaseService.Rows rows.

(** A store that answers with neither an error nor rows. *)
Definition store_silent : SupabaseService.remote_store :=
  fun _ _ _ _ => SupabaseService.Silent.

(** A row as the users table returns it. *)
Definition sample_user_row : object :=
  [ ("username", VStr "amal"); ("name", VStr "Amal");
    ("allowed_menus", VStr "stock,assets"); ("allowed_location_ids", VStr "") ].

(** No [name], [status] or [category] that is [null], [undefined] or
    ['']. *)
Definition defaults_filled (o : object) : Prop :=
  forall c v, In (c, v) o -> mem_string c ["name"; "status"; "category"] = true ->
              SupabaseService.is_blank v = false.

(** No key with a capital [A-Z]. *)
Definition lower_case_keys (o : object) : Prop :=
  forall c, In c (keys o) -> no_capitals c = true.

(** ** Entities handed over by the asset import *)

(** An entity with an id and with the fields that its tab makes
    mandatory. *)
Definition complete_entity (tab : string) (o : object) : bool :=
  truthy (get o "id")
  && (if tab =? "machines" then truthy (get o "category") && truthy (get o "status")
      else if tab =? "breakdowns" then truthy (get o "machineName") && truthy (get o "status")
      else if tab =? "bom" then truthy (get o "machineCategory") && truthy (get o "itemId")
      else true).

(** The value is the id of some entity of the list. *)
Definition id_of_some (entities : list object) (v : value) : Prop :=
  exists e, In e entities /\ get e "id" = v.

(** The data rows of a grid: those after the detected header row. *)
Definition asset_data_rows (rows : list (list value)) : list (list value) :=
  skipn (AssetManagement.headerRowIndex rows + 1) rows.

(** A machine sheet keyed by chassis number. *)
Definition chassis_grid : list (list value) :=
  [ [VStr "Name"; VStr "Chassis No"; VStr "Status"];
    [VStr "Pump"; VStr "CH-77"; VStr "Stopped"];
    [VStr "Crane"; VStr "CH-99"; VStr ""];
    [VStr ""; VStr ""; VStr "Working"] ].

Definition pump_with_chassis : object :=
  [("id", VStr "M-1"); ("category", VStr "Pump"); ("chassisNo", VStr "CH-77");
   ("locationId", VStr "L-1")].

Definition with_machines (data : collections) (ms : list object) : collections :=
  {| machines := ms; items := items data; bomRecords := bomRecords data;
     locations := locations data; sectors := sectors data; divisions := divisions data;
     breakdowns := breakdowns data; history := history data |}.

(** A BOM sheet whose item codes do not all resolve. *)
Definition bom_grid_unknown_items : list (list value) :=
  [ [VStr "ID"; VStr "Machine"; VStr "Item Code"];
    [VStr "B-1"; VStr "Pump"; VStr "ZZ-1"];
    [VStr ""; VStr "Pump"; VStr "ZZ-1"];
    [VStr ""; VStr "Pump"; VStr "ZZ-2"];
    [VStr ""; VStr "Pump"; VStr "PN-55"] ].

(** The rows that the asset import accounts for: added, updated or
    counted as skipped. *)
Definition accounted (st : AssetManagement.import_state) : nat :=
  length (toAdd (AssetManagement.changes st)) + length (toUpdate (AssetManagement.changes st))
  + AssetManagement.skippedRows st.

(** Item codes without repetition, none of them empty, none of them
    answered by an item. *)
Definition unresolved_codes (items : list object) (failed : list string) : Prop :=
  NoDup failed
  /\ Forall (fun val => val <> EmptyString
                        /\ truthy (AssetManagement.resolveItemId items val) = false) failed.

(* ===================================================================== *)
(** * Facts about the JavaScript layer *)
(* ===================================================================== *)

Section ObjectFacts.

Lemma get_set_same (o : object) (k : string) (v : value) : get (set o k v) k = v.
Proof.
  induction o as [|[k' v'] r IH]; simpl.
  - now rewrite String.eqb_refl.
  - destruct (k' =? k) eqn:E; simpl.
    + now rewrite String.eqb_refl.
    + now rewrite E.
Qed.

Lemma get_set_other (o : object) (k k' : string) (v : value) :
  k <> k' -> get (set o k v) k' = get o k'.
Proof.
  intros Hne. induction o as [|[k0 v0] r IH]; simpl.
  - destruct (k =? k') eqn:E; [apply String.eqb_eq in E; contradiction | reflexivity].
  - destruct (k0 =? k) eqn:E; simpl.
    + apply String.eqb_eq in E. subst k0.
      destruct (k =? k') eqn:E'; [apply String.eqb_eq in E'; contradiction | reflexivity].
    + destruct (k0 =? k'); [reflexivity | exact IH].
Qed.

Lemma set_fresh (o : object) (k : string) (v : value) :
  ~ In k (keys o) -> set o k v = o ++ [(k, v)].
Proof.
  induction o as [|[k' v'] r IH]; simpl; intros Hn; [reflexivity|].
  destruct (k' =? k) eqn:E.
  - apply String.eqb_eq in E. subst. exfalso. apply Hn. now left.
  - f_equal. apply IH. intros Hin. apply Hn. now right.
Qed.

Lemma keys_set (o : object) (k : string) (v : value) :
  keys (set o k v) = if mem_string k (keys o) then keys o else keys o ++ [k].
Proof.
  unfold mem_string.
  induction o as [|[k' v'] r IH]; simpl; [reflexivity|].
  rewrite (String.eqb_sym k k').
  destruct (k' =? k) eqn:E; simpl.
  - apply String.eqb_eq in E. now subst.
  - rewrite IH. unfold keys. now destruct (existsb (String.eqb k) (map fst r)).
Qed.

Lemma mem_string_In (k : string) (l : list string) : mem_string k l = true <-> In k l.
Proof.
  unfold mem_string. rewrite existsb_exists. split.
  - intros [x [Hin E]]. apply String.eqb_eq in E. now subst.
  - intros Hin. exists k. split; [assumption | apply String.eqb_refl].
Qed.

Lemma mem_string_not_In (k : string) (l : list string) : mem_string k l = false <-> ~ In k l.
Proof.
  rewrite <- mem_string_In. destruct (mem_string k l); split; congruence.
Qed.

Lemma NoDup_keys_set (o : object) (k : string) (v : value) :
  NoDup (keys o) -> NoDup (keys (set o k v)).
Proof.
  intros Hnd. rewrite keys_set. destruct (mem_string k (keys o)) eqn:E; [assumption|].
  apply mem_string_not_In in E.
  apply NoDup_app; [assumption | repeat constructor; intros [] | ].
  intros x Hx [Hk | []]. subst. contradiction.
Qed.

Lemma get_In (o : object) (k : string) (v : value) :
  NoDup (keys o) -> In (k, v) o -> get o k = v.
Proof.
  induction o as [|[k' v'] r IH]; simpl; intros Hnd Hin; [contradiction|].
  inversion Hnd as [|? ? Hnotin Hnd']; subst.
  destruct Hin as [Heq | Hin].
  - inversion Heq; subst. now rewrite String.eqb_refl.
  - destruct (k' =? k) eqn:E.
    + apply String.eqb_eq in E. subst. exfalso. apply Hnotin.
      change k with (fst (k, v)). now apply in_map.
    + now apply IH.
Qed.

Lemma get_absent (o : object) (k : string) : ~ In k (keys o) -> get o k = VUndefined.
Proof.
  induction o as [|[k' v'] r IH]; simpl; intros Hn; [reflexivity|].
  destruct (k' =? k) eqn:E.
  - apply String.eqb_eq in E. subst. exfalso. apply Hn. now left.
  - apply IH. intros Hin. apply Hn. now right.
Qed.

(** A loop that assigns one property per element, all to distinct new
    keys, appends the properties in order. *)
Lemma fold_set_fresh {A : Type} (g : A -> string * value) (l : list A) (acc : object) :
  NoDup (keys acc ++ map (fun x => fst (g x)) l) ->
  fold_left (fun o x => set o (fst (g x)) (snd (g x))) l acc = acc ++ map g l.
Proof.
  revert acc. induction l as [|x l IH]; intros acc Hnd; simpl.
  - now rewrite app_nil_r.
  - rewrite set_fresh.
    + rewrite IH.
      * rewrite <- app_assoc. simpl. now destruct (g x).
      * unfold keys in *. rewrite map_app. simpl. rewrite <- app_assoc. exact Hnd.
    + simpl in Hnd. apply NoDup_remove_2 in Hnd. intros Hin. apply Hnd.
      apply in_or_app. now left.
Qed.

Lemma get_fold_set_other (r a : object) (k : string) :
  ~ In k (keys r) ->
  get (fold_left (fun acc kv => set acc (fst kv) (snd kv)) r a) k = get a k.
Proof.
  revert a. induction r as [|[k' v'] r IH]; intros a Hn; simpl; [reflexivity|].
  rewrite IH.
  - apply get_set_other. intros ->. apply Hn. now left.
  - intros Hin. apply Hn. now right.
Qed.

(** [{...a, ...b}] reads as [b] on the keys of [b]. *)
Lemma get_spread (a b : object) (k : string) :
  NoDup (keys b) -> In k (keys b) -> get (spread a b) k = get b k.
Proof.
  unfold spread. revert a. induction b as [|[k' v'] r IH]; intros a Hnd Hin; [contradiction|].
  simpl in *. inversion Hnd as [|? ? Hnotin Hnd']; subst.
  destruct (k' =? k) eqn:E.
  - apply String.eqb_eq in E. subst k'.
    rewrite get_fold_set_other by assumption. apply get_set_same.
  - destruct Hin as [Heq | Hin]; [subst; now rewrite String.eqb_refl in E|].
    now apply IH.
Qed.

End ObjectFacts.

(* ===================================================================== *)
(** * Key casing and the record translation *)
(* ===================================================================== *)

Section KeyCasing.

Import SupabaseService.

Lemma upper_lower_char (c : ascii) : is_upper c = true -> upper_char (lower_char c) = c.
Proof.
  destruct c as [[] [] [] [] [] [] [] []]; vm_compute; congruence.
Qed.

Lemma lower_char_is_lower (c : ascii) : is_upper c = true -> is_lower (lower_char c) = true.
Proof.
  destruct c as [[] [] [] [] [] [] [] []]; vm_compute; congruence.
Qed.

Lemma upper_not_separator (c : ascii) :
  is_upper c = true -> Ascii.eqb "-" c = false /\ Ascii.eqb "_" c = false.
Proof.
  destruct c as [[] [] [] [] [] [] [] []]; vm_compute; split; congruence.
Qed.

Lemma letter_not_separator (c : ascii) :
  (is_upper c || is_lower c) = true -> is_dash_or_underscore c = false.
Proof.
  destruct c as [[] [] [] [] [] [] [] []]; vm_compute; congruence.
Qed.

(** The group that [toSnakeCase] writes for a capital is read back as
    that capital. *)
Lemma camel_group_snake (c : ascii) :
  is_upper c = true ->
  camel_group (String "_" (String (lower_char c) EmptyString)) = String c EmptyString.
Proof.
  destruct c as [[] [] [] [] [] [] [] []]; vm_compute; congruence.
Qed.

Lemma toSnakeCase_upper (c : ascii) (r : string) :
  is_upper c = true ->
  toSnakeCase (String c r) = String "_" (String (lower_char c) (toSnakeCase r)).
Proof. intros H. simpl. now rewrite H. Qed.

Lemma toSnakeCase_other (c : ascii) (r : string) :
  is_upper c = false -> toSnakeCase (String c r) = String c (toSnakeCase r).
Proof. intros H. simpl. now rewrite H. Qed.

Lemma toCamelCase_pair (c d : ascii) (r : string) :
  toCamelCase (String c (String d r)) =
  if is_dash_or_underscore c && is_lower d
  then (camel_group (String c (String d EmptyString)) ++ toCamelCase r)%string
  else String c (toCamelCase (String d r)).
Proof. reflexivity. Qed.

(** [toCamelCase] undoes [toSnakeCase] on keys without [-] and [_]. *)
Lemma camel_snake (k : string) :
  forall_chars (fun c => negb (is_dash_or_underscore c)) k = true ->
  toCamelCase (toSnakeCase k) = k.
Proof.
  induction k as [|c r IH]; intros Hk; [reflexivity|].
  simpl in Hk. apply andb_true_iff in Hk. destruct Hk as [Hc Hr].
  specialize (IH Hr).
  destruct (is_upper c) eqn:Hup.
  - rewrite (toSnakeCase_upper c r Hup), toCamelCase_pair.
    rewrite (lower_char_is_lower c Hup).
    change (is_dash_or_underscore "_" && true) with true. cbv iota.
    rewrite (camel_group_snake c Hup). simpl. now rewrite IH.
  - rewrite (toSnakeCase_other c r Hup).
    destruct (toSnakeCase r) as [|d r'] eqn:Er.
    + simpl in IH. now rewrite <- IH.
    + rewrite toCamelCase_pair. apply negb_true_iff in Hc. rewrite Hc.
      simpl andb. cbv iota. now rewrite IH.
Qed.

Lemma letters_no_separator (k : string) :
  letters_only k = true ->
  forall_chars (fun c => negb (is_dash_or_underscore c)) k = true.
Proof.
  unfold letters_only. induction k as [|c r IH]; simpl; [reflexivity|].
  intros H. apply andb_true_iff in H. destruct H as [Hc Hr].
  rewrite (letter_not_separator c Hc). simpl. now apply IH.
Qed.

Lemma camel_snake_letters (k : string) :
  letters_only k = true -> toCamelCase (toSnakeCase k) = k.
Proof. intros H. apply camel_snake. now apply letters_no_separator. Qed.

(** ** Joining and splitting *)

Lemma split_comma_free (s : string) : comma_free s = true -> split "," s = [s].
Proof.
  unfold comma_free. induction s as [|c r IH]; cbn [split forall_chars]; [reflexivity|].
  intros H. apply andb_true_iff in H. destruct H as [Hc Hr].
  apply negb_true_iff in Hc. rewrite Hc. now rewrite (IH Hr).
Qed.

Lemma split_app_comma (s rest : string) :
  comma_free s = true ->
  split "," (s ++ String "," rest) = s :: split "," rest.
Proof.
  unfold comma_free. induction s as [|c r IH]; cbn [split forall_chars append].
  - now rewrite Ascii.eqb_refl.
  - intros H. apply andb_true_iff in H. destruct H as [Hc Hr].
    apply negb_true_iff in Hc. rewrite Hc. now rewrite (IH Hr).
Qed.

Lemma split_join (l : list string) :
  l <> [] -> Forall (fun s => comma_free s = true) l ->
  split "," (join (map VStr l) ",") = l.
Proof.
  unfold join. induction l as [|s l IH]; intros Hne Hall; [congruence|].
  inversion Hall as [|? ? Hs Hl]; subst.
  destruct l as [|s' l'].
  - simpl. now apply split_comma_free.
  - change (join_by ToString "," (map VStr (s :: s' :: l')))
      with (s ++ String "," (join_by ToString "," (map VStr (s' :: l'))))%string.
    rewrite split_app_comma by assumption.
    f_equal. apply IH; [congruence | assumption].
Qed.

Lemma join_non_empty (l : list string) :
  l <> [] -> Forall (fun s => s <> EmptyString) l -> join (map VStr l) "," <> EmptyString.
Proof.
  unfold join. destruct l as [|s l]; intros Hne Hall; [congruence|].
  inversion Hall as [|? ? Hs Hl]; subst.
  destruct s as [|c s]; [congruence|].
  destruct l; simpl; congruence.
Qed.

End KeyCasing.

Lemma snake_keys_NoDup (r : object) :
  NoDup (keys r) -> Forall (fun k => letters_only k = true) (keys r) ->
  NoDup (map (fun kv => fst (SupabaseService.to_store_pair kv)) r).
Proof.
  unfold keys. induction r as [|[k v] r IH]; simpl; intros Hnd Hall; [constructor|].
  inversion Hnd as [|? ? Hnotin Hnd']; subst.
  inversion Hall as [|? ? Hk Hall']; subst.
  constructor; [|now apply IH].
  intros Hin. apply in_map_iff in Hin. destruct Hin as [[k' v'] [E Hin']].
  cbn [fst] in E. apply Hnotin.
  assert (k' = k).
  { rewrite Forall_forall in Hall'.
    rewrite <- (camel_snake_letters k) by exact Hk.
    rewrite <- (camel_snake_letters k').
    - now rewrite E.
    - apply Hall'. change k' with (fst (k', v')). now apply in_map. }
  subst. change k with (fst (k, v')). now apply in_map.
Qed.

Section RecordTranslation.

Import SupabaseService.

Variable tableName : string.
Variable record : object.
Hypothesis ready : round_trip_ready tableName record.

Lemma ready_key (k : string) (v : value) :
  In (k, v) record -> toCamelCase (toSnakeCase k) = k.
Proof.
  intros Hin. apply camel_snake_letters.
  pose proof (rt_letters _ _ ready) as Hall. rewrite Forall_forall in Hall.
  apply Hall. change k with (fst (k, v)). now apply in_map.
Qed.

(** One property, translated to the store and back, is itself. *)
Lemma pair_round_trip (kv : string * value) :
  In kv record -> from_store_pair (to_store_pair kv) = kv.
Proof.
  destruct kv as [k v]. intros Hin.
  pose proof (ready_key k v Hin) as Hk.
  unfold to_store_pair, from_store_pair. cbn [fst snd].
  destruct (mem_string k list_fields) eqn:Hlist.
  - destruct (rt_lists _ _ ready k v Hin Hlist) as [l [-> [Hne Hall]]].
    cbn [is_array andb].
    assert (Hj : join (map VStr l) "," <> EmptyString).
    { apply join_non_empty; [assumption|].
      eapply Forall_impl; [|exact Hall]. now intros s [H _]. }
    assert (Hb : (join (map VStr l) "," =? "") = false) by now apply String.eqb_neq.
    cbn [is_blank]. rewrite Hb, Hk, Hlist. cbn [is_string andb truthy].
    rewrite Hb. cbn [negb]. rewrite split_join; [reflexivity | assumption |].
    eapply Forall_impl; [|exact Hall]. now intros s [_ H].
  - rewrite andb_false_r.
    assert (Hv : (if is_blank v
                  then if toSnakeCase k =? "name" then VStr "Unnamed"
                       else if toSnakeCase k =? "status" then VStr "Active"
                       else if toSnakeCase k =? "category" then VStr "General" else v
                  else v) = v).
    { destruct (is_blank v) eqn:Hblank; [|reflexivity].
      assert (Hnot : mem_string k ["name"; "status"; "category"] = false).
      { destruct (mem_string k ["name"; "status"; "category"]) eqn:Hm; [|reflexivity].
        rewrite (rt_non_empty _ _ ready k v Hin Hm) in Hblank. discriminate. }
      assert (Hcol : forall c, toCamelCase c = c -> (toSnakeCase k =? c) = true -> k = c).
      { intros c Hc E. apply String.eqb_eq in E. rewrite <- Hk, E. exact Hc. }
      unfold mem_string in Hnot. cbn [existsb] in Hnot.
      repeat (apply orb_false_iff in Hnot; destruct Hnot as [? Hnot]).
      destruct (toSnakeCase k =? "name") eqn:E1.
      { apply Hcol in E1; [|reflexivity]. subst k. discriminate. }
      destruct (toSnakeCase k =? "status") eqn:E2.
      { apply Hcol in E2; [|reflexivity]. subst k. discriminate. }
      destruct (toSnakeCase k =? "category") eqn:E3.
      { apply Hcol in E3; [|reflexivity]. subst k. discriminate. }
      reflexivity. }
    rewrite Hv, Hk, Hlist. reflexivity.
Qed.

Lemma pair_key (kv : string * value) : fst (to_store_pair kv) = toSnakeCase (fst kv).
Proof. reflexivity. Qed.

Lemma snake_keys_distinct : NoDup (map (fun kv => fst (to_store_pair kv)) record).
Proof.
  apply snake_keys_NoDup; [exact (rt_distinct _ _ ready) | exact (rt_letters _ _ ready)].
Qed.

(** The loop of [processRecordToSupabase] writes one column per
    property, in order. *)
Lemma to_store_loop : fold_left to_store_step record [] = map to_store_pair record.
Proof.
  unfold to_store_step.
  rewrite (fold_set_fresh to_store_pair record []); [reflexivity|].
  exact snake_keys_distinct.
Qed.

Lemma get_translated (k : string) (v : value) :
  In (k, v) record ->
  get (map to_store_pair record) (toSnakeCase k) = snd (to_store_pair (k, v)).
Proof.
  intros Hin. apply get_In.
  - unfold keys. rewrite map_map. exact snake_keys_distinct.
  - change (toSnakeCase k, snd (to_store_pair (k, v))) with (to_store_pair (k, v)).
    now apply in_map.
Qed.

(** A required field that is present and non-empty is still so in the
    store representation. *)
Lemma required_field_kept (k : string) :
  mem_string k ["name"; "status"; "category"] = true ->
  toSnakeCase k = k ->
  truthy (get record k) = true ->
  truthy (get (map to_store_pair record) k) = true.
Proof.
  intros Hm Hsnake Htruthy.
  destruct (in_dec string_dec k (keys record)) as [Hin | Hnot].
  - unfold keys in Hin. apply in_map_iff in Hin. destruct Hin as [[k' v] [E Hin]].
    cbn [fst] in E. subst k'.
    rewrite (get_In record k v (rt_distinct _ _ ready) Hin) in Htruthy.
    rewrite <- Hsnake at 1. rewrite (get_translated k v Hin).
    pose proof (pair_round_trip (k, v) Hin) as Hrt.
    unfold to_store_pair. cbn [fst snd].
    assert (Hlist : mem_string k list_fields = false).
    { apply mem_string_In in Hm. destruct Hm as [<-|[<-|[<-|[]]]]; reflexivity. }
    rewrite Hlist, andb_false_r.
    rewrite (rt_non_empty _ _ ready k v Hin Hm). exact Htruthy.
  - rewrite (get_absent record k Hnot) in Htruthy. discriminate.
Qed.

Lemma to_store_ready : processRecordToSupabase record tableName = map to_store_pair record.
Proof.
  unfold processRecordToSupabase. rewrite to_store_loop.
  destruct (tableName =? "items") eqn:Ei.
  - apply String.eqb_eq in Ei.
    rewrite (required_field_kept "name" eq_refl eq_refl (rt_items _ _ ready Ei)).
    cbn [negb andb]. subst tableName. reflexivity.
  - cbn [andb]. destruct (tableName =? "machines") eqn:Em; [|reflexivity].
    apply String.eqb_eq in Em.
    now rewrite (required_field_kept "status" eq_refl eq_refl (rt_machines _ _ ready Em)).
Qed.

Lemma from_store_loop :
  fold_left from_store_step (map to_store_pair record) [] = record.
Proof.
  unfold from_store_step.
  assert (Hmap : map from_store_pair (map to_store_pair record) = record).
  { rewrite map_map. rewrite <- (map_id record) at 2.
    apply map_ext_in. intros kv Hin. now apply pair_round_trip. }
  rewrite (fold_set_fresh from_store_pair (map to_store_pair record) []).
  - exact Hmap.
  - cbn [keys map app].
    rewrite <- (map_map from_store_pair fst), Hmap. exact (rt_distinct _ _ ready).
Qed.

End RecordTranslation.

(* ===================================================================== *)
(** * The header detector *)
(* ===================================================================== *)

Section HeaderDetector.

Variable keywords : list string.

Lemma keyword_hits_count (row : list value) :
  keyword_hits keywords row = length (filter (cell_matches keywords) row).
Proof.
  unfold keyword_hits, cell_matches. induction row as [|c row IH]; [reflexivity|].
  cbn [map filter].
  destruct (existsb (fun key => includes (trim (toLowerCase (ToString c))) key) keywords);
    cbn [length]; now rewrite IH.
Qed.

Lemma scan_found (window : list (list value)) (r0 r : nat) :
  scan (keyword_hits keywords) window r0 = Some r ->
  r0 <= r < r0 + length window
  /\ 2 <= keyword_hits keywords (nth (r - r0) window [])
  /\ forall j, j < r - r0 -> keyword_hits keywords (nth j window []) < 2.
Proof.
  revert r0. induction window as [|row rest IH]; intros r0 H; [discriminate|].
  cbn [scan] in H. destruct (2 <=? keyword_hits keywords row)%nat eqn:E.
  - inversion H; subst. rewrite Nat.sub_diag. cbn [nth length].
    apply Nat.leb_le in E. repeat split; [lia | lia | exact E | lia].
  - apply Nat.leb_gt in E. destruct (IH (S r0) H) as [Hr [Hhit Hbefore]].
    cbn [length]. replace (r - r0) with (S (r - S r0)) by lia. cbn [nth].
    repeat split; [lia | lia | exact Hhit |].
    intros [|j] Hj; [exact E | apply Hbefore; lia].
Qed.

Lemma scan_not_found (window : list (list value)) (r0 : nat) :
  scan (keyword_hits keywords) window r0 = None ->
  forall j, j < length window -> keyword_hits keywords (nth j window []) < 2.
Proof.
  revert r0. induction window as [|row rest IH]; intros r0 H j Hj; [cbn in Hj; lia|].
  cbn [scan] in H. destruct (2 <=? keyword_hits keywords row)%nat eqn:E; [discriminate|].
  apply Nat.leb_gt in E. destruct j as [|j]; [exact E|].
  cbn [nth]. apply (IH (S r0) H). cbn [length] in Hj. lia.
Qed.

Lemma nth_firstn_lt {A : Type} (n j : nat) (l : list A) (d : A) :
  j < n -> nth j (firstn n l) d = nth j l d.
Proof.
  revert j l. induction n as [|n IH]; intros j l Hj; [lia|].
  destruct l as [|x l]; [now destruct j|].
  destruct j as [|j]; [reflexivity|]. cbn [firstn nth]. apply IH. lia.
Qed.

(** The detector returns the first row of the window with two hits,
    and 0 when the window has none. *)
Lemma detect_header_first (rows : list (list value)) :
  first_header_row keywords rows (detect_header keywords rows).
Proof.
  unfold first_header_row, detect_header, hits_at.
  set (n := Nat.min (length rows) 10).
  assert (Hlen : length (firstn n rows) = n).
  { rewrite length_firstn. unfold n. lia. }
  destruct (scan (keyword_hits keywords) (firstn n rows) 0) as [r|] eqn:E.
  - left. destruct (scan_found _ _ _ E) as [Hr [Hhit Hbefore]].
    rewrite Hlen in Hr. rewrite Nat.sub_0_r in Hhit, Hbefore.
    rewrite nth_firstn_lt in Hhit by lia. rewrite keyword_hits_count in Hhit.
    repeat split; [lia | exact Hhit |].
    intros j Hj. specialize (Hbefore j Hj).
    rewrite nth_firstn_lt in Hbefore by lia. now rewrite keyword_hits_count in Hbefore.
  - right. split; [reflexivity|]. intros j Hj.
    pose proof (scan_not_found _ _ E j) as H. rewrite Hlen in H. specialize (H Hj).
    rewrite nth_firstn_lt in H by lia. now rewrite keyword_hits_count in H.
Qed.

End HeaderDetector.

(** C6 (amended).  Each import path has a header detector of its own:
    the one of the issue and stock import counts the cells that,
    lower-cased and trimmed, contain one of [id], [date], [qty], [item],
    [machine], [unit], [status]; the one of the asset import uses [id],
    [name], [qty], [machine], [item], [part], [serial], [brand],
    [model].  Either returns the first of the first ten rows with at
    least two such cells, and row 0 when there is none. *)
Theorem header_detectors_first_row (rows : list (list value)) :
  first_header_row ["id"; "date"; "qty"; "item"; "machine"; "unit"; "status"]
                   rows (HistoryTable.headerRowIndex rows)
  /\ first_header_row ["id"; "name"; "qty"; "machine"; "item"; "part"; "serial"; "brand"; "model"]
                      rows (AssetManagement.headerRowIndex rows).
Proof.
  split; apply detect_header_first.
Qed.

(** C6, as stated, fails: on a sheet whose second row reads "Name",
    "Date", the twelve-keyword detector of the specification selects
    row 1, and both detectors of the code stay on row 0. *)
Lemma header_detectors_not_spec :
  detect_header spec_keywords titled_grid = 1
  /\ first_header_row spec_keywords titled_grid 1
  /\ HistoryTable.headerRowIndex titled_grid = 0
  /\ AssetManagement.headerRowIndex titled_grid = 0
  /\ ~ first_header_row spec_keywords titled_grid (HistoryTable.headerRowIndex titled_grid)
  /\ ~ first_header_row spec_keywords titled_grid (AssetManagement.headerRowIndex titled_grid).
Proof.
  assert (H1 : hits_at spec_keywords titled_grid 1 = 2) by reflexivity.
  assert (H0 : hits_at spec_keywords titled_grid 0 = 0) by reflexivity.
  split; [reflexivity|]. split.
  - left. rewrite H1. repeat split; [cbn; lia | lia |].
    intros j Hj. assert (j = 0) by lia. subst. rewrite H0. lia.
  - split; [reflexivity|]. split; [reflexivity|].
    assert (Hnot : ~ first_header_row spec_keywords titled_grid 0).
    { intros [[_ [Hhit _]] | [_ Hnone]].
      - rewrite H0 in Hhit. lia.
      - specialize (Hnone 1 ltac:(cbn; lia)). rewrite H1 in Hnone. lia. }
    split; exact Hnot.
Qed.
Section GatewayRun.

Import SupabaseService.

Variable remote : remote_store.
Variable onProgress : bool.
Variable frontendTable supabaseTable : string.
Variable total : nat.

Lemma attempts_unfold (fuel : nat) (processedData : list object)
    (batchNum totalBatches retryCount : nat) (st : run) :
  attempts remote onProgress frontendTable supabaseTable total (S fuel)
           processedData batchNum totalBatches retryCount st =
  if (retryCount <? MAX_RETRIES)%nat then
    let st1 := mkRun (successCount st) (failedBatches st)
                     (trace st ++ [Upsert supabaseTable processedData (pk frontendTable)])
                     (S (calls st)) in
    match remote (calls st) supabaseTable processedData (pk frontendTable) with
    | Rows data =>
        Some (report onProgress batchNum totalBatches total
                (mkRun (successCount st + length data) (failedBatches st)
                       (trace st1) (calls st1)))
    | Silent =>
        attempts remote onProgress frontendTable supabaseTable total fuel
                 processedData batchNum totalBatches retryCount st1
    | Failed message =>
        if (S retryCount <? MAX_RETRIES)%nat
        then attempts remote onProgress frontendTable supabaseTable total fuel
               processedData batchNum totalBatches (S retryCount)
               (emit (Sleep (1000 * S retryCount)) st1)
        else attempts remote onProgress frontendTable supabaseTable total fuel
               processedData batchNum totalBatches (S retryCount)
               (mkRun (successCount st1) (failedBatches st1 ++ [(batchNum, message)])
                      (trace st1) (calls st1))
    end
  else Some st.
Proof. reflexivity. Qed.

Lemma attempts_exhausted (fuel : nat) (processedData : list object)
    (batchNum totalBatches retryCount : nat) (st : run) :
  (MAX_RETRIES <= retryCount)%nat ->
  attempts remote onProgress frontendTable supabaseTable total fuel
           processedData batchNum totalBatches retryCount st = Some st.
Proof.
  intros H. apply Nat.ltb_ge in H. destruct fuel; simpl; now rewrite H.
Qed.

Lemma batches_unfold (fuel : nat) (dataArray : list object) (totalBatches i : nat) (st : run) :
  batches remote onProgress frontendTable supabaseTable total (S fuel) dataArray totalBatches i st =
  if (i <? length dataArray)%nat then
    match attempts remote onProgress frontendTable supabaseTable total fuel
            (map (fun item => processRecordToSupabase item supabaseTable)
                 (firstn BATCH_SIZE (skipn i dataArray)))
            (i / BATCH_SIZE + 1) totalBatches 0
            (report onProgress (i / BATCH_SIZE + 1) totalBatches total st) with
    | None => None
    | Some st =>
        batches remote onProgress frontendTable supabaseTable total fuel dataArray totalBatches
                (i + BATCH_SIZE)
                (if (i + BATCH_SIZE <? length dataArray)%nat then emit (Sleep 200) st else st)
    end
  else Some st.
Proof. reflexivity. Qed.

Lemma batches_done (fuel : nat) (dataArray : list object) (totalBatches i : nat) (st : run) :
  (length dataArray <= i)%nat ->
  batches remote onProgress frontendTable supabaseTable total fuel dataArray totalBatches i st
  = Some st.
Proof.
  intros H. apply Nat.ltb_ge in H. destruct fuel; simpl; now rewrite H.
Qed.

(** A batch that the store acknowledges at once. *)
Lemma attempts_first_try (fuel : nat) (processedData data : list object)
    (batchNum totalBatches : nat) (st : run) :
  remote (calls st) supabaseTable processedData (pk frontendTable) = Rows data ->
  attempts remote onProgress frontendTable supabaseTable total (S fuel)
           processedData batchNum totalBatches 0 st
  = Some (report onProgress batchNum totalBatches total
            (mkRun (successCount st + length data) (failedBatches st)
                   (trace st ++ [Upsert supabaseTable processedData (pk frontendTable)])
                   (S (calls st)))).
Proof. intros H. rewrite attempts_unfold, H. reflexivity. Qed.

(** A batch that the store refuses three times in a row: two waits of
    1000 ms and 2000 ms, then the batch is recorded as failed. *)
Lemma attempts_all_fail (fuel : nat) (processedData : list object)
    (batchNum totalBatches : nat) (st : run) (m1 m2 m3 : string) :
  remote (calls st) supabaseTable processedData (pk frontendTable) = Failed m1 ->
  remote (S (calls st)) supabaseTable processedData (pk frontendTable) = Failed m2 ->
  remote (S (S (calls st))) supabaseTable processedData (pk frontendTable) = Failed m3 ->
  attempts remote onProgress frontendTable supabaseTable total (S (S (S fuel)))
           processedData batchNum totalBatches 0 st
  = Some (mkRun (successCount st) (failedBatches st ++ [(batchNum, m3)])
            (trace st ++ [Upsert supabaseTable processedData (pk frontendTable); Sleep 1000;
                          Upsert supabaseTable processedData (pk frontendTable); Sleep 2000;
                          Upsert supabaseTable processedData (pk frontendTable)])
            (S (S (S (calls st))))).
Proof.
  intros H1 H2 H3.
  rewrite attempts_unfold. cbn [Nat.ltb Nat.leb MAX_RETRIES]. cbv zeta. rewrite H1.
  rewrite attempts_unfold. cbn [Nat.ltb Nat.leb MAX_RETRIES emit calls]. cbv zeta. rewrite H2.
  rewrite attempts_unfold. cbn [Nat.ltb Nat.leb MAX_RETRIES emit calls]. cbv zeta. rewrite H3.
  rewrite attempts_exhausted by (unfold MAX_RETRIES; lia).
  cbn [successCount failedBatches trace calls emit].
  repeat rewrite <- app_assoc. reflexivity.
Qed.

End GatewayRun.

(** The run on a non-empty record list of a known table. *)
Lemma bulk_upsert_unfold (fuel : nat) (remote : SupabaseService.remote_store)
    (frontendTable supabaseTable : string) (dataArray : list object) (onProgress : bool) :
  SupabaseService.lookup_table SupabaseService.tableMap frontendTable = Some supabaseTable ->
  dataArray <> [] ->
  SupabaseService.bulkUpsertSupabaseRecords fuel remote frontendTable (Some dataArray) onProgress
  = let total := length dataArray in
    let totalBatches := (total + (SupabaseService.BATCH_SIZE - 1)) / SupabaseService.BATCH_SIZE in
    match SupabaseService.batches remote onProgress frontendTable supabaseTable total
            fuel dataArray totalBatches 0 (SupabaseService.mkRun 0 [] [] 0) with
    | None => None
    | Some st =>
        let st := SupabaseService.report onProgress totalBatches totalBatches total st in
        if (0 <? length (SupabaseService.failedBatches st))%nat then
          Some ([("status", VStr "partial");
                 ("count", SupabaseService.num (SupabaseService.successCount st));
                 ("message",
                  VStr (SupabaseService.show (SupabaseService.successCount st) ++ "/"
                        ++ SupabaseService.show total ++ " uploaded. "
                        ++ SupabaseService.show (length (SupabaseService.failedBatches st))
                        ++ " batches failed.")%string)],
                st)
        else Some ([("status", VStr "success");
                    ("count", SupabaseService.num (SupabaseService.successCount st))], st)
    end.
Proof.
  intros Htable Hne. unfold SupabaseService.bulkUpsertSupabaseRecords. rewrite Htable.
  destruct dataArray; [congruence | reflexivity].
Qed.

(** ** Termination of a run

    The retry loop repeats without counting when the store answers with
    neither an error nor rows.  Against a store that always answers
    with one of the two, a run ends: fuel for as many iterations as
    there are records, plus the three attempts of a batch, is enough. *)
Section GatewayTermination.

Import SupabaseService.

Variable remote : remote_store.
Variable onProgress : bool.
Variable frontendTable supabaseTable : string.
Variable total : nat.

Hypothesis answers : forall n t rows k, remote n t rows k <> Silent.

Lemma attempts_end (fuel : nat) (processedData : list object)
    (batchNum totalBatches retryCount : nat) (st : run) :
  MAX_RETRIES - retryCount <= fuel ->
  exists st', attempts remote onProgress frontendTable supabaseTable total fuel
                processedData batchNum totalBatches retryCount st = Some st'.
Proof.
  revert retryCount st. induction fuel as [|fuel IH]; intros retryCount st Hfuel.
  - exists st. apply attempts_exhausted. lia.
  - destruct (Nat.le_gt_cases MAX_RETRIES retryCount) as [Hdone | Hmore].
    + exists st. now apply attempts_exhausted.
    + rewrite attempts_unfold. apply Nat.ltb_lt in Hmore. rewrite Hmore.
      apply Nat.ltb_lt in Hmore. cbv zeta.
      destruct (remote (calls st) supabaseTable processedData (pk frontendTable)) eqn:Hr.
      * destruct (S retryCount <? MAX_RETRIES)%nat; apply IH; lia.
      * eauto.
      * now apply answers in Hr.
Qed.

Lemma batches_end (fuel : nat) (dataArray : list object) (totalBatches i : nat) (st : run) :
  (length dataArray - i) + MAX_RETRIES <= fuel ->
  exists st', batches remote onProgress frontendTable supabaseTable total fuel
                dataArray totalBatches i st = Some st'.
Proof.
  revert i st. induction fuel as [|fuel IH]; intros i st Hfuel.
  - exists st. apply batches_done. unfold MAX_RETRIES in Hfuel. lia.
  - destruct (Nat.le_gt_cases (length dataArray) i) as [Hdone | Hmore].
    + exists st. now apply batches_done.
    + rewrite batches_unfold. apply Nat.ltb_lt in Hmore. rewrite Hmore.
      apply Nat.ltb_lt in Hmore.
      destruct (attempts_end fuel
                  (map (fun item => processRecordToSupabase item supabaseTable)
                       (firstn BATCH_SIZE (skipn i dataArray)))
                  (i / BATCH_SIZE + 1) totalBatches 0
                  (report onProgress (i / BATCH_SIZE + 1) totalBatches total st))
        as [st1 Hst1]; [lia|].
      rewrite Hst1. apply IH. unfold BATCH_SIZE. lia.
Qed.

End GatewayTermination.

Lemma bulk_upsert_returns (remote : SupabaseService.remote_store) (frontendTable : string)
    (dataArray : option (list object)) (onProgress : bool) :
  (forall n t rows k, remote n t rows k <> SupabaseService.Silent) ->
  exists fuel outcome,
    SupabaseService.bulkUpsertSupabaseRecords fuel remote frontendTable dataArray onProgress
    = Some outcome.
Proof.
  intros Hanswers.
  destruct (SupabaseService.lookup_table SupabaseService.tableMap frontendTable)
    as [supabaseTable|] eqn:Htable.
  - destruct dataArray as [[|r rs]|].
    + exists 0. eexists. unfold SupabaseService.bulkUpsertSupabaseRecords.
      rewrite Htable. reflexivity.
    + exists (length (r :: rs) + SupabaseService.MAX_RETRIES).
      rewrite (bulk_upsert_unfold _ _ _ _ _ _ Htable) by discriminate. cbv zeta.
      destruct (batches_end remote onProgress frontendTable supabaseTable (length (r :: rs))
                  Hanswers (length (r :: rs) + SupabaseService.MAX_RETRIES) (r :: rs)
                  ((length (r :: rs) + (SupabaseService.BATCH_SIZE - 1)) / SupabaseService.BATCH_SIZE)
                  0 (SupabaseService.mkRun 0 [] [] 0)) as [st Hst]; [lia|].
      rewrite Hst. destruct (0 <? _)%nat; eauto.
    + exists 0. eexists. unfold SupabaseService.bulkUpsertSupabaseRecords.
      rewrite Htable. reflexivity.
  - exists 0. eexists. unfold SupabaseService.bulkUpsertSupabaseRecords.
    rewrite Htable. reflexivity.
Qed.

(* ===================================================================== *)
(** * Facts about the import code *)
(* ===================================================================== *)

(** Every branch of the normalization steps is an assignment to a
    property: split the conditionals and use the lemma on [set]. *)
Ltac split_branches :=
  repeat match goal with
         | |- context [if ?b then _ else _] => destruct b
         | |- context [match ?o with Some _ => _ | None => _ end] => destruct o
         end.

Ltac keys_kept := split_branches; repeat apply NoDup_keys_set; assumption.

Lemma strict_eq_true (a : value) (s : string) : strict_eq a (VStr s) = true -> a = VStr s.
Proof.
  destruct a; cbn; try discriminate. intros H. apply String.eqb_eq in H. now subst.
Qed.

Lemma strict_eq_string (s : string) : strict_eq (VStr s) (VStr s) = true.
Proof. cbn. apply String.eqb_refl. Qed.

Lemma truthy_has_key (o : object) (k : string) : truthy (get o k) = true -> In k (keys o).
Proof.
  intros H. destruct (in_dec string_dec k (keys o)) as [Hin | Hnot]; [assumption|].
  rewrite (get_absent o k Hnot) in H. discriminate.
Qed.

(** The id of a merged entity [{...existing, ...obj}] is the one of
    [obj]. *)
Lemma spread_id (existing obj : object) :
  NoDup (keys obj) -> truthy (get obj "id") = true ->
  get (spread existing obj) "id" = get obj "id".
Proof.
  intros Hnd Hid. apply get_spread; [assumption | now apply truthy_has_key].
Qed.

Lemma find_known (existing : list object) (id : value) (e : object) :
  find_obj (fun i => strict_eq (get i "id") id) existing = Some e -> known_id existing id.
Proof.
  intros H. apply find_some in H. destruct H as [Hin Heq]. now exists e.
Qed.

Lemma find_unknown (existing : list object) (id : value) :
  find_obj (fun i => strict_eq (get i "id") id) existing = None -> ~ known_id existing id.
Proof.
  intros H [e [Hin Heq]]. pose proof (find_none _ _ H e Hin) as Hno.
  cbv beta in Hno. congruence.
Qed.

Lemma reconciled_empty (existing : list object) : reconciled existing (mkChangeSet [] []).
Proof. split; intros x []. Qed.

Lemma reconciled_add (existing : list object) (cs : ChangeSet) (a : object) :
  reconciled existing cs -> ~ known_id existing (get a "id") ->
  reconciled existing (mkChangeSet (toAdd cs ++ [a]) (toUpdate cs)).
Proof.
  intros [Hadd Hupd] Ha. split; cbn [toAdd toUpdate]; [|assumption].
  intros x Hx. apply in_app_or in Hx. destruct Hx as [Hx | [<- | []]]; auto.
Qed.

Lemma reconciled_update (existing : list object) (cs : ChangeSet) (u : object) :
  reconciled existing cs -> known_id existing (get u "id") ->
  reconciled existing (mkChangeSet (toAdd cs) (toUpdate cs ++ [u])).
Proof.
  intros [Hadd Hupd] Hu. split; cbn [toAdd toUpdate]; [assumption|].
  intros x Hx. apply in_app_or in Hx. destruct Hx as [Hx | [<- | []]]; auto.
Qed.

Lemma reconciled_same (existing : list object) (cs : ChangeSet) :
  reconciled existing cs -> reconciled existing (mkChangeSet (toAdd cs) (toUpdate cs)).
Proof. now destruct cs. Qed.

(** A reconciled change-set has no id on both sides. *)
Lemma reconciled_disjoint (existing : list object) (cs : ChangeSet) :
  reconciled existing cs -> disjoint_ids cs.
Proof.
  intros [Hadd Hupd] a u Ha Hu Heq. apply (Hadd a Ha). rewrite Heq. now apply Hupd.
Qed.

Section AssetImportFacts.

Import AssetManagement.

Variable env : ambient.
Variable data : collections.
Variable tab : string.

Lemma common_fields_keys (header : string) (row : list value) (i : nat) (obj : object) :
  NoDup (keys obj) -> NoDup (keys (common_fields data tab header row i obj)).
Proof. intros H. unfold common_fields. keys_kept. Qed.

Lemma bom_fields_keys (header : string) (row : list value) (i : nat) (st : object * list string) :
  NoDup (keys (fst st)) -> NoDup (keys (fst (bom_fields data header row i st))).
Proof.
  destruct st as [obj failed]. cbn [fst]. intros H. unfold bom_fields.
  repeat match goal with
         | |- context [if ?b then _ else _] => destruct b; cbn [fst]
         end;
    repeat apply NoDup_keys_set; assumption.
Qed.

Lemma header_step_keys (row : list value) (st : object * list string) (hi : string * nat) :
  NoDup (keys (fst st)) -> NoDup (keys (fst (header_step data tab row st hi))).
Proof.
  intros H. unfold header_step. destruct (tab =? "bom").
  - apply bom_fields_keys. cbn [fst]. now apply common_fields_keys.
  - cbn [fst]. now apply common_fields_keys.
Qed.

Lemma header_steps_keys (row : list value) (l : list (string * nat)) (st : object * list string) :
  NoDup (keys (fst st)) ->
  NoDup (keys (fst (fold_left (header_step data tab row) l st))).
Proof.
  revert st. induction l as [|hi l IH]; intros st Hst; [assumption|].
  cbn [fold_left]. apply IH. now apply header_step_keys.
Qed.

Lemma normalize_keys (headers failed : list string) (rowIndex : nat) (row : list value) :
  NoDup (keys (fst (normalize data tab headers failed rowIndex row))).
Proof.
  unfold normalize. apply header_steps_keys.
  destruct (tab =? "bom"); cbn [fst keys map]; repeat constructor. intros [].
Qed.

Lemma assign_bom_id_keys (rowIndex : nat) (obj : object) :
  NoDup (keys obj) -> NoDup (keys (assign_bom_id env data tab rowIndex obj)).
Proof. intros H. unfold assign_bom_id. keys_kept. Qed.

Lemma assign_machine_id_keys (rowIndex : nat) (obj : object) :
  NoDup (keys obj) -> NoDup (keys (assign_machine_id env data tab rowIndex obj)).
Proof. intros H. unfold assign_machine_id. keys_kept. Qed.

Lemma identify_keys (rowIndex : nat) (obj : object) :
  NoDup (keys obj) -> NoDup (keys (identify env data tab rowIndex obj)).
Proof.
  intros H. unfold identify. now apply assign_machine_id_keys, assign_bom_id_keys.
Qed.

Lemma apply_defaults_keys (obj : object) :
  NoDup (keys obj) -> NoDup (keys (apply_defaults tab obj)).
Proof. intros H. unfold apply_defaults. keys_kept. Qed.

(** The defaults are assigned to fields other than the id. *)
Lemma apply_defaults_id (obj : object) : get (apply_defaults tab obj) "id" = get obj "id".
Proof.
  unfold apply_defaults. split_branches;
    repeat (rewrite get_set_other by discriminate); reflexivity.
Qed.

Lemma apply_defaults_itemId (obj : object) :
  get (apply_defaults tab obj) "itemId" = get obj "itemId".
Proof.
  unfold apply_defaults. split_branches;
    repeat (rewrite get_set_other by discriminate); reflexivity.
Qed.

(** What [classify] decides, read off the identified row. *)
Lemma classify_add (rowIndex : nat) (obj a : object) :
  classify env data tab rowIndex obj = Add a ->
  a = apply_defaults tab (identify env data tab rowIndex obj)
  /\ truthy (get a "id") = true
  /\ ~ known_id (target_list data tab) (get a "id").
Proof.
  unfold classify.
  destruct (truthy (get (identify env data tab rowIndex obj) "id")) eqn:Hid; [|discriminate].
  destruct ((tab =? "bom") && negb (truthy (get (apply_defaults tab (identify env data tab rowIndex obj)) "itemId")));
    [discriminate|].
  destruct (find_obj _ (target_list data tab)) as [existing|] eqn:Hfind; [discriminate|].
  intros H. inversion H; subst. split; [reflexivity|]. split.
  - now rewrite apply_defaults_id.
  - now apply find_unknown.
Qed.

Lemma classify_update (rowIndex : nat) (obj u : object) :
  NoDup (keys obj) ->
  classify env data tab rowIndex obj = Update u ->
  exists existing,
    In existing (target_list data tab)
    /\ u = spread existing (apply_defaults tab (identify env data tab rowIndex obj))
    /\ get u "id" = get (identify env data tab rowIndex obj) "id"
    /\ strict_eq (get existing "id") (get u "id") = true.
Proof.
  intros Hnd. unfold classify.
  destruct (truthy (get (identify env data tab rowIndex obj) "id")) eqn:Hid; [|discriminate].
  destruct ((tab =? "bom") && negb (truthy (get (apply_defaults tab (identify env data tab rowIndex obj)) "itemId")));
    [discriminate|].
  destruct (find_obj _ (target_list data tab)) as [existing|] eqn:Hfind; [|discriminate].
  intros H. inversion H; subst. exists existing.
  apply find_some in Hfind. destruct Hfind as [Hin Heq].
  assert (Hu : get (spread existing (apply_defaults tab (identify env data tab rowIndex obj))) "id"
               = get (identify env data tab rowIndex obj) "id").
  { rewrite spread_id.
    - apply apply_defaults_id.
    - now apply apply_defaults_keys, identify_keys.
    - now rewrite apply_defaults_id. }
  repeat split; [assumption | exact Hu |].
  rewrite Hu. now rewrite apply_defaults_id in Heq.
Qed.

(** One row keeps the change-set reconciled. *)
Lemma import_row_reconciled (headers : list string) (st : import_state) (ir : nat * list value) :
  reconciled (target_list data tab) (changes st) ->
  reconciled (target_list data tab) (changes (import_row env data tab headers st ir)).
Proof.
  intros Hrec. unfold import_row. destruct ir as [rowIndex row].
  pose proof (normalize_keys headers (failedItemMatches st) rowIndex row) as Hnd.
  destruct (normalize data tab headers (failedItemMatches st) rowIndex row) as [obj failed].
  cbn [fst] in Hnd.
  destruct (classify env data tab rowIndex obj) as [a|u| |] eqn:Hc; cbn [changes];
    try assumption.
  - apply reconciled_add; [assumption|]. now destruct (classify_add _ _ _ Hc) as [_ [_ H]].
  - apply reconciled_update; [assumption|].
    destruct (classify_update _ _ _ Hnd Hc) as [existing [Hin [_ [_ Heq]]]].
    now exists existing.
Qed.

Lemma import_rows_reconciled (headers : list string) (l : list (nat * list value))
    (st : import_state) :
  reconciled (target_list data tab) (changes st) ->
  reconciled (target_list data tab)
             (changes (fold_left (import_row env data tab headers) l st)).
Proof.
  revert st. induction l as [|ir l IH]; intros st H; [assumption|].
  cbn [fold_left]. apply IH. now apply import_row_reconciled.
Qed.

Lemma processImport_reconciled (rows : list (list value)) (st : import_state) :
  processImport env data tab rows = Some st ->
  reconciled (target_list data tab) (changes st).
Proof.
  unfold processImport. destruct (nth_error rows (headerRowIndex rows)); [|discriminate].
  intros H. inversion H; subst. apply import_rows_reconciled. cbn [changes].
  apply reconciled_empty.
Qed.

(** [processImport] ends on every grid with at least one row. *)
Lemma processImport_total (rows : list (list value)) :
  rows <> [] -> exists st, processImport env data tab rows = Some st.
Proof.
  intros Hne. unfold processImport.
  destruct (nth_error rows (headerRowIndex rows)) eqn:E; [eauto|].
  exfalso. apply nth_error_None in E.
  pose proof (detect_header_first header_keywords rows) as [H | [H _]].
  - unfold headerRowIndex in E. lia.
  - unfold headerRowIndex in E. rewrite H in E. destruct rows; [congruence | cbn in E; lia].
Qed.

End AssetImportFacts.

Section HistoryImportFacts.

Import HistoryTable.

Variable env : ambient.
Variable data : collections.

Lemma request_record_fields (rowIndex : nat) (obj : object) (id itemId qty : value)
    (record : object) :
  request_record env data rowIndex obj id itemId qty = Some record ->
  get record "id" = id
  /\ resolveItemId (items data) itemId = Some (get record "itemId")
  /\ resolveMachineId (machines data)
       (or_else (or_else (get obj "machineId") (get obj "machineName")) (VStr "Unknown"))
     = Some (get record "machineId")
  /\ get record "quantity" = qty.
Proof.
  unfold request_record.
  destruct (resolveId _ (locations data)) as [locationId|]; [|discriminate].
  destruct (resolveItemId (items data) itemId) as [resolved|]; [|discriminate].
  destruct (resolveMachineId (machines data) _) as [machineId|]; [|discriminate].
  intros H. inversion H; subst. repeat split; reflexivity.
Qed.

Lemma classify_request_add (rowIndex : nat) (obj r : object) :
  classify_request env data rowIndex obj = Some (Add r) ->
  ~ known_id (history data) (get r "id").
Proof.
  unfold classify_request.
  destruct (truthy (or_else (get obj "itemId") (VStr "")) && truthy (or_else (get obj "quantity") (VNum (Int 0))));
    [|discriminate].
  destruct (request_record _ _ _ _ _ _ _) as [record|] eqn:Hrecord; [|discriminate].
  destruct (negb _ || strict_eq _ (VStr "")); [discriminate|].
  destruct (strict_eq _ (VStr "Unknown")); [discriminate|].
  destruct (find_obj _ (history data)) eqn:Hfind; [discriminate|].
  intros H. inversion H; subst.
  destruct (request_record_fields _ _ _ _ _ _ Hrecord) as [-> _]. now apply find_unknown.
Qed.

Lemma classify_request_update (rowIndex : nat) (obj r : object) :
  classify_request env data rowIndex obj = Some (Update r) ->
  known_id (history data) (get r "id").
Proof.
  unfold classify_request.
  destruct (truthy (or_else (get obj "itemId") (VStr "")) && truthy (or_else (get obj "quantity") (VNum (Int 0))));
    [|discriminate].
  destruct (request_record _ _ _ _ _ _ _) as [record|] eqn:Hrecord; [|discriminate].
  destruct (negb _ || strict_eq _ (VStr "")); [discriminate|].
  destruct (strict_eq _ (VStr "Unknown")); [discriminate|].
  destruct (find_obj _ (history data)) eqn:Hfind; [|discriminate].
  intros H. inversion H; subst.
  destruct (request_record_fields _ _ _ _ _ _ Hrecord) as [-> _]. now apply find_known in Hfind.
Qed.

Lemma push_reconciled (cs : ChangeSet) (rowIndex : nat) (obj : object) (d : decision) :
  classify_request env data rowIndex obj = Some d ->
  reconciled (history data) cs ->
  reconciled (history data) (push cs d).
Proof.
  intros Hc Hrec. destruct d; cbn [push]; try assumption.
  - apply reconciled_add; [assumption | now apply (classify_request_add rowIndex obj)].
  - apply reconciled_update; [assumption | now apply (classify_request_update rowIndex obj)].
Qed.

Lemma request_rows_reconciled (l : list (nat * object)) (start : option ChangeSet) (cs : ChangeSet) :
  (forall cs0, start = Some cs0 -> reconciled (history data) cs0) ->
  fold_left (request_row env data) l start = Some cs ->
  reconciled (history data) cs.
Proof.
  revert start. induction l as [|ir l IH]; intros start Hstart H; [now apply Hstart|].
  cbn [fold_left] in H. refine (IH _ _ H).
  intros cs0. unfold request_row. destruct start as [cs1|]; [|discriminate].
  destruct (normalize_request env (snd ir)) as [obj|]; [|discriminate].
  destruct (classify_request env data (fst ir) obj) as [d|] eqn:Hc; [|discriminate].
  intros E. inversion E; subst. apply (push_reconciled _ _ _ _ Hc). now apply Hstart.
Qed.

Lemma stock_field_keys (obj : object) (kv : string * value) :
  NoDup (keys obj) -> NoDup (keys (stock_field obj kv)).
Proof. intros H. unfold stock_field. keys_kept. Qed.

Lemma normalize_stock_keys (row : object) : NoDup (keys (normalize_stock row)).
Proof.
  unfold normalize_stock.
  assert (H : NoDup (keys ([] : object))) by constructor.
  revert H. generalize ([] : object).
  induction row as [|kv row IH]; intros obj H; [assumption|].
  cbn [fold_left]. apply IH. now apply stock_field_keys.
Qed.

Lemma stock_row_reconciled (cs : ChangeSet) (row : object) :
  reconciled (items data) cs -> reconciled (items data) (stock_row data cs row).
Proof.
  intros Hrec. unfold stock_row.
  destruct (truthy (get (normalize_stock row) "id")) eqn:Hid; [|assumption].
  destruct (find_obj _ (items data)) as [existing|] eqn:Hfind.
  - apply reconciled_update; [assumption|].
    rewrite spread_id by (assumption || apply normalize_stock_keys).
    now apply find_known in Hfind.
  - apply reconciled_add; [assumption|]. now apply find_unknown.
Qed.

Lemma stock_rows_reconciled (l : list object) (cs : ChangeSet) :
  reconciled (items data) cs ->
  reconciled (items data) (fold_left (stock_row data) l cs).
Proof.
  revert cs. induction l as [|row l IH]; intros cs H; [assumption|].
  cbn [fold_left]. apply IH. now apply stock_row_reconciled.
Qed.

Lemma handleFileChange_requests (rawRows : list (list value)) (table : string) (cs : ChangeSet) :
  handleFileChange env data requests rawRows = Imported table cs ->
  table = "history" /\ reconciled (history data) cs.
Proof.
  unfold handleFileChange. destruct (data_rows rawRows) as [|d ds]; [discriminate|].
  destruct (fold_left _ _ _) as [cs'|] eqn:Hfold; [|discriminate].
  intros H. inversion H; subst. split; [reflexivity|].
  refine (request_rows_reconciled _ _ _ _ Hfold).
  intros cs0 E. inversion E; subst. apply reconciled_empty.
Qed.

Lemma handleFileChange_stock (rawRows : list (list value)) (table : string) (cs : ChangeSet) :
  handleFileChange env data stock rawRows = Imported table cs ->
  table = "items" /\ reconciled (items data) cs.
Proof.
  unfold handleFileChange. destruct (data_rows rawRows) as [|d ds]; [discriminate|].
  intros H. inversion H; subst. split; [reflexivity|].
  apply (stock_rows_reconciled (d :: ds)), reconciled_empty.
Qed.

End HistoryImportFacts.

Lemma present_key (o : object) (k : string) : get o k <> VUndefined -> In k (keys o).
Proof.
  intros H. destruct (in_dec string_dec k (keys o)) as [Hin | Hnot]; [assumption|].
  now rewrite (get_absent o k Hnot) in H.
Qed.

Section BomFacts.

Import AssetManagement.

Variable env : ambient.
Variable data : collections.

Lemma assign_machine_id_bom (rowIndex : nat) (obj : object) :
  assign_machine_id env data "bom" rowIndex obj = obj.
Proof. reflexivity. Qed.

(** The id of a BOM row without explicit id, for a row that names a
    machine and a resolved item. *)
Lemma identify_bom (rowIndex : nat) (obj : object) :
  truthy (get obj "id") = false ->
  truthy (get obj "machineCategory") = true ->
  truthy (get obj "itemId") = true ->
  get (identify env data "bom" rowIndex obj) "id" =
  match find_obj (same_bom_key obj) (bomRecords data) with
  | Some existingBOM => get existingBOM "id"
  | None => VStr (synthesize_bom_id env rowIndex)
  end.
Proof.
  intros Hid Hmachine Hitem. unfold identify. rewrite assign_machine_id_bom.
  unfold assign_bom_id. change ("bom" =? "bom") with true.
  rewrite Hid, Hmachine, Hitem. cbn [negb andb orb].
  destruct (find_obj (same_bom_key obj) (bomRecords data)) as [b|];
    match goal with
    | |- context [if ?c then _ else _] => destruct c
    end;
    repeat (rewrite get_set_other by discriminate); apply get_set_same.
Qed.

(** A row with an explicit id keeps it. *)
Lemma identify_explicit (rowIndex : nat) (obj : object) :
  truthy (get obj "id") = true -> identify env data "bom" rowIndex obj = obj.
Proof.
  intros Hid. unfold identify. rewrite assign_machine_id_bom.
  unfold assign_bom_id. now rewrite Hid, andb_false_r.
Qed.

Lemma identify_bom_itemId (rowIndex : nat) (obj : object) :
  get (identify env data "bom" rowIndex obj) "itemId" = get obj "itemId".
Proof.
  unfold identify. rewrite assign_machine_id_bom. unfold assign_bom_id.
  split_branches; repeat (rewrite get_set_other by discriminate); reflexivity.
Qed.

(** A BOM row with an id and an item is added or merged, according to
    whether its id is known. *)
Lemma classify_bom (rowIndex : nat) (obj : object) :
  truthy (get (identify env data "bom" rowIndex obj) "id") = true ->
  truthy (get obj "itemId") = true ->
  classify env data "bom" rowIndex obj =
  match find_obj (fun i => strict_eq (get i "id") (get (identify env data "bom" rowIndex obj) "id"))
                 (bomRecords data) with
  | Some existing => Update (spread existing (apply_defaults "bom" (identify env data "bom" rowIndex obj)))
  | None => Add (apply_defaults "bom" (identify env data "bom" rowIndex obj))
  end.
Proof.
  intros Hid Hitem. unfold classify. rewrite Hid.
  rewrite apply_defaults_itemId, identify_bom_itemId, Hitem, apply_defaults_id.
  change ("bom" =? "bom") with true. cbn [negb andb].
  reflexivity.
Qed.

(** A BOM row without a resolved item reaches neither list. *)
Lemma classify_bom_no_item (rowIndex : nat) (obj : object) :
  truthy (get obj "itemId") = false ->
  classify env data "bom" rowIndex obj = Dropped
  \/ classify env data "bom" rowIndex obj = Skipped.
Proof.
  intros Hitem. unfold classify.
  destruct (truthy (get (identify env data "bom" rowIndex obj) "id")); [|now right].
  rewrite apply_defaults_itemId, identify_bom_itemId, Hitem. now left.
Qed.

Lemma find_first_known (existing : list object) (b : object) (s : string) :
  In b existing -> get b "id" = VStr s ->
  exists e, find_obj (fun i => strict_eq (get i "id") (VStr s)) existing = Some e
            /\ In e existing.
Proof.
  intros Hin Hb.
  destruct (find_obj (fun i => strict_eq (get i "id") (VStr s)) existing) as [e|] eqn:Hfind.
  - exists e. split; [reflexivity|]. now apply find_some in Hfind.
  - pose proof (find_none _ _ Hfind b Hin) as Hno. cbv beta in Hno.
    rewrite Hb, strict_eq_string in Hno. discriminate.
Qed.

(** The natural-key test of the code accepts a record that holds the
    triple of the row, and what it accepts has the key of the row. *)
Lemma same_bom_key_stored (obj b : object) (m x i : string) :
  line_with_key obj m x i -> stored_with_key b m x i -> same_bom_key obj b = true.
Proof.
  intros [Hm [Hx Hi]] [Hbm [Hbx Hbi]]. unfold same_bom_key.
  rewrite Hm, Hx, Hi, Hbm, Hbx, Hbi, !strict_eq_string. reflexivity.
Qed.

Lemma same_bom_key_line (obj b : object) (m x i : string) :
  line_with_key obj m x i -> same_bom_key obj b = true -> line_with_key b m x i.
Proof.
  intros [Hm [Hx Hi]]. unfold same_bom_key. rewrite Hm, Hx, Hi.
  intros H. apply andb_prop in H. destruct H as [H Hbi]. apply andb_prop in H.
  destruct H as [Hbm Hbx]. apply strict_eq_true in Hbm, Hbi.
  repeat split; try assumption.
  apply orb_prop in Hbx. destruct Hbx as [Hbx | Hbx].
  - apply strict_eq_true in Hbx. rewrite Hbx. unfold or_else. cbn [truthy].
    destruct (negb (x =? "")) eqn:E; [reflexivity|].
    apply negb_false_iff, String.eqb_eq in E. now subst.
  - destruct (get obj "modelNo") as [| |c|n|y|l] eqn:Eo;
      destruct (get b "modelNo") as [| |c'|n'|y'|l'] eqn:Eb; cbn in Hbx; try discriminate;
      unfold or_else in *; cbn [truthy] in *.
    + exact Hx.
    + exact Hx.
    + apply Bool.eqb_prop in Hbx. subst c'. destruct c; [discriminate Hx | exact Hx].
    + destruct n as [s1| s1| |s1 m1 e1]; destruct n' as [s2|s2| |s2 m2 e2];
        cbn in Hbx; try discriminate Hx; try exact Hx; try discriminate Hbx;
        destruct s2; discriminate Hbx.
    + apply String.eqb_eq in Hbx. subst y'. exact Hx.
Qed.

Lemma find_accepts {A : Type} (p : A -> bool) (l : list A) (b : A) :
  In b l -> p b = true -> exists b', List.find p l = Some b'.
Proof.
  intros Hin Hp. destruct (List.find p l) as [b'|] eqn:Hfind; [eauto|].
  pose proof (find_none _ _ Hfind b Hin). congruence.
Qed.

(** The fields of the natural key in the entity that the import hands
    over for a BOM row. *)
Lemma identify_bom_machine (rowIndex : nat) (obj : object) :
  get (identify env data "bom" rowIndex obj) "machineCategory" = get obj "machineCategory".
Proof.
  unfold identify. rewrite assign_machine_id_bom. unfold assign_bom_id.
  split_branches; repeat (rewrite get_set_other by discriminate); reflexivity.
Qed.

Lemma identify_bom_model (rowIndex : nat) (obj : object) :
  or_else (get (identify env data "bom" rowIndex obj) "modelNo") (VStr "")
  = or_else (get obj "modelNo") (VStr "").
Proof.
  unfold identify. rewrite assign_machine_id_bom. unfold assign_bom_id.
  destruct (("bom" =? "bom") && negb (truthy (get obj "id"))); [|reflexivity].
  destruct (truthy (get obj "machineCategory") && _); [|reflexivity].
  destruct (truthy (get obj "itemId")).
  - destruct (find_obj _ _);
      rewrite (get_set_other obj "id" "modelNo") by discriminate;
      destruct (strict_eq (get obj "modelNo") VUndefined) eqn:E;
      rewrite ?get_set_same, ?get_set_other by discriminate; try reflexivity;
      destruct (get obj "modelNo"); try discriminate; reflexivity.
  - destruct (strict_eq (get obj "modelNo") VUndefined) eqn:E;
      rewrite ?get_set_same; try reflexivity;
      destruct (get obj "modelNo"); try discriminate; reflexivity.
Qed.

Lemma apply_defaults_bom_key (obj : object) (m x i : string) :
  line_with_key obj m x i -> m <> EmptyString ->
  stored_with_key (apply_defaults "bom" obj) m x i.
Proof.
  intros [Hm [Hx Hi]] Hne. unfold apply_defaults. change ("bom" =? "machines") with false.
  change ("bom" =? "breakdowns") with false. change ("bom" =? "bom") with true. cbv iota.
  repeat split.
  - rewrite get_set_other by discriminate. rewrite get_set_same, Hm.
    unfold or_else. cbn [truthy]. apply String.eqb_neq in Hne. now rewrite Hne.
  - rewrite get_set_same. rewrite get_set_other by discriminate. exact Hx.
  - rewrite !get_set_other by discriminate. exact Hi.
Qed.

Lemma identify_bom_line (rowIndex : nat) (obj : object) (m x i : string) :
  line_with_key obj m x i -> line_with_key (identify env data "bom" rowIndex obj) m x i.
Proof.
  intros [Hm [Hx Hi]]. repeat split.
  - now rewrite identify_bom_machine.
  - now rewrite identify_bom_model.
  - now rewrite identify_bom_itemId.
Qed.

(** A BOM row without explicit id that names a machine and a resolved
    item, in a collection where its natural key is held under the id
    [s] and under no other, goes to [toUpdate] under that id. *)
Lemma classify_bom_by_key (rowIndex : nat) (obj : object) (m x i s : string) :
  NoDup (keys obj) ->
  truthy (get obj "id") = false ->
  line_with_key obj m x i -> m <> EmptyString -> i <> EmptyString -> s <> EmptyString ->
  (exists b, In b (bomRecords data) /\ stored_with_key b m x i) ->
  (forall b, In b (bomRecords data) -> line_with_key b m x i -> get b "id" = VStr s) ->
  exists u, classify env data "bom" rowIndex obj = Update u
            /\ get u "id" = VStr s
            /\ stored_with_key u m x i.
Proof.
  intros Hnd Hid Hline Hm Hi Hs [b [Hin Hb]] Honly.
  pose proof Hline as [Hom [Hox Hoi]].
  assert (Hmachine : truthy (get obj "machineCategory") = true).
  { rewrite Hom. cbn. apply String.eqb_neq in Hm. now rewrite Hm. }
  assert (Hitem : truthy (get obj "itemId") = true).
  { rewrite Hoi. cbn. apply String.eqb_neq in Hi. now rewrite Hi. }
  destruct (find_accepts (same_bom_key obj) (bomRecords data) b Hin
              (same_bom_key_stored obj b m x i Hline Hb)) as [b' Hfind].
  pose proof (find_some _ _ Hfind) as [Hin' Hkey'].
  pose proof (Honly b' Hin' (same_bom_key_line obj b' m x i Hline Hkey')) as Hid'.
  pose proof (identify_bom rowIndex obj Hid Hmachine Hitem) as Hident.
  unfold find_obj in Hident. rewrite Hfind, Hid' in Hident.
  assert (Htruthy : truthy (get (identify env data "bom" rowIndex obj) "id") = true).
  { rewrite Hident. cbn. apply String.eqb_neq in Hs. now rewrite Hs. }
  rewrite (classify_bom rowIndex obj Htruthy Hitem), Hident.
  destruct (find_first_known (bomRecords data) b' s Hin' Hid') as [e [He _]].
  rewrite He. eexists. split; [reflexivity|].
  assert (Hkeys : NoDup (keys (apply_defaults "bom" (identify env data "bom" rowIndex obj))))
    by now apply apply_defaults_keys, identify_keys.
  pose proof (apply_defaults_bom_key _ m x i (identify_bom_line rowIndex obj m x i Hline) Hm)
    as [Hum [Hux Hui]].
  split; [|repeat split].
  - rewrite spread_id; [now rewrite apply_defaults_id | assumption | now rewrite apply_defaults_id].
  - rewrite get_spread; [assumption | assumption |]. apply present_key. rewrite Hum. discriminate.
  - rewrite get_spread; [assumption | assumption |]. apply present_key. rewrite Hux. discriminate.
  - rewrite get_spread; [assumption | assumption |]. apply present_key. rewrite Hui. discriminate.
Qed.

End BomFacts.

(** Persisting one added entity under an id that the collection does
    not hold appends it; persisting one update of an entity that the
    collection holds keeps the number of entities. *)
Lemma persist_add (collection : list object) (a : object) :
  ~ known_id collection (get a "id") ->
  persist collection (mkChangeSet [a] []) = collection ++ [a].
Proof.
  intros Hunknown. unfold persist, upsert_record. cbn [toAdd toUpdate app fold_left].
  destruct (existsb _ collection) eqn:E; [|reflexivity].
  exfalso. apply Hunknown. apply existsb_exists in E. destruct E as [e [Hin He]]. now exists e.
Qed.

Lemma persist_update_length (collection : list object) (u : object) :
  length (persist collection (mkChangeSet [] [u])) = length collection
  \/ length (persist collection (mkChangeSet [] [u])) = S (length collection).
Proof.
  unfold persist, upsert_record. cbn [toAdd toUpdate app fold_left].
  destruct (existsb _ collection).
  - left. apply length_map.
  - right. rewrite length_app. cbn. lia.
Qed.

Lemma persist_known_length (collection : list object) (u : object) :
  known_id collection (get u "id") ->
  length (persist collection (mkChangeSet [] [u])) = length collection.
Proof.
  intros [e [Hin He]]. unfold persist, upsert_record. cbn [toAdd toUpdate app fold_left].
  destruct (existsb _ collection) eqn:E; [apply length_map|].
  assert (Hex : existsb (fun e0 => strict_eq (get e0 "id") (get u "id")) collection = true)
    by (apply existsb_exists; now exists e).
  congruence.
Qed.


Section ReferenceFacts.

Lemma find_none_existsb {A : Type} (p q : A -> bool) (l : list A) :
  existsb q l = false -> (forall x, p x = true -> q x = true) -> List.find p l = None.
Proof.
  intros Hq Himp. induction l as [|x l IH]; [reflexivity|].
  cbn [existsb] in Hq. apply orb_false_iff in Hq. destruct Hq as [Hx Hl].
  cbn [List.find]. destruct (p x) eqn:Hp.
  - apply Himp in Hp. congruence.
  - now apply IH.
Qed.

(** On entities whose tested field is a string the search that may
    throw is the plain search. *)
Lemma find_throwing_plain (p : object -> option bool) (q : object -> bool) (l : list object) :
  Forall (fun x => p x = Some (q x)) l -> find_throwing p l = Some (List.find q l).
Proof.
  induction 1 as [|x l Hx _ IH]; [reflexivity|].
  cbn [find_throwing List.find]. rewrite Hx. destruct (q x); [reflexivity | exact IH].
Qed.

Lemma or_empty_is_string (v : value) :
  string_or_falsy v = true -> or_else v (VStr "") = VStr (text (or_else v (VStr ""))).
Proof.
  unfold string_or_falsy, or_else. destruct v as [| |b|n|s|l]; cbn; try reflexivity.
  - destruct b; [discriminate | reflexivity].
  - destruct n; cbn; intros H; try discriminate; reflexivity.
  - destruct (negb (s =? "")); reflexivity.
  - discriminate.
Qed.

Lemma lower_or_empty (v : value) :
  string_or_falsy v = true ->
  toLowerCase_of (or_else v (VStr "")) = Some (toLowerCase (text (or_else v (VStr "")))).
Proof. intros H. now rewrite (or_empty_is_string v H) at 1. Qed.

Lemma lower_name (v : value) :
  is_string v = true -> toLowerCase_of v = Some (toLowerCase (text v)).
Proof. destruct v; try discriminate. reflexivity. Qed.

(** With named master data no resolver throws. *)
Lemma resolveMachineId_returns (machines : list object) (val : value) :
  Forall (fun m => string_or_falsy (get m "category") = true) machines ->
  exists id, HistoryTable.resolveMachineId machines val = Some id.
Proof.
  intros Hnamed. unfold HistoryTable.resolveMachineId.
  destruct (negb (truthy val)); [eauto|].
  destruct (find_obj _ machines); [eauto|].
  rewrite (find_throwing_plain _
             (fun m => toLowerCase (text (or_else (get m "category") (VStr "")))
                       =? toLowerCase (trim (ToString val)))).
  - destruct (List.find _ machines); eauto.
  - eapply Forall_impl; [|exact Hnamed]. intros m Hm. cbv beta. now rewrite lower_or_empty.
Qed.

Lemma resolveItemId_returns (items : list object) (val : value) :
  Forall (fun i => string_or_falsy (get i "name") = true
                   /\ string_or_falsy (get i "fullName") = true) items ->
  exists id, HistoryTable.resolveItemId items val = Some id.
Proof.
  intros Hnamed. unfold HistoryTable.resolveItemId.
  destruct (negb (truthy val)); [eauto|].
  destruct (find_obj _ items); [eauto|].
  rewrite (find_throwing_plain _
             (fun i => (toLowerCase (text (or_else (get i "name") (VStr "")))
                        =? toLowerCase (trim (ToString val)))
                       || (toLowerCase (text (or_else (get i "fullName") (VStr "")))
                           =? toLowerCase (trim (ToString val))))).
  - destruct (List.find _ items); eauto.
  - eapply Forall_impl; [|exact Hnamed]. intros i [Hname Hfull]. cbv beta.
    rewrite !lower_or_empty by assumption. now destruct (_ =? _).
Qed.

Lemma resolveId_returns (list : list object) (val : value) :
  Forall (fun l => is_string (get l "name") = true) list ->
  exists id, HistoryTable.resolveId val list = Some id.
Proof.
  intros Hnamed. unfold HistoryTable.resolveId.
  destruct (negb (truthy val)); [eauto|].
  destruct (find_obj _ list); [eauto|].
  rewrite (find_throwing_plain _
             (fun l => toLowerCase (text (get l "name")) =? toLowerCase (trim (ToString val)))).
  - destruct (List.find _ list); eauto.
  - eapply Forall_impl; [|exact Hnamed]. intros l Hl. cbv beta. now rewrite lower_name.
Qed.

(** A machine reference that no machine answers to resolves to the
    sentinel. *)
Lemma resolveMachineId_unresolved (machines : list object) (val : value) :
  Forall (fun m => string_or_falsy (get m "category") = true) machines ->
  machine_resolves machines (trim (ToString val)) = false ->
  HistoryTable.resolveMachineId machines val = Some (VStr "Unknown").
Proof.
  intros Hnamed H. unfold HistoryTable.resolveMachineId, find_obj.
  destruct (negb (truthy val)); [reflexivity|].
  rewrite (find_none_existsb _ _ machines H) by (intros x Hx; now rewrite Hx).
  rewrite (find_throwing_plain _
             (fun m => toLowerCase (text (or_else (get m "category") (VStr "")))
                       =? toLowerCase (trim (ToString val)))).
  - rewrite (find_none_existsb _ _ machines H) by (intros x Hx; rewrite Hx; apply orb_true_r).
    reflexivity.
  - eapply Forall_impl; [|exact Hnamed]. intros m Hm. cbv beta. now rewrite lower_or_empty.
Qed.

(** An item reference that no item answers to resolves to ['']. *)
Lemma resolveItemId_unresolved (items : list object) (val : value) :
  Forall (fun i => string_or_falsy (get i "name") = true
                   /\ string_or_falsy (get i "fullName") = true) items ->
  item_resolves items (trim (ToString val)) = false ->
  HistoryTable.resolveItemId items val = Some (VStr "").
Proof.
  intros Hnamed H. unfold HistoryTable.resolveItemId, find_obj.
  destruct (negb (truthy val)); [reflexivity|].
  rewrite (find_none_existsb _ _ items H) by (intros x Hx; now rewrite Hx).
  rewrite (find_throwing_plain _
             (fun i => (toLowerCase (text (or_else (get i "name") (VStr "")))
                        =? toLowerCase (trim (ToString val)))
                       || (toLowerCase (text (or_else (get i "fullName") (VStr "")))
                           =? toLowerCase (trim (ToString val))))).
  - rewrite (find_none_existsb _ _ items H)
      by (intros x Hx; rewrite <- orb_assoc, Hx; apply orb_true_r).
    reflexivity.
  - eapply Forall_impl; [|exact Hnamed]. intros i [Hname Hfull]. cbv beta.
    rewrite !lower_or_empty by assumption. now destruct (_ =? _).
Qed.

Variable env : ambient.
Variable data : collections.

(** With named master data the record of a request is built. *)
Lemma request_record_returns (rowIndex : nat) (obj : object) (id itemId qty : value) :
  named_master_data data ->
  exists record, HistoryTable.request_record env data rowIndex obj id itemId qty = Some record.
Proof.
  intros [Hlocations [Hmachines Hitems]]. unfold HistoryTable.request_record.
  destruct (resolveId_returns (locations data)
              (or_else (get obj "locationId") (VStr "Unknown")) Hlocations) as [l ->].
  destruct (resolveItemId_returns (items data) itemId Hitems) as [i ->].
  destruct (resolveMachineId_returns (machines data)
              (or_else (or_else (get obj "machineId") (get obj "machineName")) (VStr "Unknown"))
              Hmachines) as [m ->].
  eauto.
Qed.

Lemma classify_request_returns (rowIndex : nat) (obj : object) :
  named_master_data data ->
  exists d, HistoryTable.classify_request env data rowIndex obj = Some d.
Proof.
  intros Hnamed. unfold HistoryTable.classify_request.
  destruct (truthy _ && truthy _); [|eauto].
  destruct (request_record_returns rowIndex obj
              (or_else (get obj "id") (VStr (HistoryTable.synthesize_request_id env rowIndex)))
              (or_else (get obj "itemId") (VStr ""))
              (or_else (get obj "quantity") (VNum (Int 0))) Hnamed) as [record ->].
  destruct (negb _ || strict_eq _ (VStr "")); [eauto|].
  destruct (strict_eq _ (VStr "Unknown")); [eauto|].
  destruct (find_obj _ (history data)); eauto.
Qed.

Lemma classify_request_unknown_machine (rowIndex : nat) (obj : object) (d : HistoryTable.decision) :
  HistoryTable.resolveMachineId (machines data)
    (or_else (or_else (get obj "machineId") (get obj "machineName")) (VStr "Unknown"))
  = Some (VStr "Unknown") ->
  HistoryTable.classify_request env data rowIndex obj = Some d ->
  request_retained d = false.
Proof.
  intros H. unfold HistoryTable.classify_request.
  destruct (truthy _ && truthy _); [|intros E; inversion E; reflexivity].
  destruct (HistoryTable.request_record _ _ _ _ _ _ _) as [record|] eqn:Hrecord; [|discriminate].
  destruct (request_record_fields _ _ _ _ _ _ _ _ Hrecord) as [_ [_ [Hmachine _]]].
  rewrite H in Hmachine. injection Hmachine as Hm.
  destruct (negb _ || strict_eq _ (VStr "")); [intros E; inversion E; reflexivity|].
  rewrite <- Hm. intros E; inversion E; reflexivity.
Qed.

Lemma classify_request_unknown_item (rowIndex : nat) (obj : object) (d : HistoryTable.decision) :
  HistoryTable.resolveItemId (items data) (or_else (get obj "itemId") (VStr "")) = Some (VStr "") ->
  HistoryTable.classify_request env data rowIndex obj = Some d ->
  request_retained d = false.
Proof.
  intros H. unfold HistoryTable.classify_request.
  destruct (truthy _ && truthy _); [|intros E; inversion E; reflexivity].
  destruct (HistoryTable.request_record _ _ _ _ _ _ _) as [record|] eqn:Hrecord; [|discriminate].
  destruct (request_record_fields _ _ _ _ _ _ _ _ Hrecord) as [_ [Hitem _]].
  rewrite H in Hitem. injection Hitem as Hi. rewrite <- Hi.
  intros E; inversion E; reflexivity.
Qed.

(** With named master data, the requests import fails only on a row
    that does not normalize (an invalid date). *)
Lemma request_rows_total (l : list (nat * object)) (start : option ChangeSet) :
  named_master_data data ->
  (forall ir, In ir l -> HistoryTable.normalize_request env (snd ir) <> None) ->
  start <> None -> fold_left (HistoryTable.request_row env data) l start <> None.
Proof.
  intros Hnamed. revert start. induction l as [|ir l IH]; intros start Hrows Hstart; [assumption|].
  cbn [fold_left]. apply IH; [intros x Hx; apply Hrows; now right|].
  unfold HistoryTable.request_row. destruct start as [cs|]; [|congruence].
  destruct (HistoryTable.normalize_request env (snd ir)) as [obj|] eqn:Hn;
    [|now apply (Hrows ir (or_introl eq_refl)) in Hn].
  destruct (classify_request_returns (fst ir) obj Hnamed) as [d ->]. discriminate.
Qed.

Lemma handleFileChange_no_failure (activeTab : HistoryTable.TabType) (rawRows : list (list value)) :
  named_master_data data ->
  (forall row, In row (HistoryTable.data_rows rawRows) ->
               HistoryTable.normalize_request env row <> None) ->
  HistoryTable.handleFileChange env data activeTab rawRows <> HistoryTable.Failure.
Proof.
  intros Hnamed Hrows. unfold HistoryTable.handleFileChange.
  destruct (HistoryTable.data_rows rawRows) as [|d ds]; [discriminate|].
  destruct activeTab; try discriminate.
  pose proof (request_rows_total (combine (seq 0 (length (d :: ds))) (d :: ds))
                (Some (mkChangeSet [] [])) Hnamed) as Hfold.
  destruct (fold_left _ _ _); [discriminate|].
  exfalso. apply Hfold; [|discriminate| reflexivity].
  intros [n row] Hin. apply in_combine_r in Hin. now apply Hrows.
Qed.

End ReferenceFacts.

Section QuantityFacts.

Lemma cell_put_same (i : nat) (v : value) (row : list value) : cell (put_cell i v row) i = v.
Proof.
  unfold cell. revert row. induction i as [|i IH]; intros [|x r]; cbn [put_cell nth];
    try reflexivity; apply IH.
Qed.

Lemma cell_put_other (i j : nat) (v : value) (row : list value) :
  i <> j -> cell (put_cell i v row) j = cell row j.
Proof.
  unfold cell. revert j row. induction i as [|i IH]; intros [|j] [|x r] Hne;
    cbn [put_cell nth]; try reflexivity; try congruence.
  - now destruct j.
  - rewrite IH by congruence. now destruct j.
  - apply IH. congruence.
Qed.

Lemma fold_left_ext_in {A B : Type} (f g : A -> B -> A) (l : list B) (a : A) :
  (forall x, In x l -> forall s, f s x = g s x) -> fold_left f l a = fold_left g l a.
Proof.
  revert a. induction l as [|x l IH]; intros a H; [reflexivity|].
  cbn [fold_left]. rewrite (H x (or_introl eq_refl)). apply IH.
  intros y Hy. apply H. now right.
Qed.

Lemma in_combine_seq {A : Type} (l : list A) (s j : nat) (h : A) :
  In (h, j) (combine l (seq s (length l))) -> s <= j /\ nth_error l (j - s) = Some h.
Proof.
  revert s. induction l as [|x l IH]; intros s Hin; [contradiction|].
  cbn [length seq combine In] in Hin. destruct Hin as [E | Hin].
  - inversion E; subst. rewrite Nat.sub_diag. split; [lia | reflexivity].
  - destruct (IH (S s) Hin) as [Hle Hnth]. split; [lia|].
    replace (j - s) with (S (j - S s)) by lia. exact Hnth.
Qed.

Variable data : collections.

(** The callback of [headers.forEach] reads the row at its own column
    only. *)
Lemma header_step_cell (tab : string) (row row' : list value) (st : object * list string)
    (h : string) (j : nat) :
  cell row j = cell row' j ->
  AssetManagement.header_step data tab row st (h, j)
  = AssetManagement.header_step data tab row' st (h, j).
Proof.
  intros H. unfold AssetManagement.header_step, AssetManagement.common_fields,
    AssetManagement.bom_fields, AssetManagement.trimmed_cell. cbn [fst snd].
  now rewrite H.
Qed.

(** On a quantity column of a BOM sheet the callback stores
    [Number(row[i]) || 0] and nothing else. *)
Lemma header_step_quantity (row : list value) (st : object * list string) (h : string) (i : nat) :
  quantity_header (strip_separators h) = true ->
  AssetManagement.header_step data "bom" row st (h, i)
  = (set (fst st) "quantity" (or_else (VNum (ToNumber (cell row i))) (VNum (Int 0))), snd st).
Proof.
  intros Hq. unfold quantity_header in Hq. apply mem_string_In in Hq.
  destruct st as [obj failed].
  unfold AssetManagement.header_step, AssetManagement.common_fields, AssetManagement.bom_fields.
  cbn [fst snd].
  destruct Hq as [<- | [<- | [<- | []]]]; reflexivity.
Qed.

Lemma normalize_quantity_as_zero (headers failed : list string) (rowIndex : nat)
    (row : list value) (i : nat) (h : string) :
  nth_error headers i = Some h ->
  quantity_header (strip_separators h) = true ->
  ToNumber (cell row i) = NaN ->
  AssetManagement.normalize data "bom" headers failed rowIndex row
  = AssetManagement.normalize data "bom" headers failed rowIndex (put_cell i (VNum (Int 0)) row).
Proof.
  intros Hnth Hq Hnan. unfold AssetManagement.normalize.
  apply fold_left_ext_in. intros [h' j] Hin st.
  apply in_combine_seq in Hin. destruct Hin as [_ Hj]. rewrite Nat.sub_0_r in Hj.
  destruct (Nat.eq_dec i j) as [<- | Hne].
  - assert (h' = h) by congruence. subst h'.
    rewrite !header_step_quantity by assumption.
    now rewrite cell_put_same, Hnan.
  - apply header_step_cell. symmetry. now apply cell_put_other.
Qed.

Variable env : ambient.

(** On a quantity column the issue-request import stores
    [Number(val)]. *)
Lemma request_field_quantity (obj : object) (k : string) (val : value) :
  quantity_header (strip_separators (toLowerCase k)) = true ->
  HistoryTable.request_field env (Some obj) (k, val)
  = Some (set obj "quantity" (VNum (ToNumber val))).
Proof.
  intros Hq. unfold quantity_header in Hq. apply mem_string_In in Hq.
  unfold HistoryTable.request_field. cbn [fst snd].
  destruct Hq as [<- | [<- | [<- | []]]]; reflexivity.
Qed.

(** A request without a number for quantity does not pass the guard
    [if (itemId && qty)]. *)
Lemma classify_request_no_quantity (rowIndex : nat) (obj : object) :
  get obj "quantity" = VNum NaN ->
  HistoryTable.classify_request env data rowIndex obj = Some HistoryTable.Ignored.
Proof.
  intros H. unfold HistoryTable.classify_request. rewrite H.
  unfold NaN. cbn [or_else truthy]. rewrite (andb_comm _ (truthy (VNum (Int 0)))).
  reflexivity.
Qed.

(** The stock import merges the normalized row into an existing item
    as it is, failed parse included. *)
Lemma stock_row_update (cs : ChangeSet) (row : object) :
  truthy (get (HistoryTable.normalize_stock row) "id") = true ->
  known_id (items data) (get (HistoryTable.normalize_stock row) "id") ->
  exists existing,
    In existing (items data)
    /\ HistoryTable.stock_row data cs row
       = mkChangeSet (toAdd cs)
           (toUpdate cs ++ [spread existing (HistoryTable.normalize_stock row)]).
Proof.
  intros Hid [e [Hin He]]. unfold HistoryTable.stock_row. rewrite Hid.
  destruct (find_obj _ (items data)) as [existing|] eqn:Hfind.
  - exists existing. split; [now apply find_some in Hfind | reflexivity].
  - pose proof (find_none _ _ Hfind e Hin) as Hno. cbv beta in Hno. congruence.
Qed.

End QuantityFacts.

(* ===================================================================== *)
(** * Further facts about the record translation *)
(* ===================================================================== *)

Section ColumnNames.

Import SupabaseService.

Lemma lower_upper_char (c : ascii) : is_lower c = true -> lower_char (upper_char c) = c.
Proof. destruct c as [[] [] [] [] [] [] [] []]; vm_compute; congruence. Qed.

Lemma upper_char_is_upper (c : ascii) : is_lower c = true -> is_upper (upper_char c) = true.
Proof. destruct c as [[] [] [] [] [] [] [] []]; vm_compute; congruence. Qed.

Lemma camel_group_underscore (c : ascii) :
  is_lower c = true ->
  camel_group (String "_" (String c EmptyString)) = String (upper_char c) EmptyString.
Proof. destruct c as [[] [] [] [] [] [] [] []]; vm_compute; congruence. Qed.

Lemma lower_char_not_upper (c : ascii) : is_upper (lower_char c) = false.
Proof. destruct c as [[] [] [] [] [] [] [] []]; vm_compute; congruence. Qed.

(** [toSnakeCase] leaves no capital behind. *)
Lemma toSnakeCase_no_capitals (k : string) : no_capitals (toSnakeCase k) = true.
Proof.
  unfold no_capitals. induction k as [|c r IH]; [reflexivity|].
  destruct (is_upper c) eqn:Hc.
  - rewrite (toSnakeCase_upper c r Hc). cbn [forall_chars].
    rewrite lower_char_not_upper, IH. reflexivity.
  - rewrite (toSnakeCase_other c r Hc). cbn [forall_chars]. now rewrite Hc, IH.
Qed.

(** [toSnakeCase] undoes [toCamelCase] on column names. *)
Lemma snake_camel_bounded (n : nat) (c : string) :
  String.length c <= n -> column_name c = true -> toSnakeCase (toCamelCase c) = c.
Proof.
  unfold column_name. revert c. induction n as [|n IH]; intros c Hlen Hc.
  - destruct c; [reflexivity | cbn in Hlen; lia].
  - destruct c as [|a [|b r]]; [reflexivity| |].
    + cbn [forall_chars] in Hc. rewrite andb_true_r in Hc.
      apply andb_true_iff in Hc. destruct Hc as [Ha _]. apply negb_true_iff in Ha.
      cbn [toCamelCase]. now rewrite (toSnakeCase_other a EmptyString Ha).
    + rewrite toCamelCase_pair.
      cbn [forall_chars] in Hc. apply andb_true_iff in Hc. destruct Hc as [Ha Hrest].
      apply andb_true_iff in Ha. destruct Ha as [Hupper Hdash].
      apply negb_true_iff in Hupper. apply negb_true_iff in Hdash.
      destruct (is_dash_or_underscore a && is_lower b) eqn:Hgroup.
      * apply andb_true_iff in Hgroup. destruct Hgroup as [Hsep Hlower].
        assert (a = "_"%char).
        { unfold is_dash_or_underscore in Hsep. rewrite Hdash in Hsep.
          now apply Ascii.eqb_eq in Hsep. }
        subst a. rewrite (camel_group_underscore b Hlower).
        cbn [append]. rewrite (toSnakeCase_upper _ _ (upper_char_is_upper b Hlower)).
        rewrite (lower_upper_char b Hlower).
        cbn [forall_chars] in Hrest. apply andb_true_iff in Hrest.
        destruct Hrest as [_ Hr]. rewrite (IH r); [reflexivity | cbn in Hlen; lia | exact Hr].
      * rewrite (toSnakeCase_other a _ Hupper).
        rewrite (IH (String b r)); [reflexivity | cbn in Hlen |- *; lia | exact Hrest].
Qed.

Lemma snake_camel (c : string) : column_name c = true -> toSnakeCase (toCamelCase c) = c.
Proof. apply (snake_camel_bounded (String.length c)). lia. Qed.

End ColumnNames.

Section JoinSplit.

Lemma split_not_nil (s : string) : split "," s <> [].
Proof.
  destruct s as [|c r]; cbn [split]; [discriminate|].
  destruct (Ascii.eqb c ","); [discriminate|]. destruct (split "," r); discriminate.
Qed.

Lemma join_cons_string (s : string) (w : string) (ws : list string) :
  join (map VStr (s :: w :: ws)) "," = (s ++ String "," (join (map VStr (w :: ws)) ","))%string.
Proof. reflexivity. Qed.

(** Joining the pieces of a string split at its commas gives the string
    back. *)
Lemma join_split (s : string) : join (map VStr (split "," s)) "," = s.
Proof.
  induction s as [|c r IH]; [reflexivity|].
  cbn [split]. destruct (Ascii.eqb c ",") eqn:Hc.
  - apply Ascii.eqb_eq in Hc. subst c.
    destruct (split "," r) as [|w ws] eqn:Hr; [now apply split_not_nil in Hr|].
    rewrite join_cons_string, IH. reflexivity.
  - destruct (split "," r) as [|w ws] eqn:Hr; [now apply split_not_nil in Hr|].
    destruct ws as [|w' ws'].
    + cbn in IH |- *. now rewrite IH.
    + rewrite join_cons_string in IH |- *. cbn [append]. now rewrite IH.
Qed.

End JoinSplit.

Lemma camel_keys_NoDup (row : object) :
  NoDup (keys row) -> Forall (fun c => column_name c = true) (keys row) ->
  NoDup (map (fun kv => fst (SupabaseService.from_store_pair kv)) row).
Proof.
  unfold keys. induction row as [|[c v] r IH]; simpl map; intros Hnd Hall; [constructor|].
  inversion Hnd as [|? ? Hnotin Hnd']; subst.
  inversion Hall as [|? ? Hc Hall']; subst.
  assert (Hkey : forall kv, fst (SupabaseService.from_store_pair kv)
                            = SupabaseService.toCamelCase (fst kv)).
  { intros kv. unfold SupabaseService.from_store_pair.
    now destruct (mem_string _ _ && is_string _). }
  constructor; [|now apply IH].
  intros Hin. apply in_map_iff in Hin. destruct Hin as [[c' v'] [E Hin']].
  rewrite !Hkey in E. cbn [fst] in E. apply Hnotin.
  assert (c' = c).
  { rewrite Forall_forall in Hall'.
    rewrite <- (snake_camel c) by exact Hc.
    rewrite <- (snake_camel c').
    - now rewrite E.
    - apply Hall'. change c' with (fst (c', v')). now apply in_map. }
  subst. change c with (fst (c, v')). now apply in_map.
Qed.

Section StoreRowTranslation.

Import SupabaseService.

Variable tableName : string.
Variable row : object.
Hypothesis ready : store_row_ready tableName row.

Lemma ready_column (c : string) (v : value) :
  In (c, v) row -> toSnakeCase (toCamelCase c) = c.
Proof.
  intros Hin. apply snake_camel.
  pose proof (sr_columns _ _ ready) as Hall. rewrite Forall_forall in Hall.
  apply Hall. change c with (fst (c, v)). now apply in_map.
Qed.

Lemma required_not_list (c : string) :
  mem_string c ["name"; "status"; "category"] = true ->
  mem_string (toCamelCase c) list_fields = false.
Proof.
  intros H. apply mem_string_In in H. destruct H as [<-|[<-|[<-|[]]]]; reflexivity.
Qed.

Lemma keep_unless_default (c : string) (v : value) :
  (is_blank v = true -> mem_string c ["name"; "status"; "category"] = false) ->
  (if is_blank v
   then if c =? "name" then VStr "Unnamed"
        else if c =? "status" then VStr "Active"
        else if c =? "category" then VStr "General" else v
   else v) = v.
Proof.
  intros H. destruct (is_blank v); [|reflexivity].
  specialize (H eq_refl). unfold mem_string in H. cbn [existsb] in H.
  repeat (apply orb_false_iff in H; destruct H as [? H]).
  repeat match goal with E : (_ =? _) = false |- _ => rewrite E; clear E end.
  reflexivity.
Qed.

(** One column, translated to a property and back, is itself. *)
Lemma column_round_trip (kv : string * value) :
  In kv row -> to_store_pair (from_store_pair kv) = kv.
Proof.
  destruct kv as [c v]. intros Hin.
  pose proof (ready_column c v Hin) as Hc.
  unfold from_store_pair. cbn [fst snd].
  destruct (mem_string (toCamelCase c) list_fields) eqn:Hlist.
  - assert (Hnot : mem_string c ["name"; "status"; "category"] = false).
    { destruct (mem_string c ["name"; "status"; "category"]) eqn:Hm; [|reflexivity].
      rewrite (required_not_list c Hm) in Hlist. discriminate. }
    destruct v as [| |b|n|s|l]; cbn [is_string andb];
      try (unfold to_store_pair; cbn [fst snd is_array andb]; rewrite Hc;
           rewrite keep_unless_default by (intros _; exact Hnot); reflexivity).
    + (* a string: split, then joined again *)
      unfold to_store_pair. cbn [fst snd truthy].
      destruct (s =? "") eqn:Hs; cbn [negb is_array andb]; rewrite Hlist, Hc.
      * apply String.eqb_eq in Hs. subst s. change (join [] ",") with EmptyString.
        rewrite keep_unless_default by (intros _; exact Hnot). reflexivity.
      * rewrite join_split.
        rewrite keep_unless_default by (intros _; exact Hnot). reflexivity.
    + (* an array is excluded *)
      pose proof (sr_lists _ _ ready c (VArr l) Hin Hlist) as Harr. discriminate.
  - cbn [andb]. unfold to_store_pair. cbn [fst snd]. rewrite Hlist, andb_false_r, Hc.
    rewrite keep_unless_default; [reflexivity|].
    intros Hblank. destruct (mem_string c ["name"; "status"; "category"]) eqn:Hm; [|reflexivity].
    rewrite (sr_non_empty _ _ ready c v Hin Hm) in Hblank. discriminate.
Qed.

Lemma from_store_ready : processRecordFromSupabase row = map from_store_pair row.
Proof.
  unfold processRecordFromSupabase, from_store_step.
  rewrite (fold_set_fresh from_store_pair row []); [reflexivity|].
  apply camel_keys_NoDup; [exact (sr_distinct _ _ ready) | exact (sr_columns _ _ ready)].
Qed.

Lemma to_store_back :
  fold_left to_store_step (map from_store_pair row) [] = row.
Proof.
  unfold to_store_step.
  assert (Hmap : map to_store_pair (map from_store_pair row) = row).
  { rewrite map_map. rewrite <- (map_id row) at 2.
    apply map_ext_in. intros kv Hin. now apply column_round_trip. }
  rewrite (fold_set_fresh to_store_pair (map from_store_pair row) []).
  - exact Hmap.
  - cbn [keys map app].
    rewrite <- (map_map to_store_pair fst), Hmap. exact (sr_distinct _ _ ready).
Qed.

End StoreRowTranslation.

Section StoredDefaults.

Import SupabaseService.

Lemma in_set (o : object) (k : string) (x : value) (c : string) (v : value) :
  In (c, v) (set o k x) -> (c, v) = (k, x) \/ In (c, v) o.
Proof.
  induction o as [|[k' v'] r IH]; cbn [set]; intros Hin.
  - destruct Hin as [E | []]. left. now symmetry.
  - destruct (k' =? k).
    + destruct Hin as [E | Hin]; [left; now symmetry | right; now right].
    + destruct Hin as [E | Hin]; [right; now left|].
      destruct (IH Hin) as [E | Hin']; [now left | right; now right].
Qed.

Lemma in_keys_set (o : object) (k : string) (x : value) (c : string) :
  In c (keys (set o k x)) -> c = k \/ In c (keys o).
Proof.
  rewrite keys_set. destruct (mem_string k (keys o)); [now right|].
  intros Hin. apply in_app_or in Hin. destruct Hin as [Hin | [E | []]]; [now right | now left].
Qed.

(** A column of the three with a default is never written blank. *)
Lemma to_store_pair_not_blank (kv : string * value) :
  mem_string (fst (to_store_pair kv)) ["name"; "status"; "category"] = true ->
  is_blank (snd (to_store_pair kv)) = false.
Proof.
  unfold to_store_pair. cbn [fst snd]. intros Hm.
  match goal with
  | |- is_blank (if is_blank ?x then _ else _) = false => destruct (is_blank x) eqn:Hblank
  end; [|exact Hblank].
  unfold mem_string in Hm. cbn [existsb] in Hm.
  destruct (toSnakeCase (fst kv) =? "name"); [reflexivity|].
  destruct (toSnakeCase (fst kv) =? "status"); [reflexivity|].
  destruct (toSnakeCase (fst kv) =? "category"); [reflexivity|].
  discriminate.
Qed.

Lemma defaults_filled_set (o : object) (k : string) (x : value) :
  defaults_filled o ->
  (mem_string k ["name"; "status"; "category"] = true -> is_blank x = false) ->
  defaults_filled (set o k x).
Proof.
  intros Ho Hx c v Hin Hm. apply in_set in Hin. destruct Hin as [E | Hin].
  - inversion E; subst. now apply Hx.
  - now apply (Ho c v).
Qed.

Lemma to_store_loop_defaults (record acc : object) :
  defaults_filled acc -> defaults_filled (fold_left to_store_step record acc).
Proof.
  revert acc. induction record as [|kv record IH]; intros acc Hacc; [assumption|].
  cbn [fold_left]. apply IH. unfold to_store_step.
  apply defaults_filled_set; [assumption | apply to_store_pair_not_blank].
Qed.

Lemma lower_case_keys_set (o : object) (k : string) (x : value) :
  lower_case_keys o -> no_capitals k = true -> lower_case_keys (set o k x).
Proof.
  intros Ho Hk c Hin. apply in_keys_set in Hin. destruct Hin as [-> | Hin]; auto.
Qed.

Lemma to_store_loop_lower_case (record acc : object) :
  lower_case_keys acc -> lower_case_keys (fold_left to_store_step record acc).
Proof.
  revert acc. induction record as [|kv record IH]; intros acc Hacc; [assumption|].
  cbn [fold_left]. apply IH. unfold to_store_step.
  apply lower_case_keys_set; [assumption | apply toSnakeCase_no_capitals].
Qed.

End StoredDefaults.

(* ===================================================================== *)
(** * Further facts about bulk persistence *)
(* ===================================================================== *)

Section TraceFacts.

Import SupabaseService.

Lemma payloads_app (a b : list event) : payloads (a ++ b) = payloads a ++ payloads b.
Proof. unfold payloads. apply flat_map_app. Qed.

Lemma sleeps_app (a b : list event) : sleeps (a ++ b) = sleeps a ++ sleeps b.
Proof. unfold sleeps. apply flat_map_app. Qed.

Lemma report_successCount (p : bool) (b t n : nat) (st : run) :
  successCount (report p b t n st) = successCount st.
Proof. unfold report. now destruct p. Qed.

Lemma report_failedBatches (p : bool) (b t n : nat) (st : run) :
  failedBatches (report p b t n st) = failedBatches st.
Proof. unfold report. now destruct p. Qed.

Lemma report_calls (p : bool) (b t n : nat) (st : run) :
  calls (report p b t n st) = calls st.
Proof. unfold report. now destruct p. Qed.

Lemma report_payloads (p : bool) (b t n : nat) (st : run) :
  payloads (trace (report p b t n st)) = payloads (trace st).
Proof.
  unfold report. destruct p; [|reflexivity].
  cbn [emit trace]. rewrite payloads_app. cbn. apply app_nil_r.
Qed.

Lemma report_sleeps (p : bool) (b t n : nat) (st : run) :
  sleeps (trace (report p b t n st)) = sleeps (trace st).
Proof.
  unfold report. destruct p; [|reflexivity].
  cbn [emit trace]. rewrite sleeps_app. cbn. apply app_nil_r.
Qed.

End TraceFacts.

Section AcknowledgingStore.

Import SupabaseService.

Variable remote : remote_store.
Variable onProgress : bool.
Variable frontendTable supabaseTable : string.
Variable total : nat.

Hypothesis acknowledges : forall n t rows k, remote n t rows k = Rows rows.

Let process (item : object) : object := processRecordToSupabase item supabaseTable.

(** Against a store that acknowledges everything, the loop sends the
    rest of the records in batches of at most 100, once each and in
    order, and waits 200 ms between two batches. *)
Lemma batches_acknowledged (fuel : nat) (dataArray : list object) (totalBatches i : nat) (st : run) :
  (length dataArray - i) + 1 <= fuel ->
  exists st' sent,
    batches remote onProgress frontendTable supabaseTable total fuel dataArray totalBatches i st
    = Some st'
    /\ successCount st' = successCount st + (length dataArray - i)
    /\ failedBatches st' = failedBatches st
    /\ payloads (trace st') = payloads (trace st) ++ sent
    /\ concat sent = map process (skipn i dataArray)
    /\ Forall (fun rows => 1 <= length rows <= 100) sent
    /\ (forall ms, In ms (sleeps (trace st')) -> In ms (sleeps (trace st)) \/ ms = 200).
Proof.
  revert i st. induction fuel as [|fuel IH]; intros i st Hfuel; [lia|].
  destruct (Nat.le_gt_cases (length dataArray) i) as [Hdone | Hmore].
  - exists st, []. rewrite batches_done by assumption.
    rewrite skipn_all2 by assumption. rewrite app_nil_r.
    repeat split; auto. lia.
  - rewrite batches_unfold. pose proof Hmore as Hlt. apply Nat.ltb_lt in Hlt. rewrite Hlt.
    destruct fuel as [|fuel']; [lia|].
    set (chunk := map (fun item => processRecordToSupabase item supabaseTable)
                      (firstn BATCH_SIZE (skipn i dataArray))).
    rewrite (attempts_first_try remote onProgress frontendTable supabaseTable total fuel'
               chunk chunk) by apply acknowledges.
    assert (Hchunk : length chunk = Nat.min 100 (length dataArray - i)).
    { unfold chunk. now rewrite length_map, length_firstn, length_skipn. }
    match goal with
    | |- context [batches _ _ _ _ _ _ _ _ _ ?s] => set (st1 := s)
    end.
    destruct (IH (i + BATCH_SIZE) st1) as [st' [sent [Hrun [Hcount [Hfailed [Hsent [Hconcat [Hsizes Hsleeps]]]]]]]].
    { unfold BATCH_SIZE. lia. }
    exists st', (chunk :: sent). rewrite Hrun.
    assert (Hst1 : successCount st1 = successCount st + length chunk
                   /\ failedBatches st1 = failedBatches st
                   /\ payloads (trace st1) = payloads (trace st) ++ [chunk]
                   /\ (forall ms, In ms (sleeps (trace st1)) ->
                         In ms (sleeps (trace st)) \/ ms = 200)).
    { unfold st1.
      destruct (i + BATCH_SIZE <? length dataArray)%nat; cbn [emit successCount failedBatches trace];
        rewrite ?payloads_app, ?sleeps_app, ?report_successCount, ?report_failedBatches,
          ?report_payloads, ?report_sleeps;
        cbn [successCount failedBatches trace];
        rewrite ?payloads_app, ?sleeps_app, ?report_successCount, ?report_failedBatches,
          ?report_payloads, ?report_sleeps.
      - cbn [payloads sleeps flat_map app]. rewrite !app_nil_r.
        repeat split; auto.
        intros ms Hin. apply in_app_or in Hin. destruct Hin as [Hin | [<- | []]]; auto.
      - cbn [payloads sleeps flat_map app]. rewrite !app_nil_r.
        repeat split; auto. }
    destruct Hst1 as [Hc1 [Hf1 [Hp1 Hs1]]].
    split; [reflexivity|]. split; [|split; [|split; [|split; [|split]]]].
    + rewrite Hcount, Hc1, Hchunk. unfold BATCH_SIZE. lia.
    + now rewrite Hfailed.
    + rewrite Hsent, Hp1, <- app_assoc. reflexivity.
    + cbn [concat]. rewrite Hconcat. unfold chunk, process. rewrite <- map_app.
      f_equal. unfold BATCH_SIZE.
      replace (skipn (i + 100) dataArray) with (skipn 100 (skipn i dataArray))
        by (rewrite skipn_skipn; f_equal; lia).
      apply firstn_skipn.
    + constructor; [|assumption]. rewrite Hchunk. lia.
    + intros ms Hin. destruct (Hsleeps ms Hin) as [H | H]; auto.
Qed.

End AcknowledgingStore.

Section RefusingStore.

Import SupabaseService.

Variable remote : remote_store.
Variable onProgress : bool.
Variable frontendTable supabaseTable : string.
Variable total : nat.
Variable error : string.

Hypothesis refuses : forall n t rows k, remote n t rows k = Failed error.

(** Against a store that refuses everything, each of the [m] batches
    left is tried three times and recorded as failed. *)
Lemma batches_refused (m : nat) :
  forall (fuel : nat) (dataArray : list object) (totalBatches k : nat) (st : run),
  m + 3 <= fuel ->
  length dataArray <= 100 * (k + m) ->
  (0 < m -> 100 * (k + m - 1) < length dataArray) ->
  exists st',
    batches remote onProgress frontendTable supabaseTable total fuel dataArray totalBatches
            (100 * k) st = Some st'
    /\ successCount st' = successCount st
    /\ failedBatches st' = failedBatches st ++ map (fun b => (b, error)) (seq (k + 1) m)
    /\ calls st' = calls st + 3 * m
    /\ length (payloads (trace st')) = length (payloads (trace st)) + 3 * m.
Proof.
  induction m as [|m IH]; intros fuel dataArray totalBatches k st Hfuel Hupper Hlower.
  - exists st. rewrite batches_done by lia. cbn [seq map]. rewrite app_nil_r.
    repeat split; lia.
  - destruct fuel as [|[|[|[|fuel]]]]; try lia.
    rewrite batches_unfold.
    assert (Hlt : (100 * k <? length dataArray)%nat = true) by (apply Nat.ltb_lt; lia).
    rewrite Hlt.
    assert (Hnum : 100 * k / BATCH_SIZE + 1 = k + 1).
    { unfold BATCH_SIZE. rewrite Nat.mul_comm, Nat.div_mul by discriminate. reflexivity. }
    rewrite Hnum.
    rewrite (attempts_all_fail remote onProgress frontendTable supabaseTable total fuel
               _ (k + 1) totalBatches _ error error error) by apply refuses.
    replace (100 * k + BATCH_SIZE) with (100 * (k + 1)) by (unfold BATCH_SIZE; lia).
    match goal with
    | |- context [batches _ _ _ _ _ _ _ _ _ ?s] => set (st1 := s)
    end.
    destruct (IH (S (S (S fuel))) dataArray totalBatches (k + 1) st1)
      as [st' [Hrun [Hcount [Hfailed [Hcalls Hsent]]]]]; try lia.
    exists st'. split; [exact Hrun|].
    assert (Hst1 : successCount st1 = successCount st
                   /\ failedBatches st1 = failedBatches st ++ [(k + 1, error)]
                   /\ calls st1 = calls st + 3
                   /\ length (payloads (trace st1)) = length (payloads (trace st)) + 3).
    { unfold st1.
      destruct (100 * (k + 1) <? length dataArray)%nat;
        cbn [emit successCount failedBatches trace calls];
        rewrite ?payloads_app, ?report_successCount, ?report_failedBatches, ?report_calls,
          ?report_payloads;
        cbn [payloads flat_map app]; rewrite ?length_app; cbn [length];
        repeat split; lia. }
    destruct Hst1 as [Hc1 [Hf1 [Hk1 Hp1]]].
    repeat split.
    + now rewrite Hcount.
    + rewrite Hfailed, Hf1, <- app_assoc. cbn [seq map app].
      replace (k + 1 + 1) with (S (k + 1)) by lia. reflexivity.
    + lia.
    + lia.
Qed.

End RefusingStore.

Section SilentStore.

Import SupabaseService.

Variable remote : remote_store.
Variable onProgress : bool.
Variable frontendTable supabaseTable : string.
Variable total : nat.

Hypothesis silent : forall n t rows k, remote n t rows k = Silent.

(** The retry loop does not end while the store keeps answering with
    neither an error nor rows. *)
Lemma attempts_silent (fuel : nat) (processedData : list object)
    (batchNum totalBatches retryCount : nat) (st : run) :
  retryCount < MAX_RETRIES ->
  attempts remote onProgress frontendTable supabaseTable total fuel
           processedData batchNum totalBatches retryCount st = None.
Proof.
  intros Hretry. apply Nat.ltb_lt in Hretry.
  revert st. induction fuel as [|fuel IH]; intros st.
  - cbn [attempts]. now rewrite Hretry.
  - rewrite attempts_unfold, Hretry, silent. cbv zeta. apply IH.
Qed.

Lemma batches_silent (fuel : nat) (dataArray : list object) (totalBatches i : nat) (st : run) :
  i < length dataArray ->
  batches remote onProgress frontendTable supabaseTable total fuel dataArray totalBatches i st
  = None.
Proof.
  intros Hi. apply Nat.ltb_lt in Hi. destruct fuel as [|fuel].
  - cbn [batches]. now rewrite Hi.
  - rewrite batches_unfold, Hi.
    rewrite attempts_silent by (unfold MAX_RETRIES; lia). reflexivity.
Qed.

End SilentStore.

Section RetriedBatch.

Import SupabaseService.

Variable remote : remote_store.
Variable onProgress : bool.
Variable frontendTable supabaseTable : string.
Variable total : nat.

(** A batch that the store refuses twice and then acknowledges. *)
Lemma attempts_third_try (fuel : nat) (processedData data : list object)
    (batchNum totalBatches : nat) (st : run) (m1 m2 : string) :
  remote (calls st) supabaseTable processedData (pk frontendTable) = Failed m1 ->
  remote (S (calls st)) supabaseTable processedData (pk frontendTable) = Failed m2 ->
  remote (S (S (calls st))) supabaseTable processedData (pk frontendTable) = Rows data ->
  attempts remote onProgress frontendTable supabaseTable total (S (S (S fuel)))
           processedData batchNum totalBatches 0 st
  = Some (report onProgress batchNum totalBatches total
            (mkRun (successCount st + length data) (failedBatches st)
               (trace st ++ [Upsert supabaseTable processedData (pk frontendTable); Sleep 1000;
                             Upsert supabaseTable processedData (pk frontendTable); Sleep 2000;
                             Upsert supabaseTable processedData (pk frontendTable)])
               (S (S (S (calls st)))))).
Proof.
  intros H1 H2 H3.
  rewrite attempts_unfold. cbn [Nat.ltb Nat.leb MAX_RETRIES]. cbv zeta. rewrite H1.
  rewrite attempts_unfold. cbn [Nat.ltb Nat.leb MAX_RETRIES emit calls]. cbv zeta. rewrite H2.
  rewrite attempts_unfold. cbn [Nat.ltb Nat.leb MAX_RETRIES emit calls]. cbv zeta. rewrite H3.
  cbn [successCount failedBatches trace calls emit].
  repeat rewrite <- app_assoc. reflexivity.
Qed.

End RetriedBatch.

(* ===================================================================== *)
(** * Further facts about the asset import *)
(* ===================================================================== *)

Lemma or_else_truthy (a b : value) : truthy b = true -> truthy (or_else a b) = true.
Proof. intros H. unfold or_else. destruct (truthy a) eqn:E; assumption. Qed.

(** A field of the row that counts survives the merge into an existing
    entity. *)
Lemma spread_truthy (existing obj : object) (k : string) :
  NoDup (keys obj) -> truthy (get obj k) = true ->
  truthy (get (spread existing obj) k) = true.
Proof.
  intros Hnd H. rewrite get_spread; [assumption | assumption | now apply truthy_has_key].
Qed.

Lemma complete_spread (tab : string) (existing obj : object) :
  NoDup (keys obj) -> complete_entity tab obj = true ->
  complete_entity tab (spread existing obj) = true.
Proof.
  intros Hnd. unfold complete_entity. intros H. apply andb_prop in H. destruct H as [Hid H].
  rewrite (spread_truthy existing obj "id" Hnd Hid). cbn [andb].
  destruct (tab =? "machines").
  { apply andb_prop in H. destruct H as [H1 H2]. now rewrite !spread_truthy. }
  destruct (tab =? "breakdowns").
  { apply andb_prop in H. destruct H as [H1 H2]. now rewrite !spread_truthy. }
  destruct (tab =? "bom"); [|reflexivity].
  apply andb_prop in H. destruct H as [H1 H2]. now rewrite !spread_truthy.
Qed.

Section AssetImportInvariants.

Import AssetManagement.

Variable env : ambient.
Variable data : collections.
Variable tab : string.

(** What holds at the start and is kept by every row holds at the
    end. *)
Lemma processImport_invariant (P : import_state -> Prop) (rows : list (list value))
    (st : import_state) :
  P (mkState (mkChangeSet [] []) 0 []) ->
  (forall headers st ir, P st -> P (import_row env data tab headers st ir)) ->
  processImport env data tab rows = Some st -> P st.
Proof.
  intros Hstart Hstep. unfold processImport.
  destruct (nth_error rows (headerRowIndex rows)) as [headerRow|]; [|discriminate].
  intros H. inversion H; subst. clear H.
  generalize (combine (seq 0 (length (skipn (headerRowIndex rows + 1) rows)))
                      (skipn (headerRowIndex rows + 1) rows)).
  intros l. revert Hstart. generalize (mkState (mkChangeSet [] []) 0 []).
  induction l as [|ir l IH]; intros st0 H0; [assumption|].
  cbn [fold_left]. apply IH. now apply Hstep.
Qed.

(** ** The mandatory fields *)

Lemma apply_defaults_complete (obj : object) :
  truthy (get obj "id") = true ->
  (tab = "bom" -> truthy (get obj "itemId") = true) ->
  complete_entity tab (apply_defaults tab obj) = true.
Proof.
  intros Hid Hitem. unfold complete_entity. rewrite apply_defaults_id, Hid. cbn [andb].
  unfold apply_defaults.
  destruct (tab =? "machines") eqn:E1.
  { rewrite get_set_other by discriminate. rewrite get_set_other by discriminate.
    rewrite get_set_same. rewrite get_set_other by discriminate. rewrite get_set_same.
    now rewrite !or_else_truthy. }
  destruct (tab =? "breakdowns") eqn:E2.
  { rewrite get_set_other by discriminate. rewrite !get_set_same.
    now rewrite !or_else_truthy. }
  destruct (tab =? "bom") eqn:E3; [|reflexivity].
  apply String.eqb_eq in E3.
  rewrite get_set_other by discriminate. rewrite get_set_same.
  rewrite !get_set_other by discriminate. rewrite (Hitem E3).
  now rewrite or_else_truthy.
Qed.

Lemma classify_item (rowIndex : nat) (obj : object) :
  asset_retained (classify env data tab rowIndex obj) = true ->
  truthy (get (identify env data tab rowIndex obj) "id") = true
  /\ (tab = "bom" -> truthy (get (identify env data tab rowIndex obj) "itemId") = true).
Proof.
  unfold classify.
  destruct (truthy (get (identify env data tab rowIndex obj) "id")); [|discriminate].
  rewrite apply_defaults_itemId.
  destruct (tab =? "bom") eqn:E.
  - destruct (truthy (get (identify env data tab rowIndex obj) "itemId")); [|discriminate].
    intros _. split; reflexivity.
  - intros _. split; [reflexivity|]. intros ->. discriminate.
Qed.

Lemma classify_add_complete (rowIndex : nat) (obj a : object) :
  classify env data tab rowIndex obj = Add a -> complete_entity tab a = true.
Proof.
  intros Hc. destruct (classify_item rowIndex obj) as [Hid Hitem]; [now rewrite Hc|].
  destruct (classify_add env data tab rowIndex obj a Hc) as [-> _].
  now apply apply_defaults_complete.
Qed.

Lemma classify_update_complete (rowIndex : nat) (obj u : object) :
  NoDup (keys obj) ->
  classify env data tab rowIndex obj = Update u -> complete_entity tab u = true.
Proof.
  intros Hnd Hc. destruct (classify_item rowIndex obj) as [Hid Hitem]; [now rewrite Hc|].
  destruct (classify_update env data tab rowIndex obj u Hnd Hc) as [existing [_ [-> _]]].
  apply complete_spread.
  - now apply apply_defaults_keys, identify_keys.
  - now apply apply_defaults_complete.
Qed.

Lemma import_row_complete (headers : list string) (st : import_state) (ir : nat * list value) :
  Forall (fun o => complete_entity tab o = true)
         (toAdd (changes st) ++ toUpdate (changes st)) ->
  Forall (fun o => complete_entity tab o = true)
         (toAdd (changes (import_row env data tab headers st ir))
          ++ toUpdate (changes (import_row env data tab headers st ir))).
Proof.
  intros H. unfold import_row. destruct ir as [rowIndex row].
  pose proof (normalize_keys data tab headers (failedItemMatches st) rowIndex row) as Hnd.
  destruct (normalize data tab headers (failedItemMatches st) rowIndex row) as [obj failed].
  cbn [fst] in Hnd. apply Forall_app in H. destruct H as [Ha Hu].
  destruct (classify env data tab rowIndex obj) as [a|u| |] eqn:Hc; cbn [changes toAdd toUpdate];
    apply Forall_app; split; try assumption.
  - apply Forall_app. split; [assumption|]. constructor; [|constructor].
    now apply (classify_add_complete rowIndex obj).
  - apply Forall_app. split; [assumption|]. constructor; [|constructor].
    now apply (classify_update_complete rowIndex obj).
Qed.

(** ** The account of the rows *)

Lemma import_row_accounted (headers : list string) (st : import_state) (ir : nat * list value) :
  accounted (import_row env data tab headers st ir) <= S (accounted st)
  /\ (tab <> "bom" -> accounted (import_row env data tab headers st ir) = S (accounted st)).
Proof.
  unfold import_row. destruct ir as [rowIndex row].
  destruct (normalize data tab headers (failedItemMatches st) rowIndex row) as [obj failed].
  unfold classify.
  destruct (truthy (get (identify env data tab rowIndex obj) "id")).
  - destruct (tab =? "bom") eqn:E.
    + destruct (negb _); cbn [andb].
      * unfold accounted; cbn. split; [lia|]. apply String.eqb_eq in E. congruence.
      * destruct (find_obj _ _); unfold accounted; cbn; rewrite length_app; cbn;
          split; intros; lia.
    + cbn [andb]. destruct (find_obj _ _); unfold accounted; cbn; rewrite length_app; cbn;
        split; intros; lia.
  - unfold accounted; cbn. split; intros; lia.
Qed.

Lemma import_rows_accounted (headers : list string) (l : list (nat * list value))
    (st : import_state) :
  accounted (fold_left (import_row env data tab headers) l st) <= length l + accounted st
  /\ (tab <> "bom" ->
      accounted (fold_left (import_row env data tab headers) l st) = length l + accounted st).
Proof.
  revert st. induction l as [|ir l IH]; intros st; [cbn; split; intros; lia|].
  cbn [fold_left length]. destruct (IH (import_row env data tab headers st ir)) as [Hle Heq].
  destruct (import_row_accounted headers st ir) as [Hle1 Heq1].
  split; [lia|]. intros Hne. rewrite (Heq Hne), (Heq1 Hne). lia.
Qed.

(** ** The item codes that found no item *)

Lemma bom_fields_unresolved (header : string) (row : list value) (i : nat)
    (st : object * list string) :
  unresolved_codes (items data) (snd st) -> unresolved_codes (items data) (snd (bom_fields data header row i st)).
Proof.
  destruct st as [obj failed]. cbn [snd]. intros [Hnd Hall]. unfold bom_fields.
  destruct (mem_string header ["machinename"; "equipname"; "machine"]); [now split|].
  destruct (mem_string header ["brand"; "make"]); [now split|].
  destruct (mem_string header ["modelno"; "modelnumber"; "model"]); [now split|].
  destruct (mem_string header ["itemid"; "itemcode"; "partnumber"; "code"; "item"]).
  - rewrite get_set_same.
    destruct (negb (truthy (resolveItemId (items data) (trimmed_cell row i)))) eqn:Hres;
      cbn [andb]; [|now split].
    destruct (truthy (VStr (trimmed_cell row i))) eqn:Hval; [|now split].
    destruct (mem_string (trimmed_cell row i) failed) eqn:Hmem; cbn [negb snd]; [now split|].
    apply mem_string_not_In in Hmem. split.
    + apply NoDup_app; [assumption | repeat constructor; intros [] |].
      intros x Hx [<- | []]. contradiction.
    + apply Forall_app. split; [assumption|]. constructor; [|constructor]. split.
      * intros E. rewrite E in Hval. discriminate.
      * now apply negb_true_iff in Hres.
  - destruct (mem_string header ["quantity"; "qty"; "count"]); now split.
Qed.

Lemma header_step_unresolved (row : list value) (st : object * list string)
    (hi : string * nat) :
  unresolved_codes (items data) (snd st) -> unresolved_codes (items data) (snd (header_step data tab row st hi)).
Proof.
  intros H. unfold header_step. destruct (tab =? "bom"); [|exact H].
  now apply bom_fields_unresolved.
Qed.

Lemma header_step_other_tab (row : list value) (st : object * list string)
    (hi : string * nat) :
  tab <> "bom" -> snd (header_step data tab row st hi) = snd st.
Proof.
  intros Hne. unfold header_step. apply String.eqb_neq in Hne. now rewrite Hne.
Qed.

Lemma header_steps_unresolved (row : list value) (l : list (string * nat))
    (st : object * list string) :
  unresolved_codes (items data) (snd st) ->
  unresolved_codes (items data) (snd (fold_left (header_step data tab row) l st)).
Proof.
  revert st. induction l as [|hi l IH]; intros st H; [exact H|].
  cbn [fold_left]. apply IH. now apply header_step_unresolved.
Qed.

Lemma normalize_unresolved (headers failed : list string) (rowIndex : nat) (row : list value) :
  unresolved_codes (items data) failed ->
  unresolved_codes (items data) (snd (normalize data tab headers failed rowIndex row)).
Proof. intros H. unfold normalize. now apply header_steps_unresolved. Qed.

Lemma header_steps_other_tab (row : list value) (l : list (string * nat))
    (st : object * list string) :
  tab <> "bom" -> snd (fold_left (header_step data tab row) l st) = snd st.
Proof.
  intros Hne. revert st. induction l as [|hi l IH]; intros st; [reflexivity|].
  cbn [fold_left]. rewrite IH. now apply header_step_other_tab.
Qed.

Lemma normalize_other_tab (headers failed : list string) (rowIndex : nat) (row : list value) :
  tab <> "bom" -> snd (normalize data tab headers failed rowIndex row) = failed.
Proof. intros Hne. unfold normalize. now rewrite header_steps_other_tab. Qed.

Lemma import_row_failed (headers : list string) (st : import_state) (ir : nat * list value) :
  failedItemMatches (import_row env data tab headers st ir)
  = snd (normalize data tab headers (failedItemMatches st) (fst ir) (snd ir)).
Proof.
  unfold import_row. destruct ir as [rowIndex row]. cbn [fst snd].
  destruct (normalize data tab headers (failedItemMatches st) rowIndex row) as [obj failed].
  destruct (classify env data tab rowIndex obj); reflexivity.
Qed.

End AssetImportInvariants.

Section MachineFacts.

Import AssetManagement.

Variable env : ambient.
Variable data : collections.

Lemma assign_bom_id_machines (rowIndex : nat) (obj : object) :
  assign_bom_id env data "machines" rowIndex obj = obj.
Proof. reflexivity. Qed.

(** The id of a machine row without explicit id. *)
Lemma identify_machine (rowIndex : nat) (obj : object) :
  truthy (get obj "id") = false ->
  truthy (get obj "chassisNo") = true ->
  identify env data "machines" rowIndex obj =
  match find_obj (fun m => strict_eq (get m "chassisNo") (get obj "chassisNo")) (machines data) with
  | Some existing =>
      if negb (truthy (get existing "id")) && truthy (get obj "category")
      then set (set obj "id" (get existing "id")) "id" (VStr (synthesize_machine_id env rowIndex))
      else set obj "id" (get existing "id")
  | None =>
      if truthy (get obj "category")
      then set obj "id" (VStr (synthesize_machine_id env rowIndex))
      else obj
  end.
Proof.
  intros Hid Hchassis. unfold identify. rewrite assign_bom_id_machines.
  unfold assign_machine_id. change ("machines" =? "machines") with true.
  rewrite Hid, Hchassis. cbn [negb andb].
  destruct (find_obj _ (machines data)) as [existing|].
  - rewrite get_set_same. rewrite get_set_other by discriminate. reflexivity.
  - rewrite Hid. reflexivity.
Qed.

Lemma apply_defaults_machine_chassis (obj : object) :
  get (apply_defaults "machines" obj) "chassisNo" = get obj "chassisNo".
Proof.
  unfold apply_defaults. change ("machines" =? "machines") with true. cbv iota.
  now rewrite !get_set_other by discriminate.
Qed.

Lemma classify_machine (rowIndex : nat) (obj : object) :
  truthy (get (identify env data "machines" rowIndex obj) "id") = true ->
  classify env data "machines" rowIndex obj =
  match find_obj (fun i => strict_eq (get i "id")
                             (get (identify env data "machines" rowIndex obj) "id"))
                 (machines data) with
  | Some existing =>
      Update (spread existing (apply_defaults "machines" (identify env data "machines" rowIndex obj)))
  | None => Add (apply_defaults "machines" (identify env data "machines" rowIndex obj))
  end.
Proof.
  intros Hid. unfold classify. rewrite Hid, apply_defaults_id. reflexivity.
Qed.

End MachineFacts.

(* ===================================================================== *)
(** * Properties of the persistence gateway *)
(* ===================================================================== *)

Section Gateway.

Import SupabaseService.

(** C9 (amended).  The key-casing translation round-trips: a record
    with distinct letter-only keys, no empty name, status or category
    field, list-valued fields that are non-empty arrays of non-empty
    comma-free strings and, on the table [items], a non-empty name, on
    the table [machines], a non-empty status, translated to the store
    representation and back, is returned unchanged. *)
Theorem record_round_trip (tableName : string) (record : object) :
  round_trip_ready tableName record ->
  processRecordFromSupabase (processRecordToSupabase record tableName) = record.
Proof.
  intros ready. rewrite (to_store_ready tableName record ready).
  unfold processRecordFromSupabase. exact (from_store_loop tableName record ready).
Qed.

Lemma record_round_trip_witness :
  processRecordToSupabase sample_user "users" =
    [ ("username", VStr "amal"); ("name", VStr "Amal");
      ("allowed_menus", VStr "stock,assets"); ("allowed_location_ids", VStr "L-1") ]
  /\ processRecordFromSupabase (processRecordToSupabase sample_user "users") = sample_user.
Proof.
  split; [reflexivity|].
  apply (record_round_trip "users" sample_user).
  constructor.
  - unfold sample_user, keys. cbn [map fst].
    repeat constructor; cbn [In]; intuition discriminate.
  - repeat constructor.
  - intros k v Hin Hm. cbn [sample_user In] in Hin.
    destruct Hin as [E|[E|[E|[E|[]]]]]; inversion E; subst; try reflexivity; discriminate.
  - discriminate.
  - discriminate.
  - intros k v Hin Hm. cbn [sample_user In] in Hin.
    destruct Hin as [E|[E|[E|[E|[]]]]]; inversion E; subst; try discriminate.
    + exists ["stock"; "assets"]. split; [reflexivity|]. split; [discriminate|].
      repeat constructor; discriminate.
    + exists ["L-1"]. split; [reflexivity|]. split; [discriminate|].
      repeat constructor; discriminate.
Defined.

(** C9, as stated, fails: a record of the table [items] without a name
    field meets every condition of the claim and comes back with the
    name that the translation to the store fills in; so does a record
    of the table [machines] without a status. *)
Lemma record_without_required_field_changes :
  let item : object := [("id", VStr "IT-1"); ("unit", VStr "pcs")] in
  let machine : object := [("id", VStr "M-1"); ("category", VStr "Pump")] in
  NoDup (keys item)
  /\ Forall (fun k => letters_only k = true) (keys item)
  /\ (forall k v, In (k, v) item -> mem_string k ["name"; "status"; "category"] = true ->
                  is_blank v = false)
  /\ (forall k v, In (k, v) item -> mem_string k list_fields = true -> string_list v)
  /\ processRecordFromSupabase (processRecordToSupabase item "items")
     = [("id", VStr "IT-1"); ("unit", VStr "pcs"); ("name", VStr "Unnamed Item")]
  /\ processRecordFromSupabase (processRecordToSupabase item "items") <> item
  /\ processRecordFromSupabase (processRecordToSupabase machine "machines")
     = [("id", VStr "M-1"); ("category", VStr "Pump"); ("status", VStr "Working")]
  /\ processRecordFromSupabase (processRecordToSupabase machine "machines") <> machine.
Proof.
  intros item machine. repeat split; try discriminate.
  - unfold item, keys. cbn [map fst]. repeat constructor; cbn [In]; intuition discriminate.
  - repeat constructor.
  - intros k v Hin Hm. cbn [item In] in Hin.
    destruct Hin as [E|[E|[]]]; inversion E; subst; discriminate.
  - intros k v Hin Hm. cbn [item In] in Hin.
    destruct Hin as [E|[E|[]]]; inversion E; subst; discriminate.
Qed.

(** C10.  For a known table, an empty or missing record list is answered
    at once with a success outcome of count 0: the run issues no upsert
    and never calls the progress callback. *)
Theorem bulk_upsert_nothing_to_do (fuel : nat) (remote : remote_store)
    (frontendTable supabaseTable : string) (dataArray : option (list object))
    (onProgress : bool) :
  lookup_table tableMap frontendTable = Some supabaseTable ->
  dataArray = None \/ dataArray = Some [] ->
  bulkUpsertSupabaseRecords fuel remote frontendTable dataArray onProgress
  = Some ([("status", VStr "success"); ("count", VNum (Int 0))],
          {| successCount := 0; failedBatches := []; trace := []; calls := 0 |}).
Proof.
  intros Htable Hdata. unfold bulkUpsertSupabaseRecords. rewrite Htable.
  destruct Hdata as [-> | ->]; reflexivity.
Qed.

Lemma bulk_upsert_nothing_to_do_witness :
  bulkUpsertSupabaseRecords 0 store_failing_batch_2 "bomRecords" (Some []) true
  = Some ([("status", VStr "success"); ("count", VNum (Int 0))],
          {| successCount := 0; failedBatches := []; trace := []; calls := 0 |}).
Proof.
  apply (bulk_upsert_nothing_to_do 0 store_failing_batch_2 "bomRecords" "bom" (Some []) true).
  - reflexivity.
  - right. reflexivity.
Defined.

End Gateway.

Section PartialFailure.

Import SupabaseService.

(** C2 (amended).  250 records are persisted in three batches of 100,
    100 and 50 rows.  When the store acknowledges the first and the
    third batch and refuses every attempt at the second, the second
    batch is tried three times, with waits of 1000 ms and 2000 ms
    between the attempts, and the third batch is still sent.  The
    returned outcome has status partial, count 150 and a message that
    counts one failed batch; the index and the error message of the
    second batch are in the run's [failedBatches], not in the
    outcome. *)
Theorem bulk_upsert_partial_failure (remote : remote_store)
    (frontendTable supabaseTable : string) (records : list object)
    (error : string) (onProgress : bool) (fuel : nat) :
  lookup_table tableMap frontendTable = Some supabaseTable ->
  length records = 250 ->
  (forall t rows k, remote 0 t rows k = Rows rows) ->
  (forall n t rows k, 1 <= n <= 3 -> remote n t rows k = Failed error) ->
  (forall t rows k, remote 4 t rows k = Rows rows) ->
  5 <= fuel ->
  let batch i := map (fun item => processRecordToSupabase item supabaseTable)
                     (firstn 100 (skipn i records)) in
  let send i := Upsert supabaseTable (batch i) (pk frontendTable) in
  exists st,
    bulkUpsertSupabaseRecords fuel remote frontendTable (Some records) onProgress
    = Some ([ ("status", VStr "partial");
              ("count", VNum (Int 150));
              ("message", VStr "150/250 uploaded. 1 batches failed.") ], st)
    /\ failedBatches st = [(2, error)]
    /\ length (batch 0) = 100 /\ length (batch 100) = 100 /\ length (batch 200) = 50
    /\ trace st = without_progress onProgress
         [ Progress 0 250 1 3; send 0; Progress 100 250 1 3; Sleep 200;
           Progress 100 250 2 3; send 100; Sleep 1000; send 100; Sleep 2000; send 100;
           Sleep 200;
           Progress 100 250 3 3; send 200; Progress 150 250 3 3;
           Progress 150 250 3 3 ].
Proof.
  intros Htable Hlen H0 H123 H4 Hfuel batch send.
  assert (Hb0 : length (batch 0) = 100).
  { unfold batch. rewrite length_map, length_firstn, length_skipn, Hlen. reflexivity. }
  assert (Hb1 : length (batch 100) = 100).
  { unfold batch. rewrite length_map, length_firstn, length_skipn, Hlen. reflexivity. }
  assert (Hb2 : length (batch 200) = 50).
  { unfold batch. rewrite length_map, length_firstn, length_skipn, Hlen. reflexivity. }
  destruct fuel as [|[|[|[|[|fuel]]]]]; try lia.
  rewrite (bulk_upsert_unfold _ _ _ _ _ _ Htable) by (intros ->; discriminate).
  rewrite Hlen. cbv zeta. change ((250 + (BATCH_SIZE - 1)) / BATCH_SIZE) with 3.
  (* first batch *)
  rewrite batches_unfold, Hlen.
  change (0 <? 250)%nat with true. cbv iota.
  change (0 / BATCH_SIZE + 1) with 1. change BATCH_SIZE with 100. fold (batch 0).
  rewrite (attempts_first_try remote onProgress frontendTable supabaseTable 250 _
             (batch 0) (batch 0)) by (destruct onProgress; apply H0).
  change (0 + 100 <? 250)%nat with true. cbv iota.
  (* second batch *)
  rewrite batches_unfold, Hlen.
  change (0 + 100 <? 250)%nat with true. cbv iota.
  change ((0 + 100) / BATCH_SIZE + 1) with 2. change BATCH_SIZE with 100.
  change (0 + 100) with 100. fold (batch 100).
  rewrite (attempts_all_fail remote onProgress frontendTable supabaseTable 250 _
             (batch 100) 2 3 _ error error error)
    by (destruct onProgress; apply H123; cbn; lia).
  change (100 + 100 <? 250)%nat with true. cbv iota.
  (* third batch *)
  rewrite batches_unfold, Hlen.
  change (100 + 100 <? 250)%nat with true. cbv iota.
  change ((100 + 100) / BATCH_SIZE + 1) with 3. change BATCH_SIZE with 100.
  change (100 + 100) with 200. fold (batch 200).
  rewrite (attempts_first_try remote onProgress frontendTable supabaseTable 250 _
             (batch 200) (batch 200)) by (destruct onProgress; apply H4).
  change (200 + 100 <? 250)%nat with false. cbv iota.
  rewrite batches_done by (rewrite Hlen; lia).
  destruct onProgress;
    cbn [report emit successCount failedBatches trace calls app];
    rewrite Hb0, Hb2;
    (eexists; split; [reflexivity|]; repeat split; solve [reflexivity | assumption]).
Qed.

Lemma bulk_upsert_partial_failure_witness :
  exists st,
    bulkUpsertSupabaseRecords 5 store_failing_batch_2 "items" (Some sample_records) true
    = Some ([ ("status", VStr "partial");
              ("count", VNum (Int 150));
              ("message", VStr "150/250 uploaded. 1 batches failed.") ], st)
    /\ failedBatches st = [(2, "duplicate key value")].
Proof.
  destruct (bulk_upsert_partial_failure store_failing_batch_2 "items" "items"
              sample_records "duplicate key value" true 5) as [st [Hrun [Hfailed _]]].
  - reflexivity.
  - reflexivity.
  - reflexivity.
  - intros n t rows k Hn. destruct n as [|[|[|[|n]]]]; try reflexivity; lia.
  - reflexivity.
  - lia.
  - exists st. split; assumption.
Defined.

(** C2, as stated, fails: the outcome returned after the second batch
    has failed has no [failedBatches], and none of its fields carries
    the error message of the batch. *)
Lemma bulk_outcome_lacks_failed_batches :
  exists outcome st,
    bulkUpsertSupabaseRecords 5 store_failing_batch_2 "items" (Some sample_records) true
    = Some (outcome, st)
    /\ keys outcome = ["status"; "count"; "message"]
    /\ get outcome "failedBatches" = VUndefined
    /\ existsb (fun kv => includes (ToString (snd kv)) "duplicate key value") outcome = false
    /\ failedBatches st = [(2, "duplicate key value")].
Proof.
  eexists. eexists. split; [vm_compute; reflexivity|].
  repeat split; reflexivity.
Qed.

End PartialFailure.

(* ===================================================================== *)
(** * Properties of the reconciliation *)
(* ===================================================================== *)

(** C1 (amended).  In every change-set that an import hands over (the
    asset import on any tab, the issue-request import, the stock
    import) each entity of [toUpdate] has the id of an entity of the
    target collection and no entity of [toAdd] has, so no id is in both
    lists.  (Within [toAdd] ids are not compared with each other.) *)
Theorem change_sets_reconciled (env : ambient) (data : collections) :
  (forall tab rows, rows <> [] ->
     exists st, AssetManagement.processImport env data tab rows = Some st
                /\ reconciled (AssetManagement.target_list data tab) (AssetManagement.changes st)
                /\ disjoint_ids (AssetManagement.changes st))
  /\ (forall rawRows table cs,
        HistoryTable.handleFileChange env data HistoryTable.requests rawRows
          = HistoryTable.Imported table cs ->
        reconciled (history data) cs /\ disjoint_ids cs)
  /\ (forall rawRows table cs,
        HistoryTable.handleFileChange env data HistoryTable.stock rawRows
          = HistoryTable.Imported table cs ->
        reconciled (items data) cs /\ disjoint_ids cs).
Proof.
  split; [|split].
  - intros tab rows Hne.
    destruct (processImport_total env data tab rows Hne) as [st Hst].
    exists st. pose proof (processImport_reconciled env data tab rows st Hst) as Hrec.
    repeat split; try assumption; try apply Hrec.
    now apply (reconciled_disjoint (AssetManagement.target_list data tab)).
  - intros rawRows table cs H.
    destruct (handleFileChange_requests env data rawRows table cs H) as [_ Hrec].
    split; [assumption | now apply (reconciled_disjoint (history data))].
  - intros rawRows table cs H.
    destruct (handleFileChange_stock env data rawRows table cs H) as [_ Hrec].
    split; [assumption | now apply (reconciled_disjoint (items data))].
Qed.

Lemma change_sets_reconciled_witness :
  (exists st, AssetManagement.processImport sample_env master_data "machines" repeated_id_grid
              = Some st
              /\ disjoint_ids (AssetManagement.changes st))
  /\ (exists cs, HistoryTable.handleFileChange sample_env master_data HistoryTable.requests
                   (request_grid "IT-9" "2" "Pump") = HistoryTable.Imported "history" cs
                 /\ disjoint_ids cs)
  /\ (exists cs, HistoryTable.handleFileChange sample_env master_data HistoryTable.stock
                   (request_grid "IT-9" "2" "Pump") = HistoryTable.Imported "items" cs
                 /\ disjoint_ids cs).
Proof.
  destruct (change_sets_reconciled sample_env master_data) as [Hasset [Hrequests Hstock]].
  split; [|split].
  - destruct (Hasset "machines" repeated_id_grid ltac:(discriminate)) as [st [Hst [_ Hd]]].
    exists st. split; assumption.
  - eexists. split; [vm_compute; reflexivity|].
    refine (proj2 (Hrequests (request_grid "IT-9" "2" "Pump") "history" _ _)).
    vm_compute. reflexivity.
  - eexists. split; [vm_compute; reflexivity|].
    refine (proj2 (Hstock (request_grid "IT-9" "2" "Pump") "items" _ _)).
    vm_compute. reflexivity.
Defined.

(** C1, as stated, fails: two rows of a machine sheet with the same id,
    unknown so far, are both added. *)
Lemma same_id_added_twice :
  exists cs,
    asset_changes sample_env no_data "machines" repeated_id_grid = Some cs
    /\ map (fun a => get a "id") (toAdd cs) = [VStr "M-7"; VStr "M-7"]
    /\ ~ distinct_additions cs.
Proof.
  eexists. split; [reflexivity|]. split; [reflexivity|].
  unfold distinct_additions. cbn [toAdd map]. intros H.
  inversion H as [|? ? Hnotin _]; subst. apply Hnotin. now left.
Qed.

Section BomReconciliation.

Import AssetManagement.

(** C7 (amended).  A BOM row that has no explicit id, names a machine
    and a resolved item and matches no existing record on its natural
    key is given the id [BOM-<clock>-<random>], made of the reading of
    the clock and of the draw below 10000 taken for that row; the
    natural key does not enter it. *)
Theorem bom_id_from_clock_and_random (env : ambient) (data : collections)
    (rowIndex : nat) (obj : object) :
  truthy (get obj "id") = false ->
  truthy (get obj "machineCategory") = true ->
  truthy (get obj "itemId") = true ->
  find_obj (same_bom_key obj) (bomRecords data) = None ->
  get (identify env data "bom" rowIndex obj) "id"
  = VStr ("BOM-" ++ Z_to_string (Date_now env rowIndex) ++ "-"
            ++ Z_to_string (random_below env rowIndex 10000))%string.
Proof.
  intros Hid Hmachine Hitem Hnone.
  rewrite (identify_bom env data rowIndex obj Hid Hmachine Hitem), Hnone.
  reflexivity.
Qed.

Lemma bom_id_from_clock_and_random_witness :
  get (identify sample_env master_data "bom" 1
         [("machineCategory", VStr "Pump"); ("itemId", VStr "IT-9")]) "id"
  = VStr "BOM-1700000000001-4728".
Proof.
  exact (bom_id_from_clock_and_random sample_env master_data 1
           [("machineCategory", VStr "Pump"); ("itemId", VStr "IT-9")]
           eq_refl eq_refl eq_refl eq_refl).
Defined.

(** C7, as stated, fails: two rows of one sheet with the same machine,
    model and item, unknown so far, are given different ids. *)
Lemma equal_bom_keys_different_ids :
  exists cs,
    asset_changes sample_env master_data "bom" bom_grid_twice = Some cs
    /\ toUpdate cs = []
    /\ map (fun a => (get a "machineCategory", get a "modelNo", get a "itemId", get a "id"))
           (toAdd cs)
       = [ (VStr "Pump", VStr "X1", VStr "IT-9", VStr "BOM-1700000000000-4711");
           (VStr "Pump", VStr "X1", VStr "IT-9", VStr "BOM-1700000000001-4728") ].
Proof.
  eexists. split; [vm_compute; reflexivity|]. split; reflexivity.
Qed.




End BomReconciliation.

Section UnresolvedReferences.




(** C5 (amended).  With the master data of the scenario, the BOM import
    normalizes the row to itemId IT-9, quantity 12, locationId L-1 (and
    its sort order) and then skips it, because the row has no id and
    names no machine; the issue-request import, for which the row names
    no machine either, leaves it out of both lists as well.  The same
    row with a machine column is classified into [toAdd] by the BOM
    import. *)
Theorem scenario_row_normalized_and_skipped :
  fst (AssetManagement.normalize master_data "bom" ["item code"; "qty"; "location"] [] 0
         [VStr "PN-55"; VStr "12"; VStr "Warehouse A"])
  = [ ("sortOrder", VNum (Int 0)); ("itemId", VStr "IT-9");
      ("quantity", VNum (Int 12)); ("locationId", VStr "L-1") ]
  /\ AssetManagement.processImport sample_env master_data "bom" scenario_grid
     = Some {| AssetManagement.changes := mkChangeSet [] [];
               AssetManagement.skippedRows := 1;
               AssetManagement.failedItemMatches := [] |}
  /\ HistoryTable.normalize_request sample_env
       [("Item Code", VStr "PN-55"); ("Qty", VStr "12"); ("Location", VStr "Warehouse A")]
     = Some [ ("itemId", VStr "PN-55"); ("quantity", VNum (Int 12));
              ("locationId", VStr "Warehouse A") ]
  /\ HistoryTable.handleFileChange sample_env master_data HistoryTable.requests scenario_grid
     = HistoryTable.Imported "history" (mkChangeSet [] [])
  /\ asset_changes sample_env master_data "bom" scenario_grid_with_machine
     = Some (mkChangeSet
               [[ ("sortOrder", VNum (Int 0)); ("machineCategory", VStr "Pump");
                  ("itemId", VStr "IT-9"); ("quantity", VNum (Int 12));
                  ("locationId", VStr "L-1"); ("id", VStr "BOM-1700000000000-4711");
                  ("modelNo", VStr "") ]]
               []).
Proof.
  repeat split; vm_compute; reflexivity.
Qed.

(** C5, as stated, fails: neither import classifies the row of the
    scenario into [toAdd]. *)
Lemma scenario_row_not_added :
  asset_changes sample_env master_data "bom" scenario_grid = Some (mkChangeSet [] [])
  /\ HistoryTable.handleFileChange sample_env master_data HistoryTable.requests scenario_grid
     = HistoryTable.Imported "history" (mkChangeSet [] []).
Proof.
  repeat split; vm_compute; reflexivity.
Qed.

End UnresolvedReferences.
Section LenientQuantities.




End LenientQuantities.

(* ===================================================================== *)
(** * Further properties of the persistence gateway *)
(* ===================================================================== *)

Section StoreRecords.

Import SupabaseService.

(** X1.  A column name without capitals and hyphens survives the
    translation to a camelCase key and back to snake_case. *)
Theorem column_name_round_trip (c : string) :
  column_name c = true -> toSnakeCase (toCamelCase c) = c.
Proof. apply snake_camel. Qed.

Lemma column_name_round_trip_witness :
  toCamelCase "allowed_location_ids" = "allowedLocationIds"
  /\ toSnakeCase (toCamelCase "allowed_location_ids") = "allowed_location_ids".
Proof.
  split; [reflexivity|].
  exact (column_name_round_trip "allowed_location_ids" eq_refl).
Defined.



(** X3.  Whatever the record, the row written to the store has no
    name, status or category that is null, undefined or empty; a row
    for the items table has a non-empty name and a row for the machines
    table a non-empty status. *)
Theorem stored_row_defaults (record : object) (tableName : string) :
  defaults_filled (processRecordToSupabase record tableName)
  /\ truthy (get (processRecordToSupabase record "items") "name") = true
  /\ truthy (get (processRecordToSupabase record "machines") "status") = true.
Proof.
  assert (Hloop : defaults_filled (fold_left to_store_step record [])).
  { apply to_store_loop_defaults. intros c v []. }
  split; [|split].
  - unfold processRecordToSupabase.
    destruct ((tableName =? "items") && _).
    + apply defaults_filled_set; [assumption | reflexivity].
    + destruct ((tableName =? "machines") && _); [|assumption].
      apply defaults_filled_set; [assumption | reflexivity].
  - unfold processRecordToSupabase. change ("items" =? "items") with true.
    change ("items" =? "machines") with false. cbn [andb].
    destruct (truthy (get (fold_left to_store_step record []) "name")) eqn:Hname;
      cbn [negb]; [exact Hname | now rewrite get_set_same].
  - unfold processRecordToSupabase. change ("machines" =? "items") with false.
    change ("machines" =? "machines") with true. cbn [andb].
    destruct (truthy (get (fold_left to_store_step record []) "status")) eqn:Hstatus;
      cbn [negb]; [exact Hstatus | now rewrite get_set_same].
Qed.

Lemma stored_row_defaults_witness :
  processRecordToSupabase [("id", VStr "M-1"); ("category", VStr ""); ("name", VNull)] "machines"
  = [ ("id", VStr "M-1"); ("category", VStr "General"); ("name", VStr "Unnamed");
      ("status", VStr "Working") ]
  /\ defaults_filled
       (processRecordToSupabase [("id", VStr "M-1"); ("category", VStr ""); ("name", VNull)]
          "machines").
Proof.
  split; [reflexivity|].
  exact (proj1 (stored_row_defaults [("id", VStr "M-1"); ("category", VStr ""); ("name", VNull)]
                  "machines")).
Defined.

(** X4.  No column name written to the store contains a capital
    letter. *)
Theorem stored_columns_lower_case (record : object) (tableName : string) :
  lower_case_keys (processRecordToSupabase record tableName).
Proof.
  assert (Hloop : lower_case_keys (fold_left to_store_step record [])).
  { apply to_store_loop_lower_case. intros c []. }
  unfold processRecordToSupabase.
  destruct ((tableName =? "items") && _).
  - apply lower_case_keys_set; [assumption | reflexivity].
  - destruct ((tableName =? "machines") && _); [|assumption].
    apply lower_case_keys_set; [assumption | reflexivity].
Qed.

Lemma stored_columns_lower_case_witness :
  keys (processRecordToSupabase [("machineLocalNo", VStr "7"); ("ID", VNull)] "machines")
  = ["machine_local_no"; "_i_d"; "status"]
  /\ no_capitals "_i_d" = true.
Proof.
  split; [reflexivity|].
  apply (stored_columns_lower_case [("machineLocalNo", VStr "7"); ("ID", VNull)] "machines").
  vm_compute. right. left. reflexivity.
Defined.

End StoreRecords.

Section BulkRuns.

Import SupabaseService.

(** X5.  When the store acknowledges every upsert, a bulk run over any
    non-empty record list returns success with the number of records as
    count; the upserts carry every record exactly once and in order, in
    batches of 1 to 100 rows, and the only waits are the 200 ms between
    batches. *)
Theorem bulk_upsert_all_acknowledged (remote : remote_store)
    (frontendTable supabaseTable : string) (records : list object)
    (onProgress : bool) (fuel : nat) :
  lookup_table tableMap frontendTable = Some supabaseTable ->
  records <> [] ->
  (forall n t rows k, remote n t rows k = Rows rows) ->
  length records + 1 <= fuel ->
  exists st,
    bulkUpsertSupabaseRecords fuel remote frontendTable (Some records) onProgress
    = Some ([("status", VStr "success"); ("count", VNum (Int (Z.of_nat (length records))))], st)
    /\ failedBatches st = []
    /\ concat (payloads (trace st))
       = map (fun item => processRecordToSupabase item supabaseTable) records
    /\ Forall (fun rows => 1 <= length rows <= 100) (payloads (trace st))
    /\ Forall (fun ms => ms = 200) (sleeps (trace st)).
Proof.
  intros Htable Hne Hack Hfuel.
  rewrite (bulk_upsert_unfold _ _ _ _ _ _ Htable Hne). cbv zeta.
  destruct (batches_acknowledged remote onProgress frontendTable supabaseTable
              (length records) Hack fuel records
              ((length records + (BATCH_SIZE - 1)) / BATCH_SIZE) 0 (mkRun 0 [] [] 0))
    as [st [sent [Hrun [Hcount [Hfailed [Hsent [Hconcat [Hsizes Hsleeps]]]]]]]]; [lia|].
  rewrite Hrun. cbn [successCount failedBatches trace payloads flat_map app] in *.
  rewrite report_failedBatches, Hfailed. cbn [length Nat.ltb Nat.leb].
  rewrite report_successCount, Hcount. cbn [Nat.add]. rewrite Nat.sub_0_r.
  eexists. split; [reflexivity|].
  rewrite report_failedBatches, report_payloads, report_sleeps.
  rewrite Hsent.
  repeat split; auto.
  apply Forall_forall. intros ms Hin. destruct (Hsleeps ms Hin) as [[] | H]. exact H.
Qed.

Lemma bulk_upsert_all_acknowledged_witness :
  exists st,
    bulkUpsertSupabaseRecords 251 store_acknowledging "items" (Some sample_records) false
    = Some ([("status", VStr "success"); ("count", VNum (Int 250))], st)
    /\ map (fun rows => length rows) (payloads (trace st)) = [100; 100; 50]
    /\ sleeps (trace st) = [200; 200].
Proof.
  destruct (bulk_upsert_all_acknowledged store_acknowledging "items" "items" sample_records
              false 251) as [st [Hrun _]].
  - reflexivity.
  - discriminate.
  - reflexivity.
  - vm_compute. lia.
  - exists st. split; [exact Hrun|].
    assert (Hst : bulkUpsertSupabaseRecords 251 store_acknowledging "items"
                    (Some sample_records) false
                  = Some ([("status", VStr "success"); ("count", VNum (Int 250))], st))
      by exact Hrun.
    revert Hst. vm_compute. intros Hst. inversion Hst. split; reflexivity.
Defined.

(** X6.  When the store refuses every upsert, each batch is tried three
    times and recorded as failed, in order; the run still ends, with
    status partial (not error), count 0 and a message that counts the
    failed batches. *)
Theorem bulk_upsert_all_refused (remote : remote_store)
    (frontendTable supabaseTable : string) (records : list object)
    (error : string) (onProgress : bool) (fuel : nat) :
  lookup_table tableMap frontendTable = Some supabaseTable ->
  records <> [] ->
  (forall n t rows k, remote n t rows k = Failed error) ->
  (length records + 99) / 100 + 3 <= fuel ->
  let totalBatches := (length records + 99) / 100 in
  exists st,
    bulkUpsertSupabaseRecords fuel remote frontendTable (Some records) onProgress
    = Some ([ ("status", VStr "partial");
              ("count", VNum (Int 0));
              ("message", VStr ("0/" ++ show (length records) ++ " uploaded. "
                                  ++ show totalBatches ++ " batches failed.")%string) ], st)
    /\ failedBatches st = map (fun b => (b, error)) (seq 1 totalBatches)
    /\ length (payloads (trace st)) = 3 * totalBatches.
Proof.
  intros Htable Hne Hrefuse Hfuel totalBatches.
  assert (Hlen : 0 < length records) by (destruct records; [congruence | cbn; lia]).
  pose proof (Nat.div_mod_eq (length records + 99) 100) as Hdiv.
  pose proof (Nat.mod_upper_bound (length records + 99) 100 ltac:(discriminate)) as Hmod.
  fold totalBatches in Hdiv.
  rewrite (bulk_upsert_unfold _ _ _ _ _ _ Htable Hne). cbv zeta.
  change (BATCH_SIZE - 1) with 99. change BATCH_SIZE with 100. fold totalBatches.
  destruct (batches_refused remote onProgress frontendTable supabaseTable (length records)
              error Hrefuse totalBatches fuel records totalBatches 0 (mkRun 0 [] [] 0))
    as [st [Hrun [Hcount [Hfailed [Hcalls Hsent]]]]]; try lia.
  change (100 * 0) with 0 in Hrun. rewrite Hrun.
  cbn [successCount failedBatches trace calls payloads flat_map app length] in *.
  rewrite report_failedBatches, report_successCount, Hfailed, Hcount.
  rewrite length_map, length_seq.
  assert (Hpos : (0 <? totalBatches)%nat = true) by (apply Nat.ltb_lt; lia).
  rewrite Hpos. eexists. split; [reflexivity|].
  rewrite report_failedBatches, report_payloads. split; [exact Hfailed | exact Hsent].
Qed.

Lemma bulk_upsert_all_refused_witness :
  exists st,
    bulkUpsertSupabaseRecords 6 (store_refusing "timeout") "items" (Some sample_records) false
    = Some ([ ("status", VStr "partial"); ("count", VNum (Int 0));
              ("message", VStr "0/250 uploaded. 3 batches failed.") ], st)
    /\ failedBatches st = [(1, "timeout"); (2, "timeout"); (3, "timeout")].
Proof.
  destruct (bulk_upsert_all_refused (store_refusing "timeout") "items" "items" sample_records
              "timeout" false 6) as [st [Hrun [Hfailed _]]].
  - reflexivity.
  - discriminate.
  - reflexivity.
  - vm_compute. lia.
  - exists st. split; [exact Hrun | exact Hfailed].
Defined.

(** X7.  A batch that the store refuses twice and acknowledges at the
    third attempt counts as a success: for up to 100 records the run
    returns success with all records counted, records no failed batch,
    and has waited 1000 ms and 2000 ms between the attempts. *)
Theorem bulk_upsert_third_attempt (remote : remote_store)
    (frontendTable supabaseTable : string) (records : list object)
    (e1 e2 : string) (onProgress : bool) (fuel : nat) :
  lookup_table tableMap frontendTable = Some supabaseTable ->
  records <> [] ->
  length records <= 100 ->
  (forall t rows k, remote 0 t rows k = Failed e1) ->
  (forall t rows k, remote 1 t rows k = Failed e2) ->
  (forall t rows k, remote 2 t rows k = Rows rows) ->
  4 <= fuel ->
  exists st,
    bulkUpsertSupabaseRecords fuel remote frontendTable (Some records) onProgress
    = Some ([("status", VStr "success"); ("count", VNum (Int (Z.of_nat (length records))))], st)
    /\ failedBatches st = []
    /\ payloads (trace st)
       = repeat (map (fun item => processRecordToSupabase item supabaseTable) records) 3
    /\ sleeps (trace st) = [1000; 2000].
Proof.
  intros Htable Hne Hsize H0 H1 H2 Hfuel.
  assert (Hlen : 0 < length records) by (destruct records; [congruence | cbn; lia]).
  destruct fuel as [|[|[|[|fuel]]]]; try lia.
  rewrite (bulk_upsert_unfold _ _ _ _ _ _ Htable Hne). cbv zeta.
  rewrite batches_unfold.
  assert (Hlt : (0 <? length records)%nat = true) by now apply Nat.ltb_lt.
  rewrite Hlt.
  assert (Hchunk : firstn BATCH_SIZE (skipn 0 records) = records).
  { cbn [skipn]. apply firstn_all2. unfold BATCH_SIZE. lia. }
  rewrite Hchunk.
  set (chunk := map (fun item => processRecordToSupabase item supabaseTable) records).
  rewrite (attempts_third_try remote onProgress frontendTable supabaseTable (length records)
             fuel chunk chunk _ _ _ e1 e2)
    by (rewrite ?report_calls; cbn [calls]; auto).
  assert (Hlast : (0 + BATCH_SIZE <? length records)%nat = false)
    by (apply Nat.ltb_ge; unfold BATCH_SIZE; lia).
  rewrite Hlast. rewrite batches_done by (unfold BATCH_SIZE; lia).
  destruct onProgress;
    cbn [report emit successCount failedBatches trace calls app length Nat.ltb Nat.leb Nat.add];
    (eexists; split;
     [unfold chunk; rewrite length_map; reflexivity | repeat split; reflexivity]).
Qed.

Lemma bulk_upsert_third_attempt_witness :
  exists st,
    bulkUpsertSupabaseRecords 4
      (fun n _ rows _ => match n with
                         | 0 => Failed "busy" | 1 => Failed "busy" | _ => Rows rows
                         end)
      "machines" (Some [pump]) true
    = Some ([("status", VStr "success"); ("count", VNum (Int 1))], st)
    /\ sleeps (trace st) = [1000; 2000].
Proof.
  destruct (bulk_upsert_third_attempt
              (fun n _ rows _ => match n with
                                 | 0 => Failed "busy" | 1 => Failed "busy" | _ => Rows rows
                                 end)
              "machines" "machines" [pump] "busy" "busy" true 4)
    as [st [Hrun [_ [_ Hsleeps]]]]; try reflexivity; try discriminate; try (cbn; lia).
  exists st. split; [exact Hrun | exact Hsleeps].
Defined.

(** X8.  When the store answers every upsert with neither an error nor
    rows, the retry loop repeats the upsert without counting the
    attempt, and a bulk run over a non-empty record list never
    returns. *)
Theorem bulk_upsert_never_returns (remote : remote_store)
    (frontendTable supabaseTable : string) (records : list object)
    (onProgress : bool) (fuel : nat) :
  lookup_table tableMap frontendTable = Some supabaseTable ->
  records <> [] ->
  (forall n t rows k, remote n t rows k = Silent) ->
  bulkUpsertSupabaseRecords fuel remote frontendTable (Some records) onProgress = None.
Proof.
  intros Htable Hne Hsilent.
  rewrite (bulk_upsert_unfold _ _ _ _ _ _ Htable Hne). cbv zeta.
  rewrite (batches_silent remote onProgress frontendTable supabaseTable (length records) Hsilent).
  - reflexivity.
  - destruct records; [congruence | cbn; lia].
Qed.

Lemma bulk_upsert_never_returns_witness :
  bulkUpsertSupabaseRecords 1000 store_silent "machines" (Some [pump]) true = None.
Proof.
  apply (bulk_upsert_never_returns store_silent "machines" "machines" [pump] true 1000).
  - reflexivity.
  - discriminate.
  - reflexivity.
Defined.

End BulkRuns.

(* ===================================================================== *)
(** * Further properties of the asset import *)
(* ===================================================================== *)

Section AssetImport.

Import AssetManagement.

(** X9.  Every entity that the asset import hands over, added or
    updated, has an id and the fields that its tab makes mandatory:
    category and status for machines, machine name and status for
    breakdowns, machine category and item for BOM lines. *)
Theorem asset_entities_complete (env : ambient) (data : collections) (tab : string)
    (rows : list (list value)) (st : import_state) :
  processImport env data tab rows = Some st ->
  Forall (fun o => complete_entity tab o = true)
         (toAdd (changes st) ++ toUpdate (changes st)).
Proof.
  apply (processImport_invariant env data tab
           (fun st => Forall (fun o => complete_entity tab o = true)
                             (toAdd (changes st) ++ toUpdate (changes st)))).
  - constructor.
  - intros headers st0 ir. apply import_row_complete.
Qed.

Lemma asset_entities_complete_witness :
  exists st,
    processImport sample_env (with_machines master_data [pump_with_chassis]) "machines"
      chassis_grid = Some st
    /\ length (toAdd (changes st)) = 1 /\ length (toUpdate (changes st)) = 1
    /\ Forall (fun o => complete_entity "machines" o = true)
              (toAdd (changes st) ++ toUpdate (changes st)).
Proof.
  eexists. split; [vm_compute; reflexivity|]. split; [reflexivity|]. split; [reflexivity|].
  refine (asset_entities_complete sample_env (with_machines master_data [pump_with_chassis])
            "machines" chassis_grid _ _).
  vm_compute. reflexivity.
Defined.

(** X10.  The asset import accounts for its data rows: the entities
    added, the entities updated and the rows counted as skipped are
    together at most the rows after the header, and exactly those rows
    on every tab but the BOM tab, where a row with an id and without a
    resolved item is left out without being counted. *)
Theorem asset_rows_accounted (env : ambient) (data : collections) (tab : string)
    (rows : list (list value)) (st : import_state) :
  processImport env data tab rows = Some st ->
  accounted st <= length (asset_data_rows rows)
  /\ (tab <> "bom" -> accounted st = length (asset_data_rows rows)).
Proof.
  unfold processImport, asset_data_rows.
  destruct (nth_error rows (headerRowIndex rows)) as [headerRow|]; [|discriminate].
  intros H. inversion H; subst. clear H.
  destruct (import_rows_accounted env data tab
              (map (fun h => trim (toLowerCase (ToString h))) headerRow)
              (combine (seq 0 (length (skipn (headerRowIndex rows + 1) rows)))
                       (skipn (headerRowIndex rows + 1) rows))
              (mkState (mkChangeSet [] []) 0 [])) as [Hle Heq].
  rewrite length_combine, length_seq, Nat.min_id in Hle, Heq.
  unfold accounted at 2 in Hle. unfold accounted at 2 in Heq. cbn in Hle, Heq.
  split; [lia|]. intros Hne. rewrite (Heq Hne). lia.
Qed.

Lemma asset_rows_accounted_witness :
  (exists st,
     processImport sample_env (with_machines master_data [pump_with_chassis]) "machines"
       chassis_grid = Some st
     /\ accounted st = 3 /\ length (asset_data_rows chassis_grid) = 3)
  /\ (exists st,
        processImport sample_env master_data "bom" bom_grid_unknown_items = Some st
        /\ accounted st = 3 /\ length (asset_data_rows bom_grid_unknown_items) = 4).
Proof.
  split.
  - eexists. split; [vm_compute; reflexivity|]. split; [|reflexivity].
    refine (proj2 (asset_rows_accounted sample_env (with_machines master_data [pump_with_chassis])
                     "machines" chassis_grid _ _) _); [vm_compute; reflexivity | discriminate].
  - eexists. split; [vm_compute; reflexivity|]. split; [reflexivity|reflexivity].
Defined.

(** X11.  The item codes that the BOM import reports as failed matches
    are distinct, none of them is empty, and none of them is answered by
    an item of the master data; on the other tabs the list stays
    empty. *)
Theorem failed_item_codes_unresolved (env : ambient) (data : collections) (tab : string)
    (rows : list (list value)) (st : import_state) :
  processImport env data tab rows = Some st ->
  unresolved_codes (items data) (failedItemMatches st)
  /\ (tab <> "bom" -> failedItemMatches st = []).
Proof.
  apply (processImport_invariant env data tab
           (fun st => unresolved_codes (items data) (failedItemMatches st)
                      /\ (tab <> "bom" -> failedItemMatches st = []))).
  - split; [split; constructor | reflexivity].
  - intros headers st0 ir [Hcodes Hother]. rewrite import_row_failed. split.
    + now apply normalize_unresolved.
    + intros Hne. rewrite normalize_other_tab by assumption. now apply Hother.
Qed.

Lemma failed_item_codes_unresolved_witness :
  exists st,
    processImport sample_env master_data "bom" bom_grid_unknown_items = Some st
    /\ failedItemMatches st = ["ZZ-1"; "ZZ-2"]
    /\ unresolved_codes (items master_data) (failedItemMatches st).
Proof.
  eexists. split; [vm_compute; reflexivity|]. split; [reflexivity|].
  refine (proj1 (failed_item_codes_unresolved sample_env master_data "bom"
                   bom_grid_unknown_items _ _)).
  vm_compute. reflexivity.
Defined.

(** X12.  A machine row without explicit id is reconciled by its
    chassis number.  When the machines hold that chassis number, under
    the id [s] and no other, the row goes to [toUpdate] under [s].  When
    no machine has it, a row with a category is added under the id
    [M-<random + 100000>] and a row without category is counted as
    skipped. *)
Theorem machine_row_by_chassis (env : ambient) (data : collections)
    (rowIndex : nat) (obj : object) (c : string) :
  NoDup (keys obj) ->
  truthy (get obj "id") = false ->
  get obj "chassisNo" = VStr c -> c <> EmptyString ->
  (forall s, s <> EmptyString ->
     (exists m, In m (machines data) /\ get m "chassisNo" = VStr c) ->
     (forall m, In m (machines data) -> get m "chassisNo" = VStr c -> get m "id" = VStr s) ->
     exists u, classify env data "machines" rowIndex obj = Update u
               /\ get u "id" = VStr s /\ get u "chassisNo" = VStr c)
  /\ ((forall m, In m (machines data) -> get m "chassisNo" <> VStr c) ->
      truthy (get obj "category") = true ->
      ~ known_id (machines data) (VStr (synthesize_machine_id env rowIndex)) ->
      exists a, classify env data "machines" rowIndex obj = Add a
                /\ get a "id" = VStr (synthesize_machine_id env rowIndex)
                /\ get a "chassisNo" = VStr c)
  /\ ((forall m, In m (machines data) -> get m "chassisNo" <> VStr c) ->
      truthy (get obj "category") = false ->
      classify env data "machines" rowIndex obj = Skipped).
Proof.
  intros Hnd Hid Hc Hne.
  assert (Hchassis : truthy (get obj "chassisNo") = true).
  { rewrite Hc. cbn. apply String.eqb_neq in Hne. now rewrite Hne. }
  pose proof (identify_machine env data rowIndex obj Hid Hchassis) as Hident.
  rewrite Hc in Hident.
  split; [|split].
  - intros s Hs [m [Hin Hm]] Honly.
    destruct (find_accepts (fun m => strict_eq (get m "chassisNo") (VStr c)) (machines data) m Hin)
      as [m' Hfind]; [rewrite Hm; apply strict_eq_string|].
    unfold find_obj in Hident. rewrite Hfind in Hident.
    apply find_some in Hfind. destruct Hfind as [Hin' Hm']. apply strict_eq_true in Hm'.
    pose proof (Honly m' Hin' Hm') as Hid'. rewrite Hid' in Hident.
    assert (Hs' : truthy (VStr s) = true) by (cbn; apply String.eqb_neq in Hs; now rewrite Hs).
    rewrite Hs' in Hident. cbn [negb andb] in Hident.
    assert (Hidv : get (identify env data "machines" rowIndex obj) "id" = VStr s)
      by (rewrite Hident; apply get_set_same).
    assert (Htruthy : truthy (get (identify env data "machines" rowIndex obj) "id") = true)
      by now rewrite Hidv.
    rewrite (classify_machine env data rowIndex obj Htruthy), Hidv.
    destruct (find_first_known (machines data) m' s Hin' Hid') as [e [He _]].
    rewrite He. eexists. split; [reflexivity|].
    assert (Hkeys : NoDup (keys (apply_defaults "machines" (identify env data "machines" rowIndex obj))))
      by now apply apply_defaults_keys, identify_keys.
    split.
    + rewrite spread_id; [now rewrite apply_defaults_id | assumption | now rewrite apply_defaults_id].
    + assert (Hch : get (apply_defaults "machines" (identify env data "machines" rowIndex obj))
                      "chassisNo" = VStr c).
      { rewrite apply_defaults_machine_chassis, Hident.
        rewrite get_set_other by discriminate. exact Hc. }
      rewrite get_spread; [assumption | assumption |]. apply present_key. rewrite Hch. discriminate.
  - intros Hnone Hcat Hfresh.
    assert (Hfind : find_obj (fun m => strict_eq (get m "chassisNo") (VStr c)) (machines data) = None).
    { destruct (find_obj _ (machines data)) as [m'|] eqn:Hfind; [|reflexivity].
      apply find_some in Hfind. destruct Hfind as [Hin Hm]. apply strict_eq_true in Hm.
      now apply Hnone in Hm. }
    rewrite Hfind, Hcat in Hident.
    assert (Hidv : get (identify env data "machines" rowIndex obj) "id"
                   = VStr (synthesize_machine_id env rowIndex))
      by (rewrite Hident; apply get_set_same).
    assert (Htruthy : truthy (get (identify env data "machines" rowIndex obj) "id") = true)
      by (rewrite Hidv; reflexivity).
    rewrite (classify_machine env data rowIndex obj Htruthy), Hidv.
    destruct (find_obj (fun i => strict_eq (get i "id") (VStr (synthesize_machine_id env rowIndex)))
                (machines data)) as [e|] eqn:Hbyid.
    { exfalso. apply Hfresh. now apply find_known in Hbyid. }
    eexists. split; [reflexivity|]. split.
    + now rewrite apply_defaults_id.
    + rewrite apply_defaults_machine_chassis, Hident.
      rewrite get_set_other by discriminate. exact Hc.
  - intros Hnone Hcat.
    assert (Hfind : find_obj (fun m => strict_eq (get m "chassisNo") (VStr c)) (machines data) = None).
    { destruct (find_obj _ (machines data)) as [m'|] eqn:Hfind; [|reflexivity].
      apply find_some in Hfind. destruct Hfind as [Hin Hm]. apply strict_eq_true in Hm.
      now apply Hnone in Hm. }
    rewrite Hfind, Hcat in Hident. unfold classify. rewrite Hident, Hid. reflexivity.
Qed.

Lemma machine_row_by_chassis_witness :
  (exists u,
     classify sample_env (with_machines master_data [pump_with_chassis]) "machines" 0
       [("category", VStr "Pump"); ("chassisNo", VStr "CH-77"); ("status", VStr "Stopped")]
     = Update u
     /\ get u "id" = VStr "M-1" /\ get u "chassisNo" = VStr "CH-77")
  /\ (exists a,
        classify sample_env (with_machines master_data [pump_with_chassis]) "machines" 1
          [("category", VStr "Crane"); ("chassisNo", VStr "CH-99"); ("status", VStr "")]
        = Add a
        /\ get a "id" = VStr "M-104728" /\ get a "chassisNo" = VStr "CH-99")
  /\ classify sample_env (with_machines master_data [pump_with_chassis]) "machines" 2
       [("category", VStr ""); ("chassisNo", VStr "CH-00"); ("status", VStr "Working")]
     = Skipped.
Proof.
  split; [|split].
  - destruct (machine_row_by_chassis sample_env (with_machines master_data [pump_with_chassis]) 0
                [("category", VStr "Pump"); ("chassisNo", VStr "CH-77"); ("status", VStr "Stopped")]
                "CH-77") as [Hupdate _].
    + unfold keys. cbn [map fst]. repeat constructor; cbn [In]; intuition discriminate.
    + reflexivity.
    + reflexivity.
    + discriminate.
    + apply (Hupdate "M-1").
      * discriminate.
      * exists pump_with_chassis. split; [now left | reflexivity].
      * intros m [<- | []] _. reflexivity.
  - destruct (machine_row_by_chassis sample_env (with_machines master_data [pump_with_chassis]) 1
                [("category", VStr "Crane"); ("chassisNo", VStr "CH-99"); ("status", VStr "")]
                "CH-99") as [_ [Hadd _]].
    + unfold keys. cbn [map fst]. repeat constructor; cbn [In]; intuition discriminate.
    + reflexivity.
    + reflexivity.
    + discriminate.
    + apply Hadd.
      * intros m [<- | []]. discriminate.
      * reflexivity.
      * intros [e [[<- | []] He]]. discriminate.
  - destruct (machine_row_by_chassis sample_env (with_machines master_data [pump_with_chassis]) 2
                [("category", VStr ""); ("chassisNo", VStr "CH-00"); ("status", VStr "Working")]
                "CH-00") as [_ [_ Hskip]].
    + unfold keys. cbn [map fst]. repeat constructor; cbn [In]; intuition discriminate.
    + reflexivity.
    + reflexivity.
    + discriminate.
    + apply Hskip.
      * intros m [<- | []]. discriminate.
      * reflexivity.
Defined.

End AssetImport.
